(** * spdlog pattern formatter: a shallow embedding and its properties

    Embedded sources:
    - [include/spdlog/details/fmt_helper.h]
      ([append_int], [pad2], [pad3], [pad6], [time_fraction]);
    - [include/spdlog/details/pattern_formatter_impl.h]
      (the flag formatters, [compile_pattern], [handle_flag], [format]).

    Conventions.  A C++ [int] is a [Z]; arithmetic that can leave the
    32-bit range is wrapped with [static_cast_int] / [static_cast_uint].
    C++ [/] and [%] truncate toward zero and are [Z.quot] and [Z.rem].
    A [std::string] is a [string]; the output buffer ([fmt::MemoryWriter],
    [fmt::basic_memory_buffer]) is a [string] that every operation returns
    extended on the right.  A [log_clock::time_point] is the signed tick
    count since the epoch.  A call that does not return, because its
    behaviour is undefined or because it throws, gives [None]. *)

From Stdlib Require Import ZArith List String Ascii Bool Lia.
Import ListNotations.

Open Scope string_scope.
Open Scope Z_scope.

(* ------------------------------------------------------------------ *)
(** ** Machine integers and characters *)

Definition static_cast_int (z : Z) : Z := (z + 2 ^ 31) mod 2 ^ 32 - 2 ^ 31.

Definition static_cast_uint (z : Z) : Z := z mod 2 ^ 32.

Definition static_cast_size_t (z : Z) : Z := z mod 2 ^ 64.

(** [static_cast<char>(i)] for an [int] [i]. *)
Definition static_cast_char (i : Z) : ascii := ascii_of_N (Z.to_N (i mod 256)).

(** The code point of a [char], as the [int] it promotes to. *)
Definition char_code (c : ascii) : Z := Z.of_N (N_of_ascii c).

(** [std::string(n, ch)]. *)
Fixpoint string_fill (n : nat) (ch : ascii) : string :=
  match n with
  | O => ""
  | S k => String ch (string_fill k ch)
  end.

(** [dest.push_back(ch)] and [str += ch]. *)
Definition push_back (dest : string) (ch : ascii) : string :=
  dest ++ String ch "".

(* ------------------------------------------------------------------ *)
(** ** The fmt library, as far as the formatter uses it *)

Module fmt.

(** Modelled from the spec: the digit count behind the decimal text of
    the bundled fmt library, which is not among the embedded sources: the
    number of decimal digits of a non-negative [n], at least one.  The fuel
    of the loop is the binary logarithm, which bounds the decimal one. *)
Fixpoint count_digits_loop (fuel : nat) (n : Z) : nat :=
  match fuel with
  | O => 1%nat
  | S f => if n <? 10 then 1%nat else S (count_digits_loop f (n / 10))
  end.

Definition count_digits (n : Z) : nat :=
  count_digits_loop (Z.to_nat (Z.log2 n)) n.

(** Modelled from the spec: the digit writer behind the decimal text of
    the bundled fmt library: the [num_digits] low decimal digits of [n],
    most significant first, in front of [tail]. *)
Fixpoint format_decimal (num_digits : nat) (n : Z) (tail : string) : string :=
  match num_digits with
  | O => tail
  | S k => format_decimal k (n / 10) (String (static_cast_char (48 + n mod 10)) tail)
  end.

(** Modelled from the spec: the decimal text of a non-negative integer,
    as the bundled fmt library writes it: its digits, without padding. *)
Definition format_uint (n : Z) : string :=
  format_decimal (count_digits n) n "".

(** Modelled from the spec: [fmt::format_int] and [operator<<] on an
    integer (the bundled fmt library is not among the embedded sources):
    the decimal text of the integer, with a leading minus sign when it is
    negative. *)
Definition format_int (n : Z) : string :=
  if n <? 0 then "-" ++ format_uint (- n) else format_uint n.

(** Modelled from the spec: [fmt::pad(value, width, fill)] written to a
    writer (the bundled fmt library is not among the embedded sources): the
    text of [value] filled on the left to at least [width] characters,
    never truncated.  The fill goes in front of the whole number, sign
    included, which is the library's default alignment. *)
Definition pad (value : Z) (width : Z) (fill : ascii) : string :=
  let text := format_int value in
  let size := Z.of_nat (String.length text) in
  if width <=? size then text
  else string_fill (Z.to_nat (width - size)) fill ++ text.

(** Modelled from the spec: [fmt::format_to(dest, "{:0w}", n)] (the bundled
    fmt library is not among the embedded sources): the generic zero-padded
    signed format of minimum width [w]; the sign comes first and the zeros
    go between the sign and the digits. *)
Definition format_zero_padded (w : Z) (n : Z) : string :=
  let sign := if n <? 0 then "-" else "" in
  let digits := format_uint (Z.abs n) in
  let size := Z.of_nat (String.length sign + String.length digits) in
  sign ++ string_fill (Z.to_nat (w - size)) "0" ++ digits.

End fmt.

(* ------------------------------------------------------------------ *)
(** ** [fmt_helper.h] *)

Module fmt_helper.

(** [append_int(n, dest)]. *)
Definition append_int (n : Z) (dest : string) : string :=
  dest ++ fmt.format_int n.

(** [pad2(int n, dest)]. *)
Definition pad2 (n : Z) (dest : string) : string :=
  if n >? 99 then append_int n dest
  else if n >? 9 then
    push_back (push_back dest (static_cast_char (48 + Z.quot n 10)))
              (static_cast_char (48 + Z.rem n 10))
  else if n >=? 0 then
    push_back (push_back dest "0"%char) (static_cast_char (48 + n))
  else dest ++ fmt.format_zero_padded 2 n.

(** [pad3(int n, dest)]. *)
Definition pad3 (n : Z) (dest : string) : string :=
  if n >? 999 then append_int n dest
  else if n >? 99 then
    pad2 (Z.rem n 100) (push_back dest (static_cast_char (48 + Z.quot n 100)))
  else if n >? 9 then
    push_back
      (push_back (push_back dest "0"%char) (static_cast_char (48 + Z.quot n 10)))
      (static_cast_char (48 + Z.rem n 10))
  else if n >=? 0 then
    push_back (push_back (push_back dest "0"%char) "0"%char)
              (static_cast_char (48 + n))
  else dest ++ fmt.format_zero_padded 3 n.

(** [pad6(size_t n, dest)]; [n] is unsigned, so [/] and [%] are the
    ordinary quotient and remainder. *)
Definition pad6 (n : Z) (dest : string) : string :=
  if n >? 99999 then append_int n dest
  else pad3 (static_cast_int (n mod 1000)) (pad3 (static_cast_int (n / 1000)) dest).

(** [std::chrono::duration_cast]: a count of ticks, [from_per_second] of
    which make a second, converted to a unit of which [to_per_second] make
    a second; integer conversion truncates toward zero. *)
Definition duration_cast (from_per_second to_per_second : Z) (count : Z) : Z :=
  Z.quot (count * to_per_second) from_per_second.

(** [time_fraction<ToDuration>(tp)], for a clock of [ticks_per_second] and
    a [ToDuration] of which [unit_per_second] make a second. *)
Definition time_fraction (ticks_per_second unit_per_second : Z) (tp : Z) : Z :=
  let duration := tp in
  let secs := duration_cast ticks_per_second 1 duration in
  duration_cast ticks_per_second unit_per_second duration
  - duration_cast 1 unit_per_second secs.

End fmt_helper.

(* ------------------------------------------------------------------ *)
(** ** [fmt::format] with a format string *)

Definition INT_MAX : Z := 2 ^ 31 - 1.

Inductive fmt_alignment :=
  ALIGN_DEFAULT | ALIGN_LEFT | ALIGN_RIGHT | ALIGN_CENTER | ALIGN_NUMERIC.

Record fmt_spec := {
  spec_fill : ascii;
  spec_align : fmt_alignment;
  spec_width : Z
}.

Definition fmt_align_of (c : ascii) : fmt_alignment :=
  match c with
  | "<"%char => ALIGN_LEFT
  | ">"%char => ALIGN_RIGHT
  | "="%char => ALIGN_NUMERIC
  | "^"%char => ALIGN_CENTER
  | _ => ALIGN_DEFAULT
  end.

Definition fmt_is_align (c : ascii) : bool :=
  match fmt_align_of c with
  | ALIGN_DEFAULT => false
  | _ => true
  end.

Definition fmt_is_digit (c : ascii) : bool :=
  (48 <=? char_code c) && (char_code c <=? 57).

(** The value of the run of digits at the head of [s], and what follows
    the run. *)
Fixpoint fmt_parse_digits (s : string) (value : Z) : Z * string :=
  match s with
  | "" => (value, "")
  | String c rest =>
      if fmt_is_digit c
      then fmt_parse_digits rest (value * 10 + (char_code c - 48))
      else (value, s)
  end.

(** Modelled from the spec: the format specification of a replacement
    field of [fmt::format], that is the text between the [':'] and the
    ['}'] (the bundled fmt library is not among the embedded sources).  The
    grammar covered is the one [pad_space_right] uses: an optional fill
    character with an alignment, an optional zero flag and an optional
    width; a width above [INT_MAX] is a format error.  Anything else in the
    specification is outside this model and gives [None] as well. *)
Definition fmt_parse_spec (s : string) : option fmt_spec :=
  let '(fill, align, s) :=
    match s with
    | String c (String a rest) =>
        if fmt_is_align a then (c, fmt_align_of a, rest)
        else if fmt_is_align c then (" "%char, fmt_align_of c, String a rest)
        else (" "%char, ALIGN_DEFAULT, s)
    | String c "" =>
        if fmt_is_align c then (" "%char, fmt_align_of c, "")
        else (" "%char, ALIGN_DEFAULT, s)
    | "" => (" "%char, ALIGN_DEFAULT, "")
    end in
  let '(fill, align, s) :=
    match s with
    | String "0"%char rest => ("0"%char, ALIGN_NUMERIC, rest)
    | _ => (fill, align, s)
    end in
  match s with
  | "" => Some {| spec_fill := fill; spec_align := align; spec_width := 0 |}
  | String c _ =>
      if fmt_is_digit c then
        let '(width, rest) := fmt_parse_digits s 0 in
        if width >? INT_MAX then None
        else match rest with
             | "" => Some {| spec_fill := fill; spec_align := align;
                             spec_width := width |}
             | _ => None
             end
      else None
  end.

(** The specification of the field whose text between the braces is
    [field]: nothing for the default format, or [':'] and a format
    specification. *)
Definition fmt_field_spec (field : string) : option fmt_spec :=
  match field with
  | "" => Some {| spec_fill := " "%char; spec_align := ALIGN_DEFAULT;
                  spec_width := 0 |}
  | String ":"%char spec => fmt_parse_spec spec
  | _ => None
  end.

(** Modelled from the spec: an unsigned integer written under a format
    specification (the bundled fmt library is not among the embedded
    sources): its decimal text, filled to the width on the side the
    alignment leaves free, never truncated; [None] when the padding is
    longer than [limit] characters and cannot be built. *)
Definition fmt_write_uint (limit : Z) (spec : fmt_spec) (value : Z)
  : option string :=
  let text := fmt.format_uint value in
  let size := Z.of_nat (String.length text) in
  if spec_width spec <=? size then Some text
  else
    let padding := spec_width spec - size in
    if padding >? limit then None
    else
      let fill n := string_fill (Z.to_nat n) (spec_fill spec) in
      Some (match spec_align spec with
            | ALIGN_LEFT => text ++ fill padding
            | ALIGN_CENTER =>
                fill (padding / 2) ++ text ++ fill (padding - padding / 2)
            | _ => fill padding ++ text
            end).

(** Modelled from the spec: the scan of a format string by [fmt::format]
    with one unsigned integer argument (the bundled fmt library is not
    among the embedded sources).  ["{{"] and ["}}"] stand for a brace, a
    replacement field takes the argument, and any other character is
    copied.  [field] is the text of the replacement field being read,
    [arg] the argument while it is unused, [out] the output so far.  A
    lone ['}'], a field left open, a second field and a field this model
    does not cover give [None], a format error. *)
Fixpoint fmt_format_loop (limit : Z) (s : string) (field : option string)
    (arg : option Z) (out : string) : option string :=
  match s with
  | "" =>
      match field with
      | None => Some out
      | Some _ => None
      end
  | String c rest =>
      match field with
      | Some text =>
          if Ascii.eqb c "}" then
            match arg, fmt_field_spec text with
            | Some value, Some spec =>
                match fmt_write_uint limit spec value with
                | Some written =>
                    fmt_format_loop limit rest None None (out ++ written)
                | None => None
                end
            | _, _ => None
            end
          else fmt_format_loop limit rest (Some (text ++ String c "")) arg out
      | None =>
          if Ascii.eqb c "{" then
            match rest with
            | String "{"%char rest' =>
                fmt_format_loop limit rest' None arg (out ++ "{")
            | _ => fmt_format_loop limit rest (Some "") arg out
            end
          else if Ascii.eqb c "}" then
            match rest with
            | String "}"%char rest' =>
                fmt_format_loop limit rest' None arg (out ++ "}")
            | _ => None
            end
          else fmt_format_loop limit rest None arg (out ++ String c "")
      end
  end.

(** [fmt::format(format_str, value)] for an unsigned integer [value]. *)
Definition fmt_format (limit : Z) (format_str : string) (value : Z)
  : option string :=
  fmt_format_loop limit format_str None (Some value) "".

(* ------------------------------------------------------------------ *)
(** ** Records, build configuration and collaborators *)

(** [std::tm]. *)
Record tm := {
  tm_sec : Z;
  tm_min : Z;
  tm_hour : Z;
  tm_mday : Z;
  tm_mon : Z;
  tm_year : Z;
  tm_wday : Z;
  tm_yday : Z;
  tm_isdst : Z
}.

(** [level::level_enum], by its integer value. *)
Definition level_enum := Z.

(** [details::log_msg]; [logger_name] is the string the record points to,
    [time] the tick count of [log_clock] since the epoch. *)
Record log_msg := {
  logger_name : string;
  level : level_enum;
  time : Z;
  thread_id : Z;
  raw : string;
  formatted : string;
  msg_id : Z
}.

Definition set_formatted (msg : log_msg) (w : string) : log_msg :=
  {| logger_name := logger_name msg;
     level := level msg;
     time := time msg;
     thread_id := thread_id msg;
     raw := raw msg;
     formatted := w;
     msg_id := msg_id msg |}.

(** The preprocessor symbols the header tests. *)
Record build_config := {
  WIN32 : bool;
  SPDLOG_NO_DATETIME : bool;
  SPDLOG_NO_NAME : bool;
  SPDLOG_ENABLE_MESSAGE_COUNTER : bool
}.

(** What the header takes from [common.h] and [os.h], which are not among
    the embedded sources: the level name tables, the process id, the UTC
    offset query, the calendar breakdown, the line terminator, the largest
    [unsigned long] and the tick rate of [log_clock].  [indeterminate_tm] stands for the value of the
    uninitialised [std::tm] that [format] declares under
    [SPDLOG_NO_DATETIME]; no formatter that returns reads it.  [max_fill]
    is the longest run of fill characters that can be built when the call
    is made: a longer one makes [std::string(count, ' ')] throw
    [std::length_error] (above [max_size()]) or the allocator throw
    [std::bad_alloc]. *)
Record environment := {
  level_to_str : level_enum -> string;
  level_to_short_str : level_enum -> string;
  os_pid : Z;
  os_utc_minutes_offset : tm -> Z;
  os_localtime : Z -> tm;
  os_gmtime : Z -> tm;
  os_eol : string;
  ULONG_MAX : Z;
  ticks_per_second : Z;
  indeterminate_tm : tm;
  max_fill : Z
}.

Inductive pattern_time_type := local | utc.

(* ------------------------------------------------------------------ *)
(** ** The flag formatters *)

(** One constructor per class derived from [flag_formatter].  The classes
    whose constructor takes [length] carry [_length]; the others are built
    with the base default [_length = 0] and never read it.  [z_formatter]
    carries its members [_last_update] and [_offset_minutes];
    [ch_formatter] and [aggregate_formatter] carry [_ch] and [_str]. *)
Inductive flag_formatter :=
| name_formatter (_length : Z)
| level_formatter (_length : Z)
| short_level_formatter (_length : Z)
| a_formatter (_length : Z)
| i_formatter
| A_formatter (_length : Z)
| b_formatter (_length : Z)
| B_formatter (_length : Z)
| c_formatter
| C_formatter
| D_formatter
| Y_formatter
| m_formatter
| d_formatter
| H_formatter
| I_formatter
| M_formatter
| S_formatter
| e_formatter
| f_formatter
| F_formatter
| p_formatter
| r_formatter
| R_formatter
| T_formatter
| z_formatter (_last_update : Z) (_offset_minutes : Z)
| t_formatter (_length : Z)
| pid_formatter (_length : Z)
| v_formatter
| ch_formatter (_ch : ascii)
| aggregate_formatter (_str : string)
| full_formatter.

(** Member access in C++: a [class] body starts [private]. *)
Inductive access_specifier := access_public | access_private.

(** The access of the constructor that [handle_flag] calls in
    [new details::X(...)], read off each class body: a constructor written
    below [public:] and an implicitly declared one are public;
    [pid_formatter] declares its constructor before any access specifier. *)
Definition constructor_access (f : flag_formatter) : access_specifier :=
  match f with
  | pid_formatter _ => access_private
  | _ => access_public
  end.

Definition size (s : string) : Z := Z.of_nat (String.length s).

(** The temporary [std::string(count, ch)] of the padding functions, or
    [None] when building it throws: [count] is more than [max_fill]. *)
Definition std_string_fill (env : environment) (count : Z) (ch : ascii)
  : option string :=
  if count <=? max_fill env then Some (string_fill (Z.to_nat count) ch) else None.

(** [flag_formatter::pad_space_left(w, str)]: the writer after the call,
    or [None] when the call throws. *)
Definition pad_space_left (env : environment) (_length : Z) (w : string)
    (str : string) : option string :=
  if size str <? _length then
    match std_string_fill env (_length - size str) " " with
    | Some fill => Some ((w ++ fill) ++ str)
    | None => None
    end
  else Some (w ++ str).

(** [flag_formatter::pad_space_right(w, const std::string& str)]: the
    writer after the call, or [None] when the call throws (the text is
    then already written, and the exception leaves [format]). *)
Definition pad_space_right (env : environment) (_length : Z) (w : string)
    (str : string) : option string :=
  let w := w ++ str in
  if size str <? _length then
    match std_string_fill env (_length - size str) " " with
    | Some fill => Some (w ++ fill)
    | None => None
    end
  else Some w.

(** [flag_formatter::pad_space_right(w, size_t val)]: the format string
    ["{: <N}"] is built from [_length] by a first [fmt::format] and [val] is
    formatted by it in a second; [None] when one of the two throws. *)
Definition pad_space_right_val (env : environment) (_length : Z) (w : string)
    (val : Z) : option string :=
  match fmt_format (max_fill env) "{{: <{}}}" _length with
  | None => None
  | Some padded_format =>
      match fmt_format (max_fill env) padded_format val with
      | None => None
      | Some text => Some (w ++ text)
      end
  end.

Definition ampm (t : tm) : string :=
  if tm_hour t >=? 12 then "PM" else "AM".

Definition to12h (t : tm) : Z :=
  if tm_hour t >? 12 then tm_hour t - 12 else tm_hour t.

Definition days : list string :=
  ["Sun"; "Mon"; "Tue"; "Wed"; "Thu"; "Fri"; "Sat"].

Definition full_days : list string :=
  ["Sunday"; "Monday"; "Tuesday"; "Wednesday"; "Thursday"; "Friday"; "Saturday"].

Definition months : list string :=
  ["Jan"; "Feb"; "Mar"; "Apr"; "May"; "June"; "July"; "Aug"; "Sept"; "Oct";
   "Nov"; "Dec"].

Definition full_months : list string :=
  ["January"; "February"; "March"; "April"; "May"; "June"; "July"; "August";
   "September"; "October"; "November"; "December"].

(** [arr[i]] on a [std::array]: outside the array the behaviour is
    undefined, which is [None] here. *)
Definition array_at (arr : list string) (i : Z) : option string :=
  if i <? 0 then None else nth_error arr (Z.to_nat i).

(** [pad_n_join(w, v1, v2, sep)]. *)
Definition pad_n_join2 (w : string) (v1 v2 : Z) (sep : ascii) : string :=
  w ++ fmt.pad v1 2 "0" ++ String sep "" ++ fmt.pad v2 2 "0".

(** [pad_n_join(w, v1, v2, v3, sep)]. *)
Definition pad_n_join3 (w : string) (v1 v2 v3 : Z) (sep : ascii) : string :=
  w ++ fmt.pad v1 2 "0" ++ String sep "" ++ fmt.pad v2 2 "0"
    ++ String sep "" ++ fmt.pad v3 2 "0".

(** [z_formatter::cache_refresh], five seconds, in ticks of [log_clock]. *)
Definition cache_refresh (env : environment) : Z := 5 * ticks_per_second env.

(** [z_formatter::get_cached_offset]: the members after the call and the
    value returned.  What the call does to [_mutex] is in
    [get_cached_offset_accesses]. *)
Definition get_cached_offset (env : environment)
    (_last_update _offset_minutes : Z) (msg : log_msg) (tm_time : tm)
  : (Z * Z) * Z :=
  if time msg - _last_update >=? cache_refresh env
  then ((time msg, os_utc_minutes_offset env tm_time),
        os_utc_minutes_offset env tm_time)
  else ((_last_update, _offset_minutes), _offset_minutes).

(** What a statement of [get_cached_offset] does to the members of the
    [z_formatter]: [_mutex] is locked or unlocked, [_last_update] or
    [_offset_minutes] is read, or one of them is assigned a value. *)
Inductive cache_access :=
| lock_mutex
| read_last_update
| write_offset_minutes (value : Z)
| write_last_update (value : Z)
| read_offset_minutes
| unlock_mutex.

(** [z_formatter::get_cached_offset], statement by statement, in program
    order: the [std::lock_guard] locks [_mutex] where it is declared, the
    condition reads [_last_update], the two assignments of the refresh
    write [_offset_minutes] and [_last_update], the [return] reads
    [_offset_minutes], and the guard unlocks [_mutex] when the function
    is left. *)
Definition get_cached_offset_accesses (env : environment)
    (_last_update : Z) (msg : log_msg) (tm_time : tm) : list cache_access :=
  [lock_mutex; read_last_update]
  ++ (if time msg - _last_update >=? cache_refresh env
      then [write_offset_minutes (os_utc_minutes_offset env tm_time);
            write_last_update (time msg)]
      else [])
  ++ [read_offset_minutes; unlock_mutex].

(** The body of [z_formatter::format] below the [#ifdef]. *)
Definition format_offset (w : string) (total_minutes : Z) : string :=
  let is_negative := total_minutes <? 0 in
  let total_minutes' :=
    if is_negative then static_cast_int (- total_minutes) else total_minutes in
  let sign := if is_negative then "-"%char else "+"%char in
  let h := Z.quot total_minutes' 60 in
  let m := Z.rem total_minutes' 60 in
  pad_n_join2 (w ++ String sign "") h m ":".

(** [duration_cast<Unit>(msg.time.time_since_epoch()).count() % modulus]. *)
Definition subsecond (env : environment) (unit_per_second : Z) (msg : log_msg) : Z :=
  Z.rem (fmt_helper.duration_cast (ticks_per_second env) unit_per_second (time msg))
        unit_per_second.

(** [full_formatter::format]. *)
Definition full_format (cfg : build_config) (env : environment)
    (msg : log_msg) (tm_time : tm) : string :=
  let w := formatted msg in
  let w :=
    if SPDLOG_NO_DATETIME cfg then w
    else
      let millis := subsecond env 1000 msg in
      w ++ "[" ++ fmt.format_int (static_cast_uint (static_cast_int (tm_year tm_time + 1900)))
        ++ "-" ++ fmt.pad (static_cast_uint (static_cast_int (tm_mon tm_time + 1))) 2 "0"
        ++ "-" ++ fmt.pad (static_cast_uint (tm_mday tm_time)) 2 "0"
        ++ " " ++ fmt.pad (static_cast_uint (tm_hour tm_time)) 2 "0"
        ++ ":" ++ fmt.pad (static_cast_uint (tm_min tm_time)) 2 "0"
        ++ ":" ++ fmt.pad (static_cast_uint (tm_sec tm_time)) 2 "0"
        ++ "." ++ fmt.pad (static_cast_uint millis) 3 "0" ++ "] " in
  let w :=
    if SPDLOG_NO_NAME cfg then w
    else w ++ "[" ++ logger_name msg ++ "] " in
  let w := w ++ "[" ++ level_to_str env (level msg) ++ "] " in
  w ++ raw msg.


(** The virtual [flag_formatter::format(msg, tm_time)], by class: the
    formatter and the record after the call, or [None] where the call does
    not return: it has undefined behaviour (a name table indexed outside
    its bounds) or throws (a padding that cannot be built). *)
Definition flag_formatter_format (cfg : build_config) (env : environment)
    (f : flag_formatter) (msg : log_msg) (tm_time : tm)
  : option (flag_formatter * log_msg) :=
  let w := formatted msg in
  let ret (w' : string) := Some (f, set_formatted msg w') in
  let ret_unless_thrown (o : option string) :=
    match o with
    | Some w' => Some (f, set_formatted msg w')
    | None => None
    end in
  match f with
  | name_formatter len =>
      ret_unless_thrown (pad_space_left env len w (logger_name msg))
  | level_formatter len =>
      ret_unless_thrown (pad_space_left env len w (level_to_str env (level msg)))
  | short_level_formatter len =>
      ret_unless_thrown
        (pad_space_left env len w (level_to_short_str env (level msg)))
  | a_formatter len =>
      match array_at days (tm_wday tm_time) with
      | Some d => ret_unless_thrown (pad_space_right env len w d)
      | None => None
      end
  | i_formatter => ret (w ++ "#" ++ fmt.format_int (msg_id msg))
  | A_formatter len =>
      match array_at full_days (tm_wday tm_time) with
      | Some d => ret_unless_thrown (pad_space_right env len w d)
      | None => None
      end
  | b_formatter len =>
      match array_at months (tm_mon tm_time) with
      | Some m => ret_unless_thrown (pad_space_right env len w m)
      | None => None
      end
  | B_formatter len =>
      match array_at full_months (tm_mon tm_time) with
      | Some m => ret_unless_thrown (pad_space_right env len w m)
      | None => None
      end
  | c_formatter =>
      match array_at days (tm_wday tm_time), array_at months (tm_mon tm_time) with
      | Some d, Some m =>
          let w := w ++ d ++ " " ++ m ++ " "
                     ++ fmt.format_int (tm_mday tm_time) ++ " " in
          let w := pad_n_join3 w (tm_hour tm_time) (tm_min tm_time)
                               (tm_sec tm_time) ":" in
          ret (w ++ " " ++ fmt.format_int (static_cast_int (tm_year tm_time + 1900)))
      | _, _ => None
      end
  | C_formatter => ret (w ++ fmt.pad (Z.rem (tm_year tm_time) 100) 2 "0")
  | D_formatter =>
      ret (pad_n_join3 w (static_cast_int (tm_mon tm_time + 1)) (tm_mday tm_time)
                       (Z.rem (tm_year tm_time) 100) "/")
  | Y_formatter =>
      ret (w ++ fmt.format_int (static_cast_int (tm_year tm_time + 1900)))
  | m_formatter =>
      ret (w ++ fmt.pad (static_cast_int (tm_mon tm_time + 1)) 2 "0")
  | d_formatter => ret (w ++ fmt.pad (tm_mday tm_time) 2 "0")
  | H_formatter => ret (w ++ fmt.pad (tm_hour tm_time) 2 "0")
  | I_formatter => ret (w ++ fmt.pad (to12h tm_time) 2 "0")
  | M_formatter => ret (w ++ fmt.pad (tm_min tm_time) 2 "0")
  | S_formatter => ret (w ++ fmt.pad (tm_sec tm_time) 2 "0")
  | e_formatter =>
      ret (w ++ fmt.pad (static_cast_int (subsecond env 1000 msg)) 3 "0")
  | f_formatter =>
      ret (w ++ fmt.pad (static_cast_int (subsecond env 1000000 msg)) 6 "0")
  | F_formatter =>
      ret (w ++ fmt.pad (static_cast_int (subsecond env 1000000000 msg)) 9 "0")
  | p_formatter => ret (w ++ ampm tm_time)
  | r_formatter =>
      ret (pad_n_join3 w (to12h tm_time) (tm_min tm_time) (tm_sec tm_time) ":"
             ++ " " ++ ampm tm_time)
  | R_formatter => ret (pad_n_join2 w (tm_hour tm_time) (tm_min tm_time) ":")
  | T_formatter =>
      ret (pad_n_join3 w (tm_hour tm_time) (tm_min tm_time) (tm_sec tm_time) ":")
  | z_formatter last_update offset_minutes =>
      if WIN32 cfg then
        let '((last_update', offset_minutes'), total_minutes) :=
          get_cached_offset env last_update offset_minutes msg tm_time in
        Some (z_formatter last_update' offset_minutes',
              set_formatted msg (format_offset w total_minutes))
      else
        ret (format_offset w (os_utc_minutes_offset env tm_time))
  | t_formatter len =>
      ret_unless_thrown (pad_space_right_val env len w (thread_id msg))
  | pid_formatter len =>
      ret_unless_thrown
        (pad_space_right_val env len w (static_cast_size_t (os_pid env)))
  | v_formatter => ret (w ++ raw msg)
  | ch_formatter ch => ret (w ++ String ch "")
  | aggregate_formatter str => ret (w ++ str)
  | full_formatter => ret (full_format cfg env msg tm_time)
  end.

(** What [z_formatter::format] does to the mutex and the cache of the
    formatter: the accesses of [get_cached_offset] where the [#ifdef
    _WIN32] keeps the call, none in the [#else] branch, which calls
    [os::utc_minutes_offset] and touches no member.  No other formatter
    has such members. *)
Definition z_formatter_accesses (cfg : build_config) (env : environment)
    (f : flag_formatter) (msg : log_msg) (tm_time : tm) : list cache_access :=
  match f with
  | z_formatter last_update _ =>
      if WIN32 cfg then get_cached_offset_accesses env last_update msg tm_time
      else []
  | _ => []
  end.

(* ------------------------------------------------------------------ *)
(** ** The pattern compiler *)

Definition is_digit (flag : ascii) : bool :=
  (48 <=? char_code flag) && (char_code flag <=? 57).

(** [strtoul(s, nullptr, 10)] on the digits [handle_flag] has collected:
    the decimal value, or [ULONG_MAX] when it does not fit. *)
Fixpoint strtoul_loop (s : string) (acc : Z) : Z :=
  match s with
  | "" => acc
  | String c rest =>
      if is_digit c then strtoul_loop rest (acc * 10 + (char_code c - 48))
      else acc
  end.

Definition strtoul (env : environment) (s : string) : Z :=
  Z.min (strtoul_loop s 0) (ULONG_MAX env).

Definition string_empty (s : string) : bool :=
  match s with "" => true | _ => false end.

(** [aggregate_formatter::add_ch]. *)
Definition add_ch (f : string) (ch : ascii) : string := push_back f ch.

(** [pattern_formatter::handle_flag(flag, length_chars)]: the returned
    flag, [_formatters] and [length_chars] after the call. *)
Definition handle_flag (cfg : build_config) (env : environment)
    (flag : ascii) (_formatters : list flag_formatter) (length_chars : string)
  : bool * list flag_formatter * string :=
  if is_digit flag then (false, _formatters, push_back length_chars flag)
  else
    let length := if string_empty length_chars then 0
                  else strtoul env length_chars in
    let unknown :=
      let chars := add_ch "" "%" in
      let chars := chars ++ length_chars in
      add_ch chars flag in
    let f :=
      match flag with
      | "n"%char => name_formatter length
      | "l"%char => level_formatter length
      | "L"%char => short_level_formatter length
      | "t"%char => t_formatter length
      | "v"%char => v_formatter
      | "a"%char => a_formatter length
      | "A"%char => A_formatter length
      | "b"%char | "h"%char => b_formatter length
      | "B"%char => B_formatter length
      | "c"%char => c_formatter
      | "C"%char => C_formatter
      | "Y"%char => Y_formatter
      | "D"%char | "x"%char => D_formatter
      | "m"%char => m_formatter
      | "d"%char => d_formatter
      | "H"%char => H_formatter
      | "I"%char => I_formatter
      | "M"%char => M_formatter
      | "S"%char => S_formatter
      | "e"%char => e_formatter
      | "f"%char => f_formatter
      | "F"%char => F_formatter
      | "p"%char => p_formatter
      | "r"%char => r_formatter
      | "R"%char => R_formatter
      | "T"%char | "X"%char => T_formatter
      | "z"%char => z_formatter 0 0
      | "+"%char => full_formatter
      | "P"%char => pid_formatter length
      | "i"%char =>
          if SPDLOG_ENABLE_MESSAGE_COUNTER cfg then i_formatter
          else aggregate_formatter unknown
      | _ => aggregate_formatter unknown
      end in
    (true, (_formatters ++ [f])%list, "").

(** [_formatters.push_back(std::move(user_chars))] when [user_chars] is
    set; the moved-from pointer is null afterwards. *)
Definition flush_user_chars (user_chars : option string)
    (_formatters : list flag_formatter) : list flag_formatter :=
  match user_chars with
  | Some str => (_formatters ++ [aggregate_formatter str])%list
  | None => _formatters
  end.

(** The [for] loop of [compile_pattern] with [it] at the head of
    [pattern], and its inner [while] loop ([compile_flag]) entered after a
    ['%'].  [compile_flag] runs with [user_chars] null. *)
Fixpoint compile_loop (cfg : build_config) (env : environment)
    (pattern : string) (user_chars : option string) (length_chars : string)
    (_formatters : list flag_formatter) : list flag_formatter :=
  match pattern with
  | "" => flush_user_chars user_chars _formatters
  | String c rest =>
      if Ascii.eqb c "%" then
        compile_flag cfg env rest length_chars
                     (flush_user_chars user_chars _formatters)
      else
        let str := match user_chars with Some str => str | None => "" end in
        compile_loop cfg env rest (Some (add_ch str c)) length_chars _formatters
  end
with compile_flag (cfg : build_config) (env : environment)
    (pattern : string) (length_chars : string)
    (_formatters : list flag_formatter) : list flag_formatter :=
  match pattern with
  | "" => _formatters
  | String c rest =>
      match handle_flag cfg env c _formatters length_chars with
      | (true, _formatters', length_chars') =>
          compile_loop cfg env rest None length_chars' _formatters'
      | (false, _formatters', length_chars') =>
          compile_flag cfg env rest length_chars' _formatters'
      end
  end.

(** [pattern_formatter::compile_pattern(pattern)] on a fresh formatter:
    the resulting [_formatters]. *)
Definition compile_pattern (cfg : build_config) (env : environment)
    (pattern : string) : list flag_formatter :=
  compile_loop cfg env pattern None "" [].

Record pattern_formatter := {
  _pattern_time : pattern_time_type;
  _formatters : list flag_formatter
}.

(** The constructor [pattern_formatter(pattern, pattern_time)]. *)
Definition make_pattern_formatter (cfg : build_config) (env : environment)
    (pattern : string) (pattern_time : pattern_time_type) : pattern_formatter :=
  {| _pattern_time := pattern_time;
     _formatters := compile_pattern cfg env pattern |}.

(** [log_clock::to_time_t]: whole seconds since the epoch. *)
Definition to_time_t (env : environment) (t : Z) : Z :=
  fmt_helper.duration_cast (ticks_per_second env) 1 t.

(** [pattern_formatter::get_time(msg)]. *)
Definition get_time (env : environment) (pf : pattern_formatter) (msg : log_msg) : tm :=
  match _pattern_time pf with
  | local => os_localtime env (to_time_t env (time msg))
  | utc => os_gmtime env (to_time_t env (time msg))
  end.

(** The loop [for (auto &f : _formatters) f->format(msg, tm_time)]: the
    formatters and the record after the walk. *)
Fixpoint format_chain (cfg : build_config) (env : environment)
    (fs : list flag_formatter) (msg : log_msg) (tm_time : tm)
  : option (list flag_formatter * log_msg) :=
  match fs with
  | [] => Some ([], msg)
  | f :: rest =>
      match flag_formatter_format cfg env f msg tm_time with
      | None => None
      | Some (f', msg') =>
          match format_chain cfg env rest msg' tm_time with
          | None => None
          | Some (rest', msg'') => Some (f' :: rest', msg'')
          end
      end
  end.

(** Whether [format] of the formatter [f] reads a member of [tm_time] when
    called on [msg]: the calendar directives do; [z_formatter] does through
    [os::utc_minutes_offset], which [get_cached_offset] calls only to
    refresh; [full_formatter] does unless [SPDLOG_NO_DATETIME] cuts its
    date out. *)
Definition reads_tm_time (cfg : build_config) (env : environment)
    (msg : log_msg) (f : flag_formatter) : bool :=
  match f with
  | a_formatter _ | A_formatter _ | b_formatter _ | B_formatter _
  | c_formatter | C_formatter | D_formatter | Y_formatter | m_formatter
  | d_formatter | H_formatter | I_formatter | M_formatter | S_formatter
  | p_formatter | r_formatter | R_formatter | T_formatter => true
  | z_formatter last_update _ =>
      if WIN32 cfg then time msg - last_update >=? cache_refresh env else true
  | full_formatter => negb (SPDLOG_NO_DATETIME cfg)
  | _ => false
  end.

(** [pattern_formatter::format(msg)].  Under [SPDLOG_NO_DATETIME] the
    local [tm_time] is left uninitialised: a chain with a formatter that
    reads it has undefined behaviour, [None]; a chain without one runs the
    same whatever [tm_time] holds. *)
Definition pattern_formatter_format (cfg : build_config) (env : environment)
    (pf : pattern_formatter) (msg : log_msg)
  : option (pattern_formatter * log_msg) :=
  if SPDLOG_NO_DATETIME cfg && existsb (reads_tm_time cfg env msg) (_formatters pf)
  then None
  else
    let tm_time := if SPDLOG_NO_DATETIME cfg then indeterminate_tm env
                   else get_time env pf msg in
    match format_chain cfg env (_formatters pf) msg tm_time with
    | None => None
    | Some (fs, msg') =>
        Some ({| _pattern_time := _pattern_time pf; _formatters := fs |},
              set_formatted msg' (formatted msg' ++ os_eol env))
    end.

(* ------------------------------------------------------------------ *)
(** ** Sample values *)

Definition default_build : build_config :=
  {| WIN32 := false; SPDLOG_NO_DATETIME := false; SPDLOG_NO_NAME := false;
     SPDLOG_ENABLE_MESSAGE_COUNTER := false |}.

Definition windows_build : build_config :=
  {| WIN32 := true; SPDLOG_NO_DATETIME := false; SPDLOG_NO_NAME := false;
     SPDLOG_ENABLE_MESSAGE_COUNTER := false |}.

Definition sample_tm : tm :=
  {| tm_sec := 46; tm_min := 35; tm_hour := 15; tm_mday := 5; tm_mon := 2;
     tm_year := 124; tm_wday := 2; tm_yday := 64; tm_isdst := 0 |}.

(** A sample environment: nanosecond ticks, a 64-bit [unsigned long], an
    offset of one hour, two while daylight saving time is in effect, and
    room for a million fill characters. *)
Definition sample_env : environment :=
  {| level_to_str := fun l => if l =? 2 then "info" else "other";
     level_to_short_str := fun l => if l =? 2 then "I" else "?";
     os_pid := 4242;
     os_utc_minutes_offset := fun t => if tm_isdst t >? 0 then 120 else 60;
     os_localtime := fun _ => sample_tm;
     os_gmtime := fun _ => sample_tm;
     os_eol := String (ascii_of_N 10) "";
     ULONG_MAX := 2 ^ 64 - 1;
     ticks_per_second := 1000000000;
     indeterminate_tm := sample_tm;
     max_fill := 1000000 |}.

(** The calendar breakdown of the epoch, 1970-01-01 00:00:00 UTC, which is
    also that of the timestamps less than a second before it, since
    [to_time_t] truncates toward zero. *)
Definition epoch_tm : tm :=
  {| tm_sec := 0; tm_min := 0; tm_hour := 0; tm_mday := 1; tm_mon := 0;
     tm_year := 70; tm_wday := 4; tm_yday := 0; tm_isdst := 0 |}.

(** [sample_tm] with a day of the month of -1. *)
Definition negative_day_tm : tm :=
  {| tm_sec := 46; tm_min := 35; tm_hour := 15; tm_mday := -1; tm_mon := 2;
     tm_year := 124; tm_wday := 2; tm_yday := 64; tm_isdst := 0 |}.

Definition sample_msg : log_msg :=
  {| logger_name := "worker"; level := 2; time := 1709652946123456789;
     thread_id := 77; raw := "hello"; formatted := ""; msg_id := 1 |}.

(* ------------------------------------------------------------------ *)
(** ** Vocabulary of the statements *)

(** The text a formatter appends to the record, when the call is defined. *)
Definition appends (r : option (flag_formatter * log_msg)) (msg : log_msg)
    (text : string) : Prop :=
  exists f, r = Some (f, set_formatted msg (formatted msg ++ text)).

Definition with_mon (t : tm) (mon : Z) : tm :=
  {| tm_sec := tm_sec t; tm_min := tm_min t; tm_hour := tm_hour t;
     tm_mday := tm_mday t; tm_mon := mon; tm_year := tm_year t;
     tm_wday := tm_wday t; tm_yday := tm_yday t; tm_isdst := tm_isdst t |}.

Definition with_hour (t : tm) (hour : Z) : tm :=
  {| tm_sec := tm_sec t; tm_min := tm_min t; tm_hour := hour;
     tm_mday := tm_mday t; tm_mon := tm_mon t; tm_year := tm_year t;
     tm_wday := tm_wday t; tm_yday := tm_yday t; tm_isdst := tm_isdst t |}.

Definition noon_tm : tm := with_hour sample_tm 12.

Definition midnight_tm : tm := with_hour sample_tm 0.

(** The selector characters [handle_flag] has a [case] for. *)
Definition catalog (cfg : build_config) : string :=
  "nlLtvaAbhBcCYDxmdHIMSefFprRTXz+P"
  ++ (if SPDLOG_ENABLE_MESSAGE_COUNTER cfg then "i" else "").

Fixpoint string_mem (c : ascii) (s : string) : bool :=
  match s with
  | "" => false
  | String x rest => Ascii.eqb c x || string_mem c rest
  end.

Definition in_catalog (cfg : build_config) (c : ascii) : bool :=
  string_mem c (catalog cfg).

Fixpoint all_digits (s : string) : bool :=
  match s with
  | "" => true
  | String c rest => is_digit c && all_digits rest
  end.

(** Whether the scan of [p] stops inside a directive, that is after a
    ['%'] that starts one and the digits that follow it, with the selector
    still to come; [in_flag] says whether the scan starts inside one. *)
Fixpoint pending_flag (in_flag : bool) (p : string) : bool :=
  match p with
  | "" => in_flag
  | String c rest =>
      if in_flag then pending_flag (is_digit c) rest
      else pending_flag (Ascii.eqb c "%") rest
  end.

Definition unterminated (p : string) : bool := pending_flag false p.

(** The buffer of the record after [pattern_formatter::format], for the
    formatter compiled from [pattern]. *)
Definition format_output (cfg : build_config) (env : environment)
    (pattern : string) (pattern_time : pattern_time_type) (msg : log_msg)
  : option string :=
  match pattern_formatter_format cfg env
          (make_pattern_formatter cfg env pattern pattern_time) msg with
  | Some (_, msg') => Some (formatted msg')
  | None => None
  end.

Definition with_time (msg : log_msg) (t : Z) : log_msg :=
  {| logger_name := logger_name msg; level := level msg; time := t;
     thread_id := thread_id msg; raw := raw msg; formatted := formatted msg;
     msg_id := msg_id msg |}.

(** [sample_tm] while daylight saving time is in effect. *)
Definition dst_tm : tm :=
  {| tm_sec := tm_sec sample_tm; tm_min := tm_min sample_tm;
     tm_hour := tm_hour sample_tm; tm_mday := tm_mday sample_tm;
     tm_mon := tm_mon sample_tm; tm_year := tm_year sample_tm;
     tm_wday := tm_wday sample_tm; tm_yday := tm_yday sample_tm;
     tm_isdst := 1 |}.

(** Ticks of [sample_env] in [s] seconds. *)
Definition seconds (s : Z) : Z := s * 1000000000.

(** The accesses are made under the lock: [_mutex] is free before the
    first and after the last, it is locked only while free and unlocked
    only while held, and every read and write of [_last_update] and
    [_offset_minutes] is made while it is held.  [held] tells whether the
    mutex is held before the first access. *)
Fixpoint under_lock (held : bool) (accesses : list cache_access) : bool :=
  match accesses with
  | [] => negb held
  | lock_mutex :: rest => negb held && under_lock true rest
  | unlock_mutex :: rest => held && under_lock false rest
  | _ :: rest => held && under_lock held rest
  end.

(** The members [_last_update] and [_offset_minutes] after the accesses,
    and the value the last read of [_offset_minutes] gave, if there was
    one. *)
Fixpoint run_accesses (accesses : list cache_access) (members : Z * Z)
    (read : option Z) : (Z * Z) * option Z :=
  match accesses with
  | [] => (members, read)
  | write_offset_minutes value :: rest =>
      run_accesses rest (fst members, value) read
  | write_last_update value :: rest =>
      run_accesses rest (value, snd members) read
  | read_offset_minutes :: rest =>
      run_accesses rest members (Some (snd members))
  | _ :: rest => run_accesses rest members read
  end.

(** A read or a write of a member, as opposed to an operation on the
    mutex. *)
Definition member_access (a : cache_access) : bool :=
  match a with
  | lock_mutex | unlock_mutex => false
  | _ => true
  end.

(** [all] is a schedule of two calls made at the same time on one
    [z_formatter]: the accesses of the one and of the other, each in its
    program order, in some order between them. *)
Inductive interleaved
  : list cache_access -> list cache_access -> list cache_access -> Prop :=
| interleaved_nil : interleaved [] [] []
| interleaved_left a one other all :
    interleaved one other all -> interleaved (a :: one) other (a :: all)
| interleaved_right a one other all :
    interleaved one other all -> interleaved one (a :: other) (a :: all).

(** The stability the offset directive is said to have: two invocations
    in a row of one [z_formatter], on records whose timestamps are less
    than the refresh window apart, print the same offset. *)
Definition same_offset_within_window (cfg : build_config) (env : environment) : Prop :=
  forall last_update offset_minutes msg1 tm1 msg2 tm2 f1 out1 f2 out2,
    Z.abs (time msg2 - time msg1) < cache_refresh env ->
    formatted msg1 = formatted msg2 ->
    flag_formatter_format cfg env (z_formatter last_update offset_minutes) msg1 tm1
    = Some (f1, out1) ->
    flag_formatter_format cfg env f1 msg2 tm2 = Some (f2, out2) ->
    formatted out1 = formatted out2.

(** [text] is [v] written with exactly [k] decimal digits: [k] characters,
    all of them digits, that read back as [v]. *)
Definition zero_padded_digits (k : nat) (v : Z) (text : string) : Prop :=
  String.length text = k /\ all_digits text = true /\ strtoul_loop text 0 = v.

(** The default pattern, which [full_formatter] renders in one pass. *)
Definition default_pattern : string := "[%Y-%m-%d %H:%M:%S.%e] [%n] [%l] %v".

(** [z] is a non-negative [int]. *)
Definition non_negative_int (z : Z) : bool := (0 <=? z) && (z <? 2 ^ 31).

(** The calendar fields the full line prints are non-negative [int]s,
    as in every calendar breakdown [localtime] and [gmtime] produce. *)
Definition calendar_non_negative (t : tm) : bool :=
  non_negative_int (tm_year t + 1900) && non_negative_int (tm_mon t + 1)
  && non_negative_int (tm_mday t) && non_negative_int (tm_hour t)
  && non_negative_int (tm_min t) && non_negative_int (tm_sec t).

(** The full line as the specification spells it out, field by field,
    with the padding functions of [fmt_helper.h]:
    "[" year "-" pad2(month) "-" pad2(day) " " pad2(hour) ":" pad2(min) ":"
    pad2(sec) "." pad3(millis) "] [" name "] [" levelString "] " rawMessage,
    where the month is [tm_mon + 1], the year is [tm_year + 1900] and the
    milliseconds are the sub-second remainder of the timestamp. *)
Definition manual_line (env : environment) (msg : log_msg) (t : tm) : string :=
  "[" ++ fmt.format_int (tm_year t + 1900)
  ++ "-" ++ fmt_helper.pad2 (tm_mon t + 1) ""
  ++ "-" ++ fmt_helper.pad2 (tm_mday t) ""
  ++ " " ++ fmt_helper.pad2 (tm_hour t) ""
  ++ ":" ++ fmt_helper.pad2 (tm_min t) ""
  ++ ":" ++ fmt_helper.pad2 (tm_sec t) ""
  ++ "." ++ fmt_helper.pad3
              (fmt_helper.time_fraction (ticks_per_second env) 1000 (time msg)) ""
  ++ "] [" ++ logger_name msg ++ "] [" ++ level_to_str env (level msg) ++ "] "
  ++ raw msg.

Definition no_name_build : build_config :=
  {| WIN32 := false; SPDLOG_NO_DATETIME := false; SPDLOG_NO_NAME := true;
     SPDLOG_ENABLE_MESSAGE_COUNTER := false |}.

Definition no_datetime_build : build_config :=
  {| WIN32 := false; SPDLOG_NO_DATETIME := true; SPDLOG_NO_NAME := false;
     SPDLOG_ENABLE_MESSAGE_COUNTER := false |}.

(** The buffer of the record after the chain compiled from [pattern] has
    run on it with the calendar breakdown [t]. *)
Definition chain_output (cfg : build_config) (env : environment)
    (pattern : string) (msg : log_msg) (t : tm) : option string :=
  match format_chain cfg env (compile_pattern cfg env pattern) msg t with
  | Some (_, msg') => Some (formatted msg')
  | None => None
  end.

(** [P] holds of the [len] integers from [lo] on. *)
Fixpoint Z_range_forallb (P : Z -> bool) (lo : Z) (len : nat) : bool :=
  match len with
  | O => true
  | S k => P lo && Z_range_forallb P (lo + 1) k
  end.

(** Whatever the buffer of [msg] holds, the chain [fs] leaves itself
    unchanged and appends [text] to it. *)
Definition chain_appends (cfg : build_config) (env : environment)
    (fs : list flag_formatter) (msg : log_msg) (t : tm) (text : string) : Prop :=
  forall w,
    format_chain cfg env fs (set_formatted msg w) t
    = Some (fs, set_formatted msg (w ++ text)).

(* ------------------------------------------------------------------ *)
(** ** Vocabulary of the further properties *)

(** The text of a chain made of literal directives only. *)
Fixpoint literal_text (fs : list flag_formatter) : option string :=
  match fs with
  | [] => Some ""
  | aggregate_formatter str :: rest =>
      match literal_text rest with
      | Some text => Some (str ++ text)
      | None => None
      end
  | _ :: _ => None
  end.

(** A directive other than a literal without text. *)
Definition nonempty_literal (f : flag_formatter) : bool :=
  match f with
  | aggregate_formatter "" => false
  | _ => true
  end.

(** The constructor [handle_flag] passes [length] to, for the selectors
    whose [case] does so. *)
Definition width_aware (selector : ascii) : option (Z -> flag_formatter) :=
  match selector with
  | "n"%char => Some name_formatter
  | "l"%char => Some level_formatter
  | "L"%char => Some short_level_formatter
  | "t"%char => Some t_formatter
  | "a"%char => Some a_formatter
  | "A"%char => Some A_formatter
  | "b"%char | "h"%char => Some b_formatter
  | "B"%char => Some B_formatter
  | "P"%char => Some pid_formatter
  | _ => None
  end.

(** The selectors whose [case] builds a formatter without [length]. *)
Definition not_width_aware : string := "vcCYDxmdHIMSefFprRTXz+".

(** The name table a directive indexes, the member of [tm_time] it
    indexes the table with, and its width. *)
Definition name_table (f : flag_formatter)
  : option (list string * (tm -> Z) * Z) :=
  match f with
  | a_formatter _length => Some (days, tm_wday, _length)
  | A_formatter _length => Some (full_days, tm_wday, _length)
  | b_formatter _length => Some (months, tm_mon, _length)
  | B_formatter _length => Some (full_months, tm_mon, _length)
  | _ => None
  end.

(** The formatters without data members of their own to update. *)
Definition stateless (f : flag_formatter) : bool :=
  match f with
  | z_formatter _ _ => false
  | _ => true
  end.

(** The members [_last_update] and [_offset_minutes] of a [z_formatter]
    after [get_cached_offset] has served the records in turn. *)
Fixpoint cache_after (env : environment) (last_update offset_minutes : Z)
    (records : list (log_msg * tm)) : Z * Z :=
  match records with
  | [] => (last_update, offset_minutes)
  | (msg, t) :: rest =>
      let '((last_update', offset_minutes'), _) :=
        get_cached_offset env last_update offset_minutes msg t in
      cache_after env last_update' offset_minutes' rest
  end.

(* ------------------------------------------------------------------ *)
(** * Properties *)

(* ------------------------------------------------------------------ *)
(** ** Strings *)

Lemma append_nil_r (s : string) : s ++ "" = s.
Proof. induction s as [|c s IH]; simpl; congruence. Qed.

Lemma append_assoc (a b c : string) : (a ++ b) ++ c = a ++ (b ++ c).
Proof. induction a as [|x a IH]; simpl; congruence. Qed.

Lemma length_append (a b : string) :
  String.length (a ++ b) = (String.length a + String.length b)%nat.
Proof. induction a as [|x a IH]; simpl; congruence. Qed.

Lemma append_inv_head (a b c : string) : a ++ b = a ++ c -> b = c.
Proof. induction a as [|x a IH]; simpl; intros H; [assumption|]. injection H; auto. Qed.

Lemma length_string_fill (n : nat) (ch : ascii) :
  String.length (string_fill n ch) = n.
Proof. induction n as [|n IH]; simpl; congruence. Qed.

Lemma string_fill_snoc (n : nat) (ch : ascii) (tail : string) :
  string_fill n ch ++ String ch tail = String ch (string_fill n ch ++ tail).
Proof. induction n as [|n IH]; simpl; congruence. Qed.

(* ------------------------------------------------------------------ *)
(** ** Decimal text *)

Lemma format_decimal_tail (k : nat) : forall n tail,
  fmt.format_decimal k n tail = fmt.format_decimal k n "" ++ tail.
Proof.
  induction k as [|k IH]; intros n tail; simpl; [reflexivity|].
  rewrite (IH _ (String _ tail)), (IH _ (String _ "")).
  rewrite append_assoc. reflexivity.
Qed.

Lemma length_format_decimal (k : nat) : forall n tail,
  String.length (fmt.format_decimal k n tail) = (k + String.length tail)%nat.
Proof.
  induction k as [|k IH]; intros n tail; simpl; [reflexivity|].
  rewrite IH. simpl. lia.
Qed.

Lemma format_decimal_split (a b : nat) : forall n tail,
  fmt.format_decimal (a + b) n tail
  = fmt.format_decimal a (n / 10 ^ Z.of_nat b) (fmt.format_decimal b n tail).
Proof.
  induction b as [|b IH]; intros n tail.
  - rewrite Nat.add_0_r. simpl. rewrite Z.div_1_r. reflexivity.
  - rewrite Nat.add_succ_r. simpl fmt.format_decimal at 1. rewrite IH.
    cbn [fmt.format_decimal].
    rewrite Nat2Z.inj_succ, Z.pow_succ_r by lia.
    rewrite Z.div_div by (try apply Z.pow_pos_nonneg; lia). reflexivity.
Qed.

Lemma count_digits_loop_pos (fuel : nat) (n : Z) :
  (1 <= fmt.count_digits_loop fuel n)%nat.
Proof. destruct fuel; simpl; [lia|]. destruct (n <? 10); lia. Qed.

Lemma count_digits_loop_upper (fuel : nat) : forall n,
  0 <= n -> Z.log2 n <= Z.of_nat fuel ->
  n < 10 ^ Z.of_nat (fmt.count_digits_loop fuel n).
Proof.
  induction fuel as [|f IH]; intros n Hn Hlog.
  - simpl. destruct (Z.eq_dec n 0) as [->|Hz]; [lia|].
    assert (n < 2 ^ 1) by (apply Z.log2_lt_pow2; lia). lia.
  - simpl. destruct (Z.ltb_spec n 10) as [Hlt|Hge]; [simpl; lia|].
    assert (Hq : 0 <= n / 10) by (apply Z.div_pos; lia).
    assert (Hlog' : Z.log2 (n / 10) <= Z.of_nat f).
    { destruct (Z.eq_dec (n / 10) 0) as [->|Hz]; [simpl; lia|].
      assert (n < 2 ^ (Z.of_nat (S f) + 1)) by (apply Z.log2_lt_pow2; lia).
      assert (n / 10 < 2 ^ (Z.of_nat f + 1)).
      { apply Z.div_lt_upper_bound; [lia|].
        replace (Z.of_nat (S f) + 1) with (Z.succ (Z.of_nat f + 1)) in H by lia.
        rewrite Z.pow_succ_r in H by lia. lia. }
      assert (Z.log2 (n / 10) < Z.of_nat f + 1) by (apply Z.log2_lt_pow2; lia).
      lia. }
    specialize (IH (n / 10) Hq Hlog').
    rewrite Nat2Z.inj_succ, Z.pow_succ_r by lia.
    pose proof (Z.mul_div_le n 10 ltac:(lia)).
    pose proof (Z.mod_pos_bound n 10 ltac:(lia)).
    pose proof (Z.div_mod n 10 ltac:(lia)). lia.
Qed.

Lemma count_digits_loop_le (fuel : nat) : forall n k,
  n < 10 ^ Z.of_nat (S k) -> (fmt.count_digits_loop fuel n <= S k)%nat.
Proof.
  induction fuel as [|f IH]; intros n k Hn; simpl; [lia|].
  destruct (Z.ltb_spec n 10) as [Hlt|Hge]; [lia|].
  destruct k as [|k]; [simpl in Hn; lia|].
  apply le_n_S, IH.
  rewrite (Nat2Z.inj_succ (S k)), Z.pow_succ_r in Hn by lia.
  apply Z.div_lt_upper_bound; lia.
Qed.

Lemma count_digits_loop_lower (fuel : nat) : forall n k,
  10 ^ Z.of_nat k <= n -> Z.log2 n <= Z.of_nat fuel ->
  (S k <= fmt.count_digits_loop fuel n)%nat.
Proof.
  intros n k Hk Hlog.
  assert (H0 : 0 < 10 ^ Z.of_nat k) by (apply Z.pow_pos_nonneg; lia).
  pose proof (count_digits_loop_upper fuel n ltac:(lia) Hlog) as Hup.
  destruct (le_lt_dec (S k) (fmt.count_digits_loop fuel n)) as [|Hlt]; [assumption|].
  exfalso.
  assert (10 ^ Z.of_nat (fmt.count_digits_loop fuel n) <= 10 ^ Z.of_nat k)
    by (apply Z.pow_le_mono_r; lia).
  lia.
Qed.

Lemma count_digits_upper (n : Z) :
  0 <= n -> n < 10 ^ Z.of_nat (fmt.count_digits n).
Proof.
  intros Hn. apply count_digits_loop_upper; [assumption|].
  rewrite Z2Nat.id by apply Z.log2_nonneg. lia.
Qed.

Lemma count_digits_le (n : Z) (k : nat) :
  n < 10 ^ Z.of_nat (S k) -> (fmt.count_digits n <= S k)%nat.
Proof. apply count_digits_loop_le. Qed.

Lemma count_digits_lower (n : Z) (k : nat) :
  10 ^ Z.of_nat k <= n -> (S k <= fmt.count_digits n)%nat.
Proof.
  intros Hk. apply count_digits_loop_lower; [assumption|].
  rewrite Z2Nat.id by apply Z.log2_nonneg. lia.
Qed.

Lemma count_digits_pos (n : Z) : (1 <= fmt.count_digits n)%nat.
Proof. apply count_digits_loop_pos. Qed.

Lemma length_format_uint (n : Z) :
  String.length (fmt.format_uint n) = fmt.count_digits n.
Proof. unfold fmt.format_uint. rewrite length_format_decimal. simpl. lia. Qed.

Lemma format_decimal_zero (i : nat) : forall tail,
  fmt.format_decimal i 0 tail = string_fill i "0" ++ tail.
Proof.
  induction i as [|i IH]; intros tail; simpl; [reflexivity|].
  change (0 / 10) with 0. rewrite IH.
  change (static_cast_char (48 + 0 mod 10)) with "0"%char.
  apply string_fill_snoc.
Qed.

Lemma format_decimal_zeros (i j : nat) : forall n tail,
  0 <= n < 10 ^ Z.of_nat j ->
  fmt.format_decimal (i + j) n tail = string_fill i "0" ++ fmt.format_decimal j n tail.
Proof.
  induction j as [|j IH]; intros n tail Hn.
  - simpl in Hn. assert (n = 0) by lia. subst n.
    rewrite Nat.add_0_r. simpl. apply format_decimal_zero.
  - rewrite Nat.add_succ_r. simpl. apply IH.
    rewrite Nat2Z.inj_succ, Z.pow_succ_r in Hn by lia.
    split; [apply Z.div_pos; lia|apply Z.div_lt_upper_bound; lia].
Qed.

(** On a non-negative value below [10 ^ w], zero padding to a width
    [w >= 1] writes exactly the [w] low decimal digits. *)
Lemma pad_fixed_width (w : nat) (n : Z) :
  0 <= n < 10 ^ Z.of_nat (S w) ->
  fmt.pad n (Z.of_nat (S w)) "0" = fmt.format_decimal (S w) n "".
Proof.
  intros Hn. unfold fmt.pad, fmt.format_int.
  destruct (Z.ltb_spec n 0) as [|_]; [lia|].
  rewrite length_format_uint.
  pose proof (count_digits_le n w ltac:(lia)) as Hle.
  destruct (Z.leb_spec (Z.of_nat (S w)) (Z.of_nat (fmt.count_digits n))) as [Hw|Hw].
  - assert (fmt.count_digits n = S w) as <- by lia. reflexivity.
  - unfold fmt.format_uint.
    replace (Z.to_nat (Z.of_nat (S w) - Z.of_nat (fmt.count_digits n)))
      with (S w - fmt.count_digits n)%nat by lia.
    rewrite <- format_decimal_zeros by (split; [lia|apply count_digits_upper; lia]).
    f_equal. lia.
Qed.

(** A value of at least [10 ^ (w - 1)] already fills the width: padding
    leaves its decimal text as it is. *)
Lemma pad_overflow (w : nat) (n : Z) (fill : ascii) :
  10 ^ Z.of_nat w <= n ->
  fmt.pad n (Z.of_nat (S w)) fill = fmt.format_int n.
Proof.
  intros Hn. unfold fmt.pad.
  assert (0 < 10 ^ Z.of_nat w) by (apply Z.pow_pos_nonneg; lia).
  replace (String.length (fmt.format_int n)) with (fmt.count_digits n).
  - pose proof (count_digits_lower n w Hn).
    destruct (Z.leb_spec (Z.of_nat (S w)) (Z.of_nat (fmt.count_digits n))); [reflexivity|lia].
  - unfold fmt.format_int. destruct (Z.ltb_spec n 0); [lia|].
    symmetry. apply length_format_uint.
Qed.

(* ------------------------------------------------------------------ *)
(** ** [pad2], [pad3], [pad6] *)

Lemma format_int_nonneg (n : Z) : 0 <= n -> fmt.format_int n = fmt.format_uint n.
Proof. intros Hn. unfold fmt.format_int. destruct (Z.ltb_spec n 0); [lia|reflexivity]. Qed.

Lemma count_digits_exact (n : Z) (k : nat) :
  10 ^ Z.of_nat k <= n < 10 ^ Z.of_nat (S k) -> fmt.count_digits n = S k.
Proof.
  intros [Hlo Hhi].
  pose proof (count_digits_le n k Hhi). pose proof (count_digits_lower n k Hlo). lia.
Qed.

Lemma count_digits_one (n : Z) : n <= 9 -> fmt.count_digits n = 1%nat.
Proof.
  intros Hn. pose proof (count_digits_le n 0 ltac:(simpl; lia)).
  pose proof (count_digits_pos n). lia.
Qed.

Lemma format_int_one_digit (n : Z) :
  0 <= n <= 9 -> fmt.format_int n = String (static_cast_char (48 + n)) "".
Proof.
  intros Hn. rewrite format_int_nonneg by lia. unfold fmt.format_uint.
  rewrite count_digits_one by lia. simpl. rewrite Z.mod_small by lia. reflexivity.
Qed.

Lemma format_int_two_digits (n : Z) :
  10 <= n <= 99 ->
  fmt.format_int n =
  String (static_cast_char (48 + Z.quot n 10))
         (String (static_cast_char (48 + Z.rem n 10)) "").
Proof.
  intros Hn. rewrite format_int_nonneg by lia. unfold fmt.format_uint.
  rewrite (count_digits_exact n 1) by (simpl; lia). simpl.
  rewrite Z.quot_div_nonneg, Z.rem_mod_nonneg by lia.
  rewrite (Z.mod_small (n / 10)); [reflexivity|].
  split; [apply Z.div_pos; lia|apply Z.div_lt_upper_bound; lia].
Qed.

Lemma format_zero_padded_negative (w : Z) (n : Z) :
  n < 0 -> w <= 2 -> fmt.format_zero_padded w n = "-" ++ fmt.format_uint (- n).
Proof.
  intros Hn Hw. unfold fmt.format_zero_padded.
  destruct (Z.ltb_spec n 0); [|lia].
  rewrite length_format_uint. pose proof (count_digits_pos (Z.abs n)).
  replace (Z.to_nat (w - Z.of_nat (String.length "-" + fmt.count_digits (Z.abs n))))
    with 0%nat by (simpl String.length; lia).
  rewrite Z.abs_neq by lia. reflexivity.
Qed.

(** C7: [pad2(n)] appends the full decimal text of [n] when [n > 99]
    (three characters or more, nothing cut), exactly the two digits of [n]
    when [10 <= n <= 99], ["0"] and the digit when [0 <= n <= 9], and the
    generic zero-padded signed rendering of minimum width 2 when [n < 0],
    which is the minus sign and the digits of [-n]. *)
Theorem C7_pad2_cases (n : Z) (dest : string) :
  (99 < n ->
     fmt_helper.pad2 n dest = dest ++ fmt.format_int n
     /\ (3 <= String.length (fmt.format_int n))%nat)
  /\ (10 <= n <= 99 ->
     fmt_helper.pad2 n dest = dest ++ fmt.format_int n
     /\ String.length (fmt.format_int n) = 2%nat)
  /\ (0 <= n <= 9 ->
     fmt_helper.pad2 n dest = dest ++ "0" ++ fmt.format_int n
     /\ String.length (fmt.format_int n) = 1%nat)
  /\ (n < 0 ->
     fmt_helper.pad2 n dest = dest ++ fmt.format_zero_padded 2 n
     /\ fmt.format_zero_padded 2 n = "-" ++ fmt.format_uint (- n)).
Proof.
  unfold fmt_helper.pad2, fmt_helper.append_int, push_back.
  repeat split.
  - destruct (Z.gtb_spec n 99); [reflexivity|lia].
  - rewrite format_int_nonneg, length_format_uint by lia.
    apply (count_digits_lower n 2). simpl. lia.
  - destruct (Z.gtb_spec n 99); [lia|]. destruct (Z.gtb_spec n 9); [|lia].
    rewrite format_int_two_digits by lia. rewrite append_assoc. reflexivity.
  - rewrite format_int_two_digits by lia. reflexivity.
  - destruct (Z.gtb_spec n 99); [lia|]. destruct (Z.gtb_spec n 9); [lia|].
    destruct (Z.geb_spec n 0); [|lia].
    rewrite format_int_one_digit by lia. rewrite append_assoc. reflexivity.
  - rewrite format_int_one_digit by lia. reflexivity.
  - destruct (Z.gtb_spec n 99); [lia|]. destruct (Z.gtb_spec n 9); [lia|].
    destruct (Z.geb_spec n 0); [lia|]. reflexivity.
  - apply format_zero_padded_negative; lia.
Qed.

(** The four cases of C7 at 150, 42, 7 and -5. *)
Lemma C7_pad2_cases_witness :
  fmt_helper.pad2 150 "" = "150" /\ fmt_helper.pad2 42 "" = "42"
  /\ fmt_helper.pad2 7 "" = "07" /\ fmt_helper.pad2 (-5) "" = "-5".
Proof.
  split; [|split; [|split]].
  - exact (proj1 (proj1 (C7_pad2_cases 150 "") ltac:(lia))).
  - exact (proj1 (proj1 (proj2 (C7_pad2_cases 42 "")) ltac:(lia))).
  - exact (proj1 (proj1 (proj2 (proj2 (C7_pad2_cases 7 ""))) ltac:(lia))).
  - exact (proj1 (proj2 (proj2 (proj2 (C7_pad2_cases (-5) ""))) ltac:(lia))).
Defined.

Lemma pad2_dest (n : Z) (dest : string) :
  fmt_helper.pad2 n dest = dest ++ fmt_helper.pad2 n "".
Proof.
  unfold fmt_helper.pad2, fmt_helper.append_int, push_back.
  destruct (n >? 99); [reflexivity|].
  destruct (n >? 9); [rewrite append_assoc; reflexivity|].
  destruct (n >=? 0); [rewrite append_assoc; reflexivity|reflexivity].
Qed.

Lemma pad3_dest (n : Z) (dest : string) :
  fmt_helper.pad3 n dest = dest ++ fmt_helper.pad3 n "".
Proof.
  unfold fmt_helper.pad3, fmt_helper.append_int, push_back.
  destruct (n >? 999); [reflexivity|].
  destruct (n >? 99).
  { rewrite pad2_dest, (pad2_dest _ ("" ++ _)), append_assoc. reflexivity. }
  destruct (n >? 9); [rewrite !append_assoc; reflexivity|].
  destruct (n >=? 0); [rewrite !append_assoc; reflexivity|reflexivity].
Qed.

Lemma static_cast_int_small (z : Z) :
  - 2 ^ 31 <= z < 2 ^ 31 -> static_cast_int z = z.
Proof.
  intros Hz. unfold static_cast_int.
  rewrite Z.mod_small by lia. lia.
Qed.

(** C8: [pad6(n)] appends the full decimal text of [n] when [n > 99999],
    and otherwise [pad3(n / 1000)] followed by [pad3(n % 1000)]; [pad3]
    gives "000", "009", "099", "999" and "1000" at 0, 9, 99, 999 and 1000. *)
Theorem C8_pad6_pad3 (n : Z) (dest : string) :
  (99999 < n -> fmt_helper.pad6 n dest = dest ++ fmt.format_int n)
  /\ (0 <= n <= 99999 ->
      fmt_helper.pad6 n dest
      = dest ++ fmt_helper.pad3 (n / 1000) "" ++ fmt_helper.pad3 (n mod 1000) "")
  /\ fmt_helper.pad3 0 "" = "000"
  /\ fmt_helper.pad3 9 "" = "009"
  /\ fmt_helper.pad3 99 "" = "099"
  /\ fmt_helper.pad3 999 "" = "999"
  /\ fmt_helper.pad3 1000 "" = "1000".
Proof.
  split; [|split; [|repeat split; reflexivity]].
  - intros Hn. unfold fmt_helper.pad6, fmt_helper.append_int.
    destruct (Z.gtb_spec n 99999); [reflexivity|lia].
  - intros Hn. unfold fmt_helper.pad6.
    destruct (Z.gtb_spec n 99999); [lia|].
    pose proof (Z.mod_pos_bound n 1000 ltac:(lia)).
    assert (0 <= n / 1000 < 100)
      by (split; [apply Z.div_pos; lia|apply Z.div_lt_upper_bound; lia]).
    rewrite !static_cast_int_small by lia.
    rewrite pad3_dest, (pad3_dest _ dest), append_assoc. reflexivity.
Qed.

(** C8 at 123456 and at 1234. *)
Lemma C8_pad6_pad3_witness :
  fmt_helper.pad6 123456 "" = "123456" /\ fmt_helper.pad6 1234 "" = "001234".
Proof.
  split.
  - exact (proj1 (C8_pad6_pad3 123456 "") ltac:(lia)).
  - exact (proj1 (proj2 (C8_pad6_pad3 1234 "")) ltac:(lia)).
Defined.

(* ------------------------------------------------------------------ *)
(** ** Twelve-hour clock and month names *)

(** C6: the 12-hour conversion behind [%I] and [%r] maps [hour > 12] to
    [hour - 12] and passes every other hour unchanged, hour 0 included;
    the marker of [%p] is "PM" exactly when [hour >= 12] and "AM"
    otherwise. *)
Theorem C6_to12h_ampm (cfg : build_config) (env : environment)
    (msg : log_msg) (t : tm) :
  (12 < tm_hour t -> to12h t = tm_hour t - 12)
  /\ (tm_hour t <= 12 -> to12h t = tm_hour t)
  /\ (tm_hour t = 0 -> to12h t = 0)
  /\ (ampm t = "PM" <-> 12 <= tm_hour t)
  /\ (ampm t = "AM" <-> tm_hour t < 12)
  /\ compile_pattern cfg env "%I" = [I_formatter]
  /\ compile_pattern cfg env "%r" = [r_formatter]
  /\ compile_pattern cfg env "%p" = [p_formatter]
  /\ appends (flag_formatter_format cfg env I_formatter msg t) msg
             (fmt.pad (to12h t) 2 "0")
  /\ appends (flag_formatter_format cfg env r_formatter msg t) msg
             (fmt.pad (to12h t) 2 "0" ++ ":" ++ fmt.pad (tm_min t) 2 "0" ++ ":"
                ++ fmt.pad (tm_sec t) 2 "0" ++ " " ++ ampm t)
  /\ appends (flag_formatter_format cfg env p_formatter msg t) msg (ampm t).
Proof.
  unfold to12h, ampm.
  repeat match goal with |- _ /\ _ => split end; try reflexivity.
  - intros H. destruct (Z.gtb_spec (tm_hour t) 12); [reflexivity|lia].
  - intros H. destruct (Z.gtb_spec (tm_hour t) 12); [lia|reflexivity].
  - intros H. rewrite H. reflexivity.
  - destruct (Z.geb_spec (tm_hour t) 12); split; intros; try lia; try reflexivity.
    discriminate.
  - destruct (Z.geb_spec (tm_hour t) 12); split; intros; try lia; try reflexivity.
    discriminate.
  - eexists. reflexivity.
  - eexists. simpl. unfold pad_n_join3. rewrite !append_assoc. reflexivity.
  - eexists. reflexivity.
Qed.

(** C6 at 15 h, at noon and at midnight. *)
Lemma C6_to12h_ampm_witness :
  to12h sample_tm = 3 /\ to12h noon_tm = 12 /\ to12h midnight_tm = 0
  /\ ampm sample_tm = "PM".
Proof.
  split; [|split; [|split]].
  - exact (proj1 (C6_to12h_ampm default_build sample_env sample_msg sample_tm)
             ltac:(unfold sample_tm; simpl; lia)).
  - exact (proj1 (proj2 (C6_to12h_ampm default_build sample_env sample_msg noon_tm))
             ltac:(unfold noon_tm; simpl; lia)).
  - exact (proj1 (proj2 (proj2
             (C6_to12h_ampm default_build sample_env sample_msg midnight_tm)))
             ltac:(reflexivity)).
  - exact (proj2 (proj1 (proj2 (proj2 (proj2
             (C6_to12h_ampm default_build sample_env sample_msg sample_tm)))))
             ltac:(unfold sample_tm; simpl; lia)).
Defined.

(** C10: [%b] and [%h] select from the table Jan, Feb, Mar, Apr, May, June,
    July, Aug, Sept, Oct, Nov, Dec; at month indices 5, 6 and 8 they
    append the four-character names "June", "July" and "Sept", while index
    0 gives the three-character "Jan": the abbreviations are not all of
    one width. *)
Theorem C10_abbreviated_months (cfg : build_config) (env : environment)
    (msg : log_msg) (t : tm) :
  months = ["Jan"; "Feb"; "Mar"; "Apr"; "May"; "June"; "July"; "Aug"; "Sept";
            "Oct"; "Nov"; "Dec"]
  /\ compile_pattern cfg env "%b" = [b_formatter 0]
  /\ compile_pattern cfg env "%h" = [b_formatter 0]
  /\ appends (flag_formatter_format cfg env (b_formatter 0) msg (with_mon t 5)) msg "June"
  /\ appends (flag_formatter_format cfg env (b_formatter 0) msg (with_mon t 6)) msg "July"
  /\ appends (flag_formatter_format cfg env (b_formatter 0) msg (with_mon t 8)) msg "Sept"
  /\ appends (flag_formatter_format cfg env (b_formatter 0) msg (with_mon t 0)) msg "Jan"
  /\ String.length "June" = 4%nat /\ String.length "July" = 4%nat
  /\ String.length "Sept" = 4%nat /\ String.length "Jan" = 3%nat
  /\ (forall i name, array_at months i = Some name ->
        flag_formatter_format cfg env (b_formatter 0) msg (with_mon t i)
        = Some (b_formatter 0, set_formatted msg (formatted msg ++ name))).
Proof.
  repeat match goal with |- _ /\ _ => split end; try reflexivity;
    try (eexists; reflexivity).
  intros i name Hi. simpl. rewrite Hi. unfold pad_space_right.
  replace (size name <? 0) with false; [reflexivity|].
  symmetry. apply Z.ltb_ge. unfold size. lia.
Qed.

(* ------------------------------------------------------------------ *)
(** ** The pattern compiler *)

Lemma handle_flag_digit cfg env c fs lc :
  is_digit c = true ->
  handle_flag cfg env c fs lc = (false, fs, push_back lc c).
Proof. intros H. unfold handle_flag. rewrite H. reflexivity. Qed.

Lemma handle_flag_selector cfg env c lc :
  is_digit c = false ->
  exists f, forall fs', handle_flag cfg env c fs' lc = (true, (fs' ++ [f])%list, "").
Proof.
  intros H. unfold handle_flag. rewrite H. eexists. intros fs'. reflexivity.
Qed.

Lemma handle_flag_unknown cfg env c fs lc :
  is_digit c = false -> in_catalog cfg c = false ->
  handle_flag cfg env c fs lc
  = (true, (fs ++ [aggregate_formatter ("%" ++ lc ++ String c "")])%list, "").
Proof.
  intros Hd Hc. unfold handle_flag. rewrite Hd.
  replace (add_ch (add_ch "" "%" ++ lc) c) with ("%" ++ lc ++ String c "")
    by reflexivity.
  unfold in_catalog, catalog in Hc.
  destruct cfg as [w nd nn counter].
  destruct c as [[] [] [] [] [] [] [] []]; destruct counter;
    try reflexivity; simpl in Hc; discriminate.
Qed.

(** The compiler only ever appends to [_formatters]. *)
Lemma compile_accumulates cfg env (p : string) :
  (forall uc lc fs,
      compile_loop cfg env p uc lc fs = (fs ++ compile_loop cfg env p uc lc [])%list)
  /\ (forall lc fs,
      compile_flag cfg env p lc fs = (fs ++ compile_flag cfg env p lc [])%list).
Proof.
  induction p as [|c p [IHl IHf]]; split; intros.
  - destruct uc; simpl; [reflexivity|]. rewrite app_nil_r. reflexivity.
  - simpl. rewrite app_nil_r. reflexivity.
  - simpl. destruct (Ascii.eqb c "%").
    + rewrite IHf, (IHf _ (flush_user_chars uc [])).
      destruct uc; simpl; [rewrite <- app_assoc|]; reflexivity.
    + apply IHl.
  - simpl. destruct (is_digit c) eqn:Hd.
    + rewrite !handle_flag_digit by assumption. apply IHf.
    + destruct (handle_flag_selector cfg env c lc Hd) as [f Hf].
      rewrite !Hf. rewrite IHl, (IHl _ _ ([] ++ [f])%list).
      rewrite app_assoc. reflexivity.
Qed.

(** A ['%'] met while the scan is outside a directive starts one, after
    the pending literal run has been flushed exactly as at the end of the
    input. *)
Lemma compile_percent cfg env (q : string) (p : string) :
  (forall uc fs,
      pending_flag false p = false ->
      compile_loop cfg env (p ++ String "%" q) uc "" fs
      = compile_flag cfg env q "" (compile_loop cfg env p uc "" fs))
  /\ (forall lc fs,
      pending_flag true p = false ->
      compile_flag cfg env (p ++ String "%" q) lc fs
      = compile_flag cfg env q "" (compile_flag cfg env p lc fs)).
Proof.
  induction p as [|c p [IHl IHf]]; split; intros.
  - reflexivity.
  - discriminate.
  - simpl in *. destruct (Ascii.eqb c "%"); [apply IHf|apply IHl]; assumption.
  - simpl in *. destruct (is_digit c) eqn:Hd.
    + rewrite !handle_flag_digit by assumption. apply IHf; assumption.
    + destruct (handle_flag_selector cfg env c lc Hd) as [f Hf].
      rewrite !Hf. apply IHl; assumption.
Qed.

Lemma compile_flag_digits cfg env (ds : string) : forall q lc fs,
  all_digits ds = true ->
  compile_flag cfg env (ds ++ q) lc fs = compile_flag cfg env q (lc ++ ds) fs.
Proof.
  induction ds as [|d ds IH]; intros q lc fs H; simpl in *.
  - rewrite append_nil_r. reflexivity.
  - apply andb_prop in H as [Hd Hds].
    rewrite handle_flag_digit by assumption. rewrite IH by assumption.
    unfold push_back. rewrite append_assoc. reflexivity.
Qed.

Lemma format_chain_aggregate cfg env (str : string) (msg : log_msg) (t : tm) :
  format_chain cfg env [aggregate_formatter str] msg t
  = Some ([aggregate_formatter str], set_formatted msg (formatted msg ++ str)).
Proof. reflexivity. Qed.

(** C3: a ['%'], width digits and a selector that is neither a digit nor
    in the catalog compile, wherever the directive stands in the pattern,
    to a literal directive holding exactly that source text, between the
    chains of what comes before and after; the literal appends the text
    unchanged to every record, and the pattern "%3Q" prints "%3Q". *)
Theorem C3_unknown_selector_literal (cfg : build_config) (env : environment)
    (before digits after : string) (selector : ascii) :
  unterminated before = false ->
  all_digits digits = true ->
  is_digit selector = false ->
  in_catalog cfg selector = false ->
  compile_pattern cfg env (before ++ "%" ++ digits ++ String selector after)
  = (compile_pattern cfg env before
     ++ aggregate_formatter ("%" ++ digits ++ String selector "")
     :: compile_pattern cfg env after)%list
  /\ (forall msg t,
       flag_formatter_format cfg env
         (aggregate_formatter ("%" ++ digits ++ String selector "")) msg t
       = Some (aggregate_formatter ("%" ++ digits ++ String selector ""),
               set_formatted msg
                 (formatted msg ++ "%" ++ digits ++ String selector "")))
  /\ compile_pattern cfg env "%3Q" = [aggregate_formatter "%3Q"]
  /\ (forall pattern_time msg,
       formatted msg = "" ->
       format_output cfg env "%3Q" pattern_time msg = Some ("%3Q" ++ os_eol env)).
Proof.
  intros Hb Hd Hs Hc. split; [|split; [|split]].
  - unfold compile_pattern.
    change ("%" ++ digits ++ String selector after)
      with (String "%" (digits ++ String selector after)).
    rewrite (proj1 (compile_percent cfg env _ before)) by exact Hb.
    rewrite compile_flag_digits by exact Hd. simpl.
    rewrite handle_flag_unknown by assumption.
    rewrite (proj1 (compile_accumulates cfg env after)).
    rewrite <- app_assoc. reflexivity.
  - reflexivity.
  - reflexivity.
  - intros pattern_time msg Hm. unfold format_output, pattern_formatter_format.
    destruct (SPDLOG_NO_DATETIME cfg); simpl; rewrite Hm; reflexivity.
Qed.

(** C3 on the pattern "[%n] %3Q!". *)
Lemma C3_unknown_selector_literal_witness :
  compile_pattern default_build sample_env "[%n] %3Q!"
  = [aggregate_formatter "["; name_formatter 0; aggregate_formatter "] ";
     aggregate_formatter "%3Q"; aggregate_formatter "!"].
Proof.
  exact (proj1 (C3_unknown_selector_literal default_build sample_env
                  "[%n] " "3" "!" "Q"
                  eq_refl eq_refl eq_refl eq_refl)).
Defined.

(** A selector of the catalog never falls to the [default] case. *)
Lemma handle_flag_known cfg env c fs lc :
  in_catalog cfg c = true ->
  exists f, handle_flag cfg env c fs lc = (true, (fs ++ [f])%list, "")
            /\ forall str, f <> aggregate_formatter str.
Proof.
  intros Hc. unfold in_catalog, catalog in Hc. unfold handle_flag.
  destruct cfg as [w nd nn counter].
  destruct c as [[] [] [] [] [] [] [] []]; destruct counter;
    simpl in Hc; try discriminate Hc;
    (eexists; split; [reflexivity|intros str; discriminate]).
Qed.

Lemma pending_flag_app (p q : string) : forall b,
  pending_flag b (p ++ q) = pending_flag (pending_flag b p) q.
Proof.
  induction p as [|c p IH]; intros b; simpl; [reflexivity|].
  destruct b; apply IH.
Qed.

Lemma pending_flag_digits (ds : string) :
  all_digits ds = true -> pending_flag true ds = true.
Proof.
  induction ds as [|d ds IH]; intros H; simpl in *; [reflexivity|].
  apply andb_prop in H as [Hd Hds]. rewrite Hd. apply IH, Hds.
Qed.

Lemma pending_flag_shape (p : string) :
  (pending_flag false p = true ->
   exists pre ds, p = pre ++ String "%" ds /\ all_digits ds = true
                  /\ pending_flag false pre = false)
  /\ (pending_flag true p = true ->
      all_digits p = true
      \/ exists pre ds, p = pre ++ String "%" ds /\ all_digits ds = true
                        /\ pending_flag true pre = false).
Proof.
  induction p as [|c p [IHl IHf]]; split; intros H; simpl in H.
  - discriminate.
  - left. reflexivity.
  - destruct (Ascii.eqb_spec c "%") as [->|Hne].
    + destruct (IHf H) as [Hd|(pre & ds & -> & Hd & Hp)].
      * exists "", p. repeat split. exact Hd.
      * exists (String "%" pre), ds. repeat split; assumption.
    + destruct (IHl H) as (pre & ds & -> & Hd & Hp).
      exists (String c pre), ds. split; [reflexivity|]. split; [exact Hd|].
      simpl. destruct (Ascii.eqb_spec c "%"); [contradiction|exact Hp].
  - destruct (is_digit c) eqn:Hc.
    + destruct (IHf H) as [Hd|(pre & ds & -> & Hd & Hp)].
      * left. simpl. rewrite Hc. exact Hd.
      * right. exists (String c pre), ds. split; [reflexivity|].
        split; [exact Hd|]. simpl. rewrite Hc. exact Hp.
    + destruct (IHl H) as (pre & ds & -> & Hd & Hp).
      right. exists (String c pre), ds. split; [reflexivity|].
      split; [exact Hd|]. simpl. rewrite Hc. exact Hp.
Qed.

(** The scan of [p] stops inside a directive exactly when [p] ends in a
    ['%'] that starts a directive, followed by digits only. *)
Lemma unterminated_iff (p : string) :
  unterminated p = true
  <-> exists pre ds, p = pre ++ String "%" ds /\ all_digits ds = true
                     /\ unterminated pre = false.
Proof.
  unfold unterminated. split.
  - apply (proj1 (pending_flag_shape p)).
  - intros (pre & ds & -> & Hd & Hp).
    rewrite pending_flag_app, Hp. simpl. apply pending_flag_digits, Hd.
Qed.

(** With the scan inside a directive, a ['%'] is the selector of that
    directive: it is not in the catalog and is echoed with the ['%'] and
    the digits before it. *)
Lemma compile_percent_selector cfg env (p : string) :
  (forall uc fs,
      pending_flag false p = true ->
      exists lit,
        compile_loop cfg env (p ++ "%") uc "" fs
        = (compile_loop cfg env p uc "" fs ++ [aggregate_formatter lit])%list)
  /\ (forall lc fs,
      pending_flag true p = true ->
      exists lit,
        compile_flag cfg env (p ++ "%") lc fs
        = (compile_flag cfg env p lc fs ++ [aggregate_formatter lit])%list).
Proof.
  induction p as [|c p [IHl IHf]]; split; intros.
  - discriminate.
  - cbn [append compile_flag compile_loop].
    rewrite handle_flag_unknown by (destruct cfg as [? ? ? []]; reflexivity).
    eexists. reflexivity.
  - simpl in *. destruct (Ascii.eqb c "%"); [apply IHf|apply IHl]; assumption.
  - simpl in *. destruct (is_digit c) eqn:Hd.
    + rewrite !handle_flag_digit by assumption. apply IHf; assumption.
    + destruct (handle_flag_selector cfg env c lc Hd) as [f Hf].
      rewrite !Hf. apply IHl; assumption.
Qed.

(** C4, as amended: when the scan of [p] does not stop inside a directive
    (after a ['%'] and the digits that follow it), a ['%'] appended to [p]
    is dropped: the compiled chain, and so what is printed for every
    record, is that of [p].  When the scan of [p] does stop inside a
    directive, the appended ['%'] is taken as its selector and adds one
    literal directive to the chain of [p]. *)
Theorem C4_trailing_percent (cfg : build_config) (env : environment) (p : string) :
  (unterminated p = false ->
     compile_pattern cfg env (p ++ "%") = compile_pattern cfg env p
     /\ forall pattern_time msg,
          pattern_formatter_format cfg env
            (make_pattern_formatter cfg env (p ++ "%") pattern_time) msg
          = pattern_formatter_format cfg env
              (make_pattern_formatter cfg env p pattern_time) msg)
  /\ (unterminated p = true ->
     exists lit,
       compile_pattern cfg env (p ++ "%")
       = (compile_pattern cfg env p ++ [aggregate_formatter lit])%list).
Proof.
  split; intros Hp.
  - assert (H : compile_pattern cfg env (p ++ "%") = compile_pattern cfg env p).
    { unfold compile_pattern.
      rewrite (proj1 (compile_percent cfg env "" p)) by exact Hp. reflexivity. }
    split; [exact H|]. intros pattern_time msg.
    unfold make_pattern_formatter. rewrite H. reflexivity.
  - apply (proj1 (compile_percent_selector cfg env p)). exact Hp.
Qed.

(** C4 on the pattern "[%n] %v" and on the pattern "%3". *)
Lemma C4_trailing_percent_witness :
  compile_pattern default_build sample_env "[%n] %v%"
  = compile_pattern default_build sample_env "[%n] %v"
  /\ exists lit,
       compile_pattern default_build sample_env "%3%"
       = (compile_pattern default_build sample_env "%3" ++ [aggregate_formatter lit])%list.
Proof.
  split.
  - exact (proj1 (proj1 (C4_trailing_percent default_build sample_env "[%n] %v") eq_refl)).
  - exact (proj2 (C4_trailing_percent default_build sample_env "%3") eq_refl).
Defined.

(** C4 as stated fails at [p = "%"]: "%" compiles to the empty chain and
    prints the line terminator alone, "%%" compiles to the literal "%%"
    and prints it. *)
Lemma C4_trailing_percent_counterexample :
  compile_pattern default_build sample_env "%" = []
  /\ compile_pattern default_build sample_env ("%" ++ "%") = [aggregate_formatter "%%"]
  /\ format_output default_build sample_env "%" local sample_msg
     = Some (os_eol sample_env)
  /\ format_output default_build sample_env ("%" ++ "%") local sample_msg
     = Some ("%%" ++ os_eol sample_env)
  /\ format_output default_build sample_env ("%" ++ "%") local sample_msg
     <> format_output default_build sample_env "%" local sample_msg.
Proof. repeat split. discriminate. Qed.

(* ------------------------------------------------------------------ *)
(** ** The format string of [pad_space_right] *)

Lemma fmt_write_uint_no_width (limit : Z) (spec : fmt_spec) (value : Z) :
  spec_width spec = 0 ->
  fmt_write_uint limit spec value = Some (fmt.format_uint value).
Proof.
  intros Hw. unfold fmt_write_uint. rewrite Hw.
  destruct (Z.leb_spec 0 (Z.of_nat (String.length (fmt.format_uint value))));
    [reflexivity|lia].
Qed.

(** The first [fmt::format] gives ["{: <N}"] for the width [N]. *)
Lemma fmt_format_padded_format (limit : Z) (len : Z) :
  fmt_format limit "{{: <{}}}" len = Some ("{: <" ++ fmt.format_uint len ++ "}").
Proof.
  unfold fmt_format. cbn [fmt_format_loop Ascii.eqb Bool.eqb append fmt_field_spec].
  rewrite fmt_write_uint_no_width by reflexivity. reflexivity.
Qed.

(** Without a width nothing is padded and nothing can fail. *)
Lemma pad_space_right_val_0 (env : environment) (w : string) (val : Z) :
  pad_space_right_val env 0 w val = Some (w ++ fmt.format_uint val).
Proof.
  unfold pad_space_right_val. rewrite fmt_format_padded_format.
  change ("{: <" ++ fmt.format_uint 0 ++ "}") with "{: <0}".
  unfold fmt_format.
  cbn [fmt_format_loop Ascii.eqb Bool.eqb append fmt_field_spec fmt_parse_spec
       fmt_is_align fmt_align_of].
  rewrite fmt_write_uint_no_width by reflexivity.
  reflexivity.
Qed.

(* ------------------------------------------------------------------ *)
(** ** The process id directive *)

(** C2, on the code as written: the selector ['P'] dispatches to
    [new details::pid_formatter(length)], whose [format] would append the
    process id left-aligned in the width; but [pid_formatter] declares
    that constructor private, where its sibling [t_formatter] declares
    its own public, so the [new] expression in [handle_flag] is
    ill-formed. *)
Theorem C2_pid_formatter_constructor_private (cfg : build_config)
    (env : environment) (msg : log_msg) (t : tm) :
  compile_pattern cfg env "%P" = [pid_formatter 0]
  /\ constructor_access (pid_formatter 0) = access_private
  /\ compile_pattern cfg env "%t" = [t_formatter 0]
  /\ constructor_access (t_formatter 0) = access_public
  /\ compile_pattern default_build sample_env "%6P" = [pid_formatter 6]
  /\ constructor_access (pid_formatter 6) = access_private
  /\ flag_formatter_format cfg env (pid_formatter 0) msg t
     = Some (pid_formatter 0,
             set_formatted msg
               (formatted msg ++ fmt.format_uint (static_cast_size_t (os_pid env))))
  /\ flag_formatter_format default_build sample_env (pid_formatter 6) sample_msg sample_tm
     = Some (pid_formatter 6, set_formatted sample_msg "4242  ").
Proof.
  repeat split. cbn [flag_formatter_format].
  rewrite pad_space_right_val_0. reflexivity.
Qed.

(* ------------------------------------------------------------------ *)
(** ** The UTC offset directive *)

Lemma get_cached_offset_refresh env last_update offset_minutes msg t :
  cache_refresh env <= time msg - last_update ->
  get_cached_offset env last_update offset_minutes msg t
  = ((time msg, os_utc_minutes_offset env t), os_utc_minutes_offset env t).
Proof.
  intros H. unfold get_cached_offset.
  destruct (Z.geb_spec (time msg - last_update) (cache_refresh env)); [reflexivity|lia].
Qed.

Lemma get_cached_offset_cached env last_update offset_minutes msg t :
  time msg - last_update < cache_refresh env ->
  get_cached_offset env last_update offset_minutes msg t
  = ((last_update, offset_minutes), offset_minutes).
Proof.
  intros H. unfold get_cached_offset.
  destruct (Z.geb_spec (time msg - last_update) (cache_refresh env)); [lia|reflexivity].
Qed.

(** The value [get_cached_offset] returns is the one it leaves in the
    cache. *)
Lemma get_cached_offset_returns_cache env last_update offset_minutes msg t :
  snd (get_cached_offset env last_update offset_minutes msg t)
  = snd (fst (get_cached_offset env last_update offset_minutes msg t)).
Proof.
  unfold get_cached_offset.
  destruct (time msg - last_update >=? cache_refresh env); reflexivity.
Qed.

(** C1, as amended.  In a build with [_WIN32], every invocation of [%z]
    consults the cache under the lock: [_mutex] is taken before the
    members are read, every read and write of [_last_update] and
    [_offset_minutes] is made while it is held, and it is released when
    the call is left.  When the record's timestamp is at least the refresh
    window (five seconds) past the last refresh, the offset is taken from
    the OS query and both cache fields are updated; otherwise the cached
    offset is printed and the cache is left alone.  Hence an invocation
    whose timestamp is less than the window past the last refresh prints
    the offset of the invocation before it; in particular when that one
    refreshed the cache and the two timestamps are less than the window
    apart.  In a build without [_WIN32] the directive takes no lock and
    never reads or writes the cache, and prints what the OS query gives
    for the calendar breakdown of the record. *)
Theorem C1_offset_cache (cfg : build_config) (env : environment)
    (last_update offset_minutes : Z) (msg : log_msg) (t : tm) :
  (WIN32 cfg = true ->
     (cache_refresh env <= time msg - last_update ->
        flag_formatter_format cfg env (z_formatter last_update offset_minutes) msg t
        = Some (z_formatter (time msg) (os_utc_minutes_offset env t),
                set_formatted msg
                  (format_offset (formatted msg) (os_utc_minutes_offset env t))))
     /\ (time msg - last_update < cache_refresh env ->
        flag_formatter_format cfg env (z_formatter last_update offset_minutes) msg t
        = Some (z_formatter last_update offset_minutes,
                set_formatted msg (format_offset (formatted msg) offset_minutes)))
     /\ (forall f1 out1 msg2 t2,
        flag_formatter_format cfg env (z_formatter last_update offset_minutes) msg t
        = Some (f1, out1) ->
        exists last_update1 offset1,
          f1 = z_formatter last_update1 offset1
          /\ out1 = set_formatted msg (format_offset (formatted msg) offset1)
          /\ (time msg2 - last_update1 < cache_refresh env ->
              flag_formatter_format cfg env f1 msg2 t2
              = Some (f1, set_formatted msg2 (format_offset (formatted msg2) offset1))))
     /\ (forall msg2 t2,
        cache_refresh env <= time msg - last_update ->
        time msg2 - time msg < cache_refresh env ->
        exists f1 out1,
          flag_formatter_format cfg env (z_formatter last_update offset_minutes) msg t
          = Some (f1, out1)
          /\ out1 = set_formatted msg
                      (format_offset (formatted msg) (os_utc_minutes_offset env t))
          /\ flag_formatter_format cfg env f1 msg2 t2
             = Some (f1, set_formatted msg2
                           (format_offset (formatted msg2) (os_utc_minutes_offset env t))))
     /\ under_lock false
          (z_formatter_accesses cfg env (z_formatter last_update offset_minutes) msg t)
        = true
     /\ (exists last_update1 offset1,
          run_accesses
            (z_formatter_accesses cfg env (z_formatter last_update offset_minutes) msg t)
            (last_update, offset_minutes) None
          = ((last_update1, offset1), Some offset1)
          /\ flag_formatter_format cfg env (z_formatter last_update offset_minutes) msg t
             = Some (z_formatter last_update1 offset1,
                     set_formatted msg (format_offset (formatted msg) offset1))))
  /\ (WIN32 cfg = false ->
     flag_formatter_format cfg env (z_formatter last_update offset_minutes) msg t
     = Some (z_formatter last_update offset_minutes,
             set_formatted msg
               (format_offset (formatted msg) (os_utc_minutes_offset env t)))
     /\ z_formatter_accesses cfg env (z_formatter last_update offset_minutes) msg t
        = []).
Proof.
  split; intros Hw.
  - assert (Hrefresh :
      cache_refresh env <= time msg - last_update ->
      flag_formatter_format cfg env (z_formatter last_update offset_minutes) msg t
      = Some (z_formatter (time msg) (os_utc_minutes_offset env t),
              set_formatted msg
                (format_offset (formatted msg) (os_utc_minutes_offset env t)))).
    { intros H. simpl. rewrite Hw, get_cached_offset_refresh by exact H. reflexivity. }
    assert (Hcached : forall lu om m t',
      time m - lu < cache_refresh env ->
      flag_formatter_format cfg env (z_formatter lu om) m t'
      = Some (z_formatter lu om, set_formatted m (format_offset (formatted m) om))).
    { intros lu om m t' H. simpl. rewrite Hw, get_cached_offset_cached by exact H.
      reflexivity. }
    split; [exact Hrefresh|]. split; [apply Hcached|]. split; [|split; [|split]].
    + intros f1 out1 msg2 t2 H1.
      destruct (Z.le_gt_cases (cache_refresh env) (time msg - last_update)) as [H|H].
      * rewrite Hrefresh in H1 by exact H. injection H1 as <- <-.
        eexists _, _. split; [reflexivity|]. split; [reflexivity|]. apply Hcached.
      * rewrite Hcached in H1 by exact H. injection H1 as <- <-.
        eexists _, _. split; [reflexivity|]. split; [reflexivity|]. apply Hcached.
    + intros msg2 t2 H1 H2. eexists _, _. split; [apply Hrefresh; exact H1|].
      split; [reflexivity|]. apply Hcached. exact H2.
    + cbn [z_formatter_accesses]. rewrite Hw. unfold get_cached_offset_accesses.
      destruct (time msg - last_update >=? cache_refresh env); reflexivity.
    + cbn [z_formatter_accesses flag_formatter_format]. rewrite Hw.
      unfold get_cached_offset_accesses, get_cached_offset.
      destruct (time msg - last_update >=? cache_refresh env);
        eexists _, _; split; reflexivity.
  - split; [simpl; rewrite Hw; reflexivity|].
    cbn [z_formatter_accesses]. rewrite Hw. reflexivity.
Qed.

(** C1 in [windows_build]: a record at second 100 refreshes the cache of a
    fresh [z_formatter], under the lock; in [default_build] neither the
    lock nor the cache is touched. *)
Lemma C1_offset_cache_witness :
  flag_formatter_format windows_build sample_env (z_formatter 0 0)
    (with_time sample_msg (seconds 100)) sample_tm
  = Some (z_formatter (seconds 100) 60,
          set_formatted (with_time sample_msg (seconds 100)) "+01:00")
  /\ z_formatter_accesses windows_build sample_env (z_formatter 0 0)
       (with_time sample_msg (seconds 100)) sample_tm
     = [lock_mutex; read_last_update; write_offset_minutes 60;
        write_last_update (seconds 100); read_offset_minutes; unlock_mutex]
  /\ under_lock false
       (z_formatter_accesses windows_build sample_env (z_formatter 0 0)
          (with_time sample_msg (seconds 100)) sample_tm) = true
  /\ flag_formatter_format default_build sample_env (z_formatter 0 0)
       (with_time sample_msg (seconds 100)) sample_tm
     = Some (z_formatter 0 0,
             set_formatted (with_time sample_msg (seconds 100)) "+01:00")
  /\ z_formatter_accesses default_build sample_env (z_formatter 0 0)
       (with_time sample_msg (seconds 100)) sample_tm = [].
Proof.
  split; [|split; [|split; [|split]]].
  - exact (proj1 (proj1 (C1_offset_cache windows_build sample_env 0 0
                           (with_time sample_msg (seconds 100)) sample_tm) eq_refl)
             ltac:(vm_compute; discriminate)).
  - reflexivity.
  - exact (proj1 (proj2 (proj2 (proj2 (proj2
             (proj1 (C1_offset_cache windows_build sample_env 0 0
                       (with_time sample_msg (seconds 100)) sample_tm) eq_refl)))))).
  - exact (proj1 (proj2 (C1_offset_cache default_build sample_env 0 0
                           (with_time sample_msg (seconds 100)) sample_tm) eq_refl)).
  - exact (proj2 (proj2 (C1_offset_cache default_build sample_env 0 0
                           (with_time sample_msg (seconds 100)) sample_tm) eq_refl)).
Defined.

(** What the lock is for: of two calls of [get_cached_offset] made at the
    same time on one formatter, every schedule that respects the mutex
    runs one call to its end before the other begins. *)
Lemma interleaved_nil_l (other all : list cache_access) :
  interleaved [] other all -> all = other.
Proof.
  revert all. induction other as [|a other IH]; intros all H; inversion H; subst.
  - reflexivity.
  - f_equal. apply IH. assumption.
Qed.

Lemma interleaved_sym (one other all : list cache_access) :
  interleaved one other all -> interleaved other one all.
Proof. induction 1; constructor; assumption. Qed.

Lemma critical_section_runs_to_its_end (body other : list cache_access) :
  forall all,
  forallb member_access body = true ->
  interleaved (body ++ [unlock_mutex]) (lock_mutex :: other) all ->
  under_lock true all = true ->
  all = ((body ++ [unlock_mutex]) ++ lock_mutex :: other)%list.
Proof.
  induction body as [|a body IH]; intros all Hbody H Hlock.
  - inversion H; subst.
    + simpl. f_equal. apply interleaved_nil_l. assumption.
    + discriminate Hlock.
  - simpl in Hbody. apply andb_prop in Hbody as [Ha Hbody].
    inversion H; subst.
    + simpl. f_equal. apply IH; [exact Hbody|assumption|].
      destruct a; try discriminate Ha; exact Hlock.
    + discriminate Hlock.
Qed.

Lemma get_cached_offset_accesses_shape (env : environment) (last_update : Z)
    (msg : log_msg) (t : tm) :
  exists body,
    get_cached_offset_accesses env last_update msg t
    = (lock_mutex :: body ++ [unlock_mutex])%list
    /\ forallb member_access body = true.
Proof.
  unfold get_cached_offset_accesses.
  destruct (time msg - last_update >=? cache_refresh env).
  - exists [read_last_update; write_offset_minutes (os_utc_minutes_offset env t);
            write_last_update (time msg); read_offset_minutes].
    split; reflexivity.
  - exists [read_last_update; read_offset_minutes]. split; reflexivity.
Qed.

Lemma get_cached_offset_calls_serialised (env : environment)
    (last_update1 last_update2 : Z) (msg1 msg2 : log_msg) (t1 t2 : tm)
    (all : list cache_access) :
  interleaved (get_cached_offset_accesses env last_update1 msg1 t1)
              (get_cached_offset_accesses env last_update2 msg2 t2) all ->
  under_lock false all = true ->
  all = (get_cached_offset_accesses env last_update1 msg1 t1
         ++ get_cached_offset_accesses env last_update2 msg2 t2)%list
  \/ all = (get_cached_offset_accesses env last_update2 msg2 t2
            ++ get_cached_offset_accesses env last_update1 msg1 t1)%list.
Proof.
  destruct (get_cached_offset_accesses_shape env last_update1 msg1 t1)
    as (body1 & -> & Hb1).
  destruct (get_cached_offset_accesses_shape env last_update2 msg2 t2)
    as (body2 & -> & Hb2).
  intros H Hlock. inversion H; subst.
  - left. simpl. f_equal.
    apply critical_section_runs_to_its_end; [exact Hb1|assumption|exact Hlock].
  - right. simpl. f_equal.
    apply critical_section_runs_to_its_end;
      [exact Hb2|apply interleaved_sym; assumption|exact Hlock].
Qed.

(** A run in [windows_build]: records at seconds 100, 104 and 106, the
    last one under daylight saving time.  The first refreshes the cache,
    the second reads it, the third is six seconds past the refresh and
    refreshes again. *)
Lemma z_formatter_run :
  flag_formatter_format windows_build sample_env (z_formatter 0 0)
    (with_time sample_msg (seconds 100)) sample_tm
  = Some (z_formatter (seconds 100) 60,
          set_formatted (with_time sample_msg (seconds 100)) "+01:00")
  /\ flag_formatter_format windows_build sample_env (z_formatter (seconds 100) 60)
       (with_time sample_msg (seconds 104)) sample_tm
     = Some (z_formatter (seconds 100) 60,
             set_formatted (with_time sample_msg (seconds 104)) "+01:00")
  /\ flag_formatter_format windows_build sample_env (z_formatter (seconds 100) 60)
       (with_time sample_msg (seconds 106)) dst_tm
     = Some (z_formatter (seconds 106) 120,
             set_formatted (with_time sample_msg (seconds 106)) "+02:00").
Proof. repeat split. Qed.

(** C1 as stated fails, in either build.  With [_WIN32]: from the cache
    refreshed at second 100, the records at seconds 104 and 106 are two
    seconds apart and print "+01:00" and "+02:00", since the second one is
    six seconds past the refresh.  Without [_WIN32]: no invocation
    consults the cache, and the same two records print the two offsets
    the OS query gives for their calendar breakdowns. *)
Lemma C1_offset_cache_counterexample :
  ~ same_offset_within_window windows_build sample_env
  /\ ~ same_offset_within_window default_build sample_env.
Proof.
  split; intros H.
  - specialize (H (seconds 100) 60
                  (with_time sample_msg (seconds 104)) sample_tm
                  (with_time sample_msg (seconds 106)) dst_tm
                  _ _ _ _ ltac:(vm_compute; reflexivity) eq_refl eq_refl eq_refl).
    discriminate H.
  - specialize (H (seconds 100) 60
                  (with_time sample_msg (seconds 104)) sample_tm
                  (with_time sample_msg (seconds 106)) dst_tm
                  _ _ _ _ ltac:(vm_compute; reflexivity) eq_refl eq_refl eq_refl).
    discriminate H.
Qed.

(* ------------------------------------------------------------------ *)
(** ** Sub-second fractions *)

Lemma digit_char (d : Z) :
  0 <= d <= 9 ->
  is_digit (static_cast_char (48 + d)) = true
  /\ char_code (static_cast_char (48 + d)) = 48 + d.
Proof.
  intros Hd.
  assert (d = 0 \/ d = 1 \/ d = 2 \/ d = 3 \/ d = 4 \/ d = 5 \/ d = 6 \/ d = 7
          \/ d = 8 \/ d = 9) as H by lia.
  repeat (destruct H as [->|H]; [split; reflexivity|]). subst d. split; reflexivity.
Qed.

Lemma all_digits_app (a b : string) :
  all_digits (a ++ b) = all_digits a && all_digits b.
Proof.
  induction a as [|c a IH]; simpl; [reflexivity|].
  rewrite IH, andb_assoc. reflexivity.
Qed.

Lemma strtoul_loop_snoc (s : string) (c : ascii) : forall acc,
  all_digits s = true -> is_digit c = true ->
  strtoul_loop (s ++ String c "") acc = strtoul_loop s acc * 10 + (char_code c - 48).
Proof.
  induction s as [|x s IH]; intros acc Hs Hc; simpl in *.
  - rewrite Hc. reflexivity.
  - apply andb_prop in Hs as [Hx Hs]. rewrite Hx. apply IH; assumption.
Qed.

Lemma format_decimal_digits (k : nat) : forall n,
  0 <= n < 10 ^ Z.of_nat k ->
  zero_padded_digits k n (fmt.format_decimal k n "").
Proof.
  unfold zero_padded_digits.
  induction k as [|k IH]; intros n Hn.
  - simpl in *. repeat split. lia.
  - rewrite Nat2Z.inj_succ, Z.pow_succ_r in Hn by lia.
    assert (Hq : 0 <= n / 10 < 10 ^ Z.of_nat k)
      by (split; [apply Z.div_pos; lia|apply Z.div_lt_upper_bound; lia]).
    destruct (IH (n / 10) Hq) as (Hlen & Hall & Hval).
    pose proof (Z.mod_pos_bound n 10 ltac:(lia)) as Hm.
    destruct (digit_char (n mod 10) ltac:(lia)) as [Hd Hc].
    cbn [fmt.format_decimal]. rewrite format_decimal_tail. split; [|split].
    + rewrite length_append, Hlen. cbn [String.length]. lia.
    + rewrite all_digits_app, Hall. cbn [all_digits andb]. rewrite Hd. reflexivity.
    + rewrite strtoul_loop_snoc, Hval, Hc by assumption.
      pose proof (Z.div_mod n 10 ltac:(lia)). lia.
Qed.

Lemma subsecond_time_fraction (env : environment) (u : Z) (msg : log_msg) :
  0 < ticks_per_second env -> 0 < u ->
  subsecond env u msg = fmt_helper.time_fraction (ticks_per_second env) u (time msg).
Proof.
  intros Ht Hu. unfold subsecond, fmt_helper.time_fraction, fmt_helper.duration_cast.
  rewrite Z.quot_1_r, Z.mul_1_r.
  rewrite Z.rem_eq by lia.
  rewrite Z.quot_quot, Z.quot_mul_cancel_r by lia. lia.
Qed.

Lemma subsecond_bounds (env : environment) (u : Z) (msg : log_msg) :
  0 < ticks_per_second env -> 0 < u ->
  - u < subsecond env u msg < u
  /\ (0 <= time msg -> 0 <= subsecond env u msg).
Proof.
  intros Ht Hu. unfold subsecond, fmt_helper.duration_cast. split.
  - pose proof (Z.rem_bound_abs (time msg * u ÷ ticks_per_second env) u ltac:(lia)).
    lia.
  - intros Hm. apply Z.rem_bound_pos; [|lia].
    apply Z.quot_pos; [|lia]. apply Z.mul_nonneg_nonneg; lia.
Qed.



(* ------------------------------------------------------------------ *)
(** ** The full line *)

Lemma Z_range_forallb_spec (P : Z -> bool) (len : nat) : forall lo n,
  Z_range_forallb P lo len = true -> lo <= n < lo + Z.of_nat len -> P n = true.
Proof.
  induction len as [|len IH]; intros lo n H Hn; [lia|].
  simpl in H. apply andb_prop in H as [H0 H].
  destruct (Z.eq_dec n lo) as [->|Hne]; [exact H0|].
  apply (IH (lo + 1)); [exact H|lia].
Qed.

Lemma pad2_is_pad (n : Z) : 0 <= n -> fmt_helper.pad2 n "" = fmt.pad n 2 "0".
Proof.
  intros Hn. destruct (Z.lt_ge_cases n 100) as [Hlt|Hge].
  - apply String.eqb_eq.
    apply (Z_range_forallb_spec
             (fun n => String.eqb (fmt_helper.pad2 n "") (fmt.pad n 2 "0")) 100 0);
      [vm_compute; reflexivity|lia].
  - rewrite (pad_overflow 1) by (simpl; lia).
    unfold fmt_helper.pad2, fmt_helper.append_int.
    destruct (Z.gtb_spec n 99); [reflexivity|lia].
Qed.

Lemma pad3_is_pad (n : Z) : 0 <= n -> fmt_helper.pad3 n "" = fmt.pad n 3 "0".
Proof.
  intros Hn. destruct (Z.lt_ge_cases n 1000) as [Hlt|Hge].
  - apply String.eqb_eq.
    apply (Z_range_forallb_spec
             (fun n => String.eqb (fmt_helper.pad3 n "") (fmt.pad n 3 "0")) 1000 0);
      [vm_compute; reflexivity|lia].
  - rewrite (pad_overflow 2) by (simpl; lia).
    unfold fmt_helper.pad3, fmt_helper.append_int.
    destruct (Z.gtb_spec n 999); [reflexivity|lia].
Qed.

Lemma non_negative_int_spec (z : Z) :
  non_negative_int z = true -> 0 <= z < 2 ^ 31.
Proof.
  unfold non_negative_int. intros H. apply andb_prop in H as [H1 H2].
  apply Z.leb_le in H1. apply Z.ltb_lt in H2. lia.
Qed.

Lemma static_cast_uint_small (z : Z) : 0 <= z < 2 ^ 31 -> static_cast_uint z = z.
Proof. intros Hz. unfold static_cast_uint. apply Z.mod_small. lia. Qed.

Lemma full_format_manual_line (cfg : build_config) (env : environment)
    (msg : log_msg) (t : tm) :
  SPDLOG_NO_DATETIME cfg = false -> SPDLOG_NO_NAME cfg = false ->
  0 < ticks_per_second env -> 0 <= time msg ->
  calendar_non_negative t = true ->
  full_format cfg env msg t = formatted msg ++ manual_line env msg t.
Proof.
  intros Hd Hn Ht Hm Hc. unfold calendar_non_negative in Hc.
  repeat (apply andb_prop in Hc as [Hc ?]).
  repeat match goal with
         | H : non_negative_int _ = true |- _ => apply non_negative_int_spec in H
         end.
  destruct (subsecond_bounds env 1000 msg Ht ltac:(lia)) as [Hb Hp].
  specialize (Hp Hm).
  unfold full_format, manual_line. rewrite Hd, Hn.
  rewrite <- subsecond_time_fraction by lia.
  rewrite !pad2_is_pad, pad3_is_pad by lia.
  rewrite !static_cast_int_small by lia.
  rewrite !static_cast_uint_small by lia.
  rewrite !append_assoc. reflexivity.
Qed.

Lemma pad_space_left_0 (env : environment) (w str : string) :
  pad_space_left env 0 w str = Some (w ++ str).
Proof.
  unfold pad_space_left. replace (size str <? 0) with false; [reflexivity|].
  symmetry. apply Z.ltb_ge. unfold size. lia.
Qed.

Lemma default_pattern_chain (cfg : build_config) (env : environment) :
  compile_pattern cfg env default_pattern
  = [aggregate_formatter "["; Y_formatter; aggregate_formatter "-"; m_formatter;
     aggregate_formatter "-"; d_formatter; aggregate_formatter " "; H_formatter;
     aggregate_formatter ":"; M_formatter; aggregate_formatter ":"; S_formatter;
     aggregate_formatter "."; e_formatter; aggregate_formatter "] [";
     name_formatter 0; aggregate_formatter "] ["; level_formatter 0;
     aggregate_formatter "] "; v_formatter].
Proof. reflexivity. Qed.

Lemma chain_appends_nil cfg env msg t : chain_appends cfg env [] msg t "".
Proof. intros w. simpl. rewrite append_nil_r. reflexivity. Qed.

Lemma chain_appends_cons cfg env f fs msg t a b :
  (forall w, flag_formatter_format cfg env f (set_formatted msg w) t
             = Some (f, set_formatted msg (w ++ a))) ->
  chain_appends cfg env fs msg t b ->
  chain_appends cfg env (f :: fs) msg t (a ++ b).
Proof.
  intros Hf Hfs w. cbn [format_chain]. rewrite Hf, Hfs, append_assoc. reflexivity.
Qed.

Lemma chain_appends_run cfg env fs msg t text :
  chain_appends cfg env fs msg t text ->
  format_chain cfg env fs msg t
  = Some (fs, set_formatted msg (formatted msg ++ text)).
Proof.
  intros H. specialize (H (formatted msg)).
  destruct msg; exact H.
Qed.

Lemma default_chain_manual_line (cfg : build_config) (env : environment)
    (msg : log_msg) (t : tm) :
  0 < ticks_per_second env -> 0 <= time msg ->
  calendar_non_negative t = true ->
  format_chain cfg env (compile_pattern cfg env default_pattern) msg t
  = Some (compile_pattern cfg env default_pattern,
          set_formatted msg (formatted msg ++ manual_line env msg t)).
Proof.
  intros Ht Hm Hc. unfold calendar_non_negative in Hc.
  repeat match type of Hc with
         | (_ && non_negative_int _ = true) => apply andb_prop in Hc as [Hc ?]
         end.
  repeat match goal with
         | H : non_negative_int _ = true |- _ => apply non_negative_int_spec in H
         end.
  destruct (subsecond_bounds env 1000 msg Ht ltac:(lia)) as [Hb Hp].
  specialize (Hp Hm).
  assert (Hms : fmt.pad (static_cast_int (subsecond env 1000 msg)) 3 "0"
                = fmt_helper.pad3
                    (fmt_helper.time_fraction (ticks_per_second env) 1000 (time msg)) "").
  { rewrite <- subsecond_time_fraction by lia.
    rewrite pad3_is_pad, static_cast_int_small by lia. reflexivity. }
  rewrite default_pattern_chain. apply chain_appends_run.
  replace (manual_line env msg t) with
    ("[" ++ fmt.format_int (static_cast_int (tm_year t + 1900))
     ++ "-" ++ fmt.pad (static_cast_int (tm_mon t + 1)) 2 "0"
     ++ "-" ++ fmt.pad (tm_mday t) 2 "0"
     ++ " " ++ fmt.pad (tm_hour t) 2 "0"
     ++ ":" ++ fmt.pad (tm_min t) 2 "0"
     ++ ":" ++ fmt.pad (tm_sec t) 2 "0"
     ++ "." ++ fmt.pad (static_cast_int (subsecond env 1000 msg)) 3 "0"
     ++ "] [" ++ logger_name msg
     ++ "] [" ++ level_to_str env (level msg)
     ++ "] " ++ raw msg ++ "").
  - repeat (apply chain_appends_cons;
            [intros w; cbn [flag_formatter_format]; rewrite ?pad_space_left_0;
             reflexivity|]).
    apply chain_appends_nil.
  - unfold manual_line. rewrite Hms, !pad2_is_pad by lia.
    rewrite !static_cast_int_small by lia.
    rewrite append_nil_r. reflexivity.
Qed.

(** C5, as amended: in a build with neither [SPDLOG_NO_DATETIME] nor
    [SPDLOG_NO_NAME], for every record whose timestamp is not before the
    epoch and every calendar breakdown whose printed fields are
    non-negative, the full line directive [%+] appends "[" year "-"
    pad2(month) "-" pad2(day) " " pad2(hour) ":" pad2(min) ":" pad2(sec) "."
    pad3(millis) "] [" name "] [" levelString "] " rawMessage, which is also
    what the chain compiled from the default pattern appends. *)
Theorem C5_full_line (cfg : build_config) (env : environment)
    (msg : log_msg) (t : tm) :
  SPDLOG_NO_DATETIME cfg = false -> SPDLOG_NO_NAME cfg = false ->
  0 < ticks_per_second env -> 0 <= time msg ->
  calendar_non_negative t = true ->
  compile_pattern cfg env "%+" = [full_formatter]
  /\ flag_formatter_format cfg env full_formatter msg t
     = Some (full_formatter,
             set_formatted msg (formatted msg ++ manual_line env msg t))
  /\ format_chain cfg env (compile_pattern cfg env default_pattern) msg t
     = Some (compile_pattern cfg env default_pattern,
             set_formatted msg (formatted msg ++ manual_line env msg t))
  /\ (formatted msg = "" ->
      chain_output cfg env "%+" msg t = Some (manual_line env msg t)
      /\ chain_output cfg env "%+" msg t = chain_output cfg env default_pattern msg t).
Proof.
  intros Hd Hn Ht Hm Hc.
  assert (Hfull : flag_formatter_format cfg env full_formatter msg t
                  = Some (full_formatter,
                          set_formatted msg (formatted msg ++ manual_line env msg t))).
  { cbn [flag_formatter_format].
    rewrite full_format_manual_line by assumption. reflexivity. }
  pose proof (default_chain_manual_line cfg env msg t Ht Hm Hc) as Hchain.
  split; [reflexivity|]. split; [exact Hfull|]. split; [exact Hchain|].
  intros Hempty.
  assert (Hplus : chain_output cfg env "%+" msg t = Some (manual_line env msg t)).
  { unfold chain_output. change (compile_pattern cfg env "%+") with [full_formatter].
    cbn [format_chain]. rewrite Hfull. cbn [formatted set_formatted].
    rewrite Hempty. reflexivity. }
  split; [exact Hplus|]. rewrite Hplus.
  unfold chain_output. rewrite Hchain. cbn [formatted set_formatted].
  rewrite Hempty. reflexivity.
Qed.

(** C5 on [sample_msg] and [sample_tm]. *)
Lemma C5_full_line_witness :
  chain_output default_build sample_env "%+" sample_msg sample_tm
  = Some "[2024-03-05 15:35:46.123] [worker] [info] hello"
  /\ chain_output default_build sample_env default_pattern sample_msg sample_tm
     = Some "[2024-03-05 15:35:46.123] [worker] [info] hello".
Proof.
  pose proof (C5_full_line default_build sample_env sample_msg sample_tm
                eq_refl eq_refl ltac:(vm_compute; reflexivity)
                ltac:(vm_compute; discriminate) eq_refl) as (_ & _ & _ & H).
  destruct (H eq_refl) as [H1 H2]. split.
  - exact H1.
  - rewrite <- H2. exact H1.
Defined.

(** C5 as stated fails outside those bounds.  In a build with
    [SPDLOG_NO_NAME] the full line leaves the name out and the default
    chain prints it.  In a build with [SPDLOG_NO_DATETIME] the full line
    leaves the date and time out.  For a record one millisecond before the
    epoch, and for a day of the month of -1, the full line prints the
    value converted to [unsigned int]. *)
Lemma C5_full_line_counterexample :
  chain_output no_name_build sample_env "%+" sample_msg sample_tm
  = Some "[2024-03-05 15:35:46.123] [info] hello"
  /\ chain_output no_name_build sample_env default_pattern sample_msg sample_tm
     = Some "[2024-03-05 15:35:46.123] [worker] [info] hello"
  /\ chain_output no_datetime_build sample_env "%+" sample_msg sample_tm
     = Some "[worker] [info] hello"
  /\ chain_output no_datetime_build sample_env default_pattern sample_msg sample_tm
     = Some "[2024-03-05 15:35:46.123] [worker] [info] hello"
  /\ chain_output default_build sample_env "%+"
       (with_time sample_msg (-1000000)) epoch_tm
     = Some "[1970-01-01 00:00:00.4294967295] [worker] [info] hello"
  /\ chain_output default_build sample_env default_pattern
       (with_time sample_msg (-1000000)) epoch_tm
     = Some "[1970-01-01 00:00:00.0-1] [worker] [info] hello"
  /\ chain_output default_build sample_env "%+" sample_msg negative_day_tm
     = Some "[2024-03-4294967295 15:35:46.123] [worker] [info] hello"
  /\ chain_output default_build sample_env default_pattern sample_msg
       negative_day_tm
     = Some "[2024-03--1 15:35:46.123] [worker] [info] hello".
Proof. repeat split. Qed.


(** C10 at the month index 8. *)
Lemma C10_abbreviated_months_witness :
  flag_formatter_format default_build sample_env (b_formatter 0) sample_msg
    (with_mon sample_tm 8)
  = Some (b_formatter 0, set_formatted sample_msg "Sept").
Proof.
  exact (proj2 (proj2 (proj2 (proj2 (proj2 (proj2 (proj2 (proj2 (proj2 (proj2 (proj2
           (C10_abbreviated_months default_build sample_env sample_msg sample_tm)))))))))))
           8 "Sept" eq_refl).
Defined.

(* ------------------------------------------------------------------ *)
(** * Further properties *)

(** ** Space padding *)

Lemma size_append (a b : string) : size (a ++ b) = size a + size b.
Proof. unfold size. rewrite length_append. lia. Qed.

Lemma size_string_fill (n : nat) (ch : ascii) : size (string_fill n ch) = Z.of_nat n.
Proof. unfold size. rewrite length_string_fill. reflexivity. Qed.

(** X1: [pad_space_left] and [pad_space_right] never cut the text.  A
    text at least as long as the width is appended as it is.  A shorter
    one is appended with the missing spaces in front ([pad_space_left]) or
    behind ([pad_space_right]), exactly the width in all, when that many
    spaces can be built; when they cannot, the call throws and does not
    return. *)
Theorem pad_space_never_truncates (env : environment) (_length : Z)
    (w str : string) :
  (_length <= size str ->
     pad_space_left env _length w str = Some (w ++ str)
     /\ pad_space_right env _length w str = Some (w ++ str))
  /\ (size str < _length -> _length - size str <= max_fill env ->
      pad_space_left env _length w str
      = Some (w ++ string_fill (Z.to_nat (_length - size str)) " " ++ str)
      /\ pad_space_right env _length w str
         = Some (w ++ str ++ string_fill (Z.to_nat (_length - size str)) " ")
      /\ size (string_fill (Z.to_nat (_length - size str)) " " ++ str) = _length
      /\ size (str ++ string_fill (Z.to_nat (_length - size str)) " ") = _length)
  /\ (size str < _length -> max_fill env < _length - size str ->
      pad_space_left env _length w str = None
      /\ pad_space_right env _length w str = None).
Proof.
  unfold pad_space_left, pad_space_right, std_string_fill.
  split; [|split].
  - intros Hle. destruct (Z.ltb_spec (size str) _length); [lia|]. split; reflexivity.
  - intros Hlt Hfill. destruct (Z.ltb_spec (size str) _length); [|lia].
    destruct (Z.leb_spec (_length - size str) (max_fill env)); [|lia].
    rewrite !append_assoc. repeat split.
    + rewrite size_append, size_string_fill. lia.
    + rewrite size_append, size_string_fill. lia.
  - intros Hlt Hfill. destruct (Z.ltb_spec (size str) _length); [|lia].
    destruct (Z.leb_spec (_length - size str) (max_fill env)); [lia|].
    split; reflexivity.
Qed.

(** X1 on "worker" in a field of 8, and in a field wider than
    [sample_env] can fill. *)
Lemma pad_space_never_truncates_witness :
  pad_space_left sample_env 8 "" "worker" = Some "  worker"
  /\ pad_space_right sample_env 8 "" "worker" = Some "worker  "
  /\ pad_space_left sample_env 18446744073709551615 "" "worker" = None.
Proof.
  split; [|split].
  - exact (proj1 (proj1 (proj2 (pad_space_never_truncates sample_env 8 "" "worker"))
                    ltac:(vm_compute; reflexivity) ltac:(vm_compute; discriminate))).
  - exact (proj1 (proj2 (proj1 (proj2 (pad_space_never_truncates sample_env 8 "" "worker"))
                    ltac:(vm_compute; reflexivity) ltac:(vm_compute; discriminate)))).
  - exact (proj1 (proj2 (proj2 (pad_space_never_truncates sample_env
                                  18446744073709551615 "" "worker"))
                    ltac:(vm_compute; reflexivity) ltac:(vm_compute; reflexivity))).
Defined.

(** ** Decimal text read back *)

Lemma format_uint_digits (n : Z) :
  0 <= n ->
  all_digits (fmt.format_uint n) = true /\ strtoul_loop (fmt.format_uint n) 0 = n.
Proof.
  intros Hn.
  destruct (format_decimal_digits (fmt.count_digits n) n) as (_ & Ha & Hv).
  - split; [exact Hn|apply count_digits_upper; exact Hn].
  - split; assumption.
Qed.

Lemma strtoul_loop_stops (s rest : string) (c : ascii) : forall acc,
  all_digits s = true -> is_digit c = false ->
  strtoul_loop (s ++ String c rest) acc = strtoul_loop s acc.
Proof.
  induction s as [|x s IH]; intros acc Hs Hc; simpl in *.
  - rewrite Hc. reflexivity.
  - apply andb_prop in Hs as [Hx Hs]. rewrite Hx. apply IH; assumption.
Qed.

Lemma strtoul_loop_spaces (s : string) (k : nat) : forall acc,
  all_digits s = true ->
  strtoul_loop (s ++ string_fill k " ") acc = strtoul_loop s acc.
Proof.
  intros acc Hs. destruct k as [|k]; simpl.
  - rewrite append_nil_r. reflexivity.
  - apply strtoul_loop_stops; [exact Hs|reflexivity].
Qed.

(** The decimal text of a positive number starts with a digit other
    than zero. *)
Lemma format_uint_head (n : Z) :
  1 <= n ->
  exists c rest,
    fmt.format_uint n = String c rest /\ is_digit c = true /\ c <> "0"%char.
Proof.
  intros Hn. unfold fmt.format_uint.
  pose proof (count_digits_pos n) as Hpos.
  pose proof (count_digits_upper n ltac:(lia)) as Hup.
  destruct (fmt.count_digits n) as [|k] eqn:Hk; [lia|].
  assert (10 ^ Z.of_nat k <= n) as Hlo.
  { destruct k as [|k]; [simpl; lia|].
    destruct (Z.le_gt_cases (10 ^ Z.of_nat (S k)) n) as [|Hlt]; [assumption|].
    pose proof (count_digits_le n k ltac:(lia)). lia. }
  change (S k) with (1 + k)%nat. rewrite format_decimal_split.
  cbn [fmt.format_decimal].
  set (q := n / 10 ^ Z.of_nat k).
  assert (1 <= q <= 9) as Hq.
  { unfold q. rewrite Nat2Z.inj_succ, Z.pow_succ_r in Hup by lia.
    assert (0 < 10 ^ Z.of_nat k) by (apply Z.pow_pos_nonneg; lia).
    split.
    - apply Z.div_le_lower_bound; lia.
    - assert (n / 10 ^ Z.of_nat k < 10); [|lia].
      apply Z.div_lt_upper_bound; lia. }
  rewrite (Z.mod_small q 10) by lia.
  eexists _, _. split; [reflexivity|].
  assert (q = 1 \/ q = 2 \/ q = 3 \/ q = 4 \/ q = 5 \/ q = 6 \/ q = 7
          \/ q = 8 \/ q = 9) as Hc by lia.
  repeat (destruct Hc as [->|Hc]; [split; [reflexivity|discriminate]|]).
  subst q. rewrite Hc. split; [reflexivity|discriminate].
Qed.

Lemma fmt_parse_digits_all (s : string) : forall acc,
  all_digits s = true -> fmt_parse_digits s acc = (strtoul_loop s acc, "").
Proof.
  induction s as [|c s IH]; intros acc Hs; simpl in *; [reflexivity|].
  apply andb_prop in Hs as [Hc Hs].
  change (fmt_is_digit c) with (is_digit c). rewrite Hc. apply IH. exact Hs.
Qed.

(** The specification [" <N"] read back: a left-aligned field of width
    [N] filled with spaces; a width that does not fit an [int] is a format
    error. *)
Lemma fmt_parse_spec_left (len : Z) :
  1 <= len ->
  fmt_parse_spec (" <" ++ fmt.format_uint len)
  = if len >? INT_MAX then None
    else Some {| spec_fill := " "; spec_align := ALIGN_LEFT; spec_width := len |}.
Proof.
  intros Hlen.
  destruct (format_uint_digits len ltac:(lia)) as [Ha Hv].
  destruct (format_uint_head len Hlen) as (c & rest & Heq & Hc & Hnz).
  pose proof (fmt_parse_digits_all (fmt.format_uint len) 0 Ha) as Hp.
  rewrite Hv in Hp. rewrite Heq in Hp |- *.
  unfold fmt_parse_spec.
  cbn [append fmt_is_align fmt_align_of].
  assert (forall (A : Type) (x y : A),
            match String c rest with
            | String "0"%char r => x
            | _ => y
            end = y) as Hzero.
  { intros A x y.
    destruct c as [[] [] [] [] [] [] [] []]; try reflexivity.
    exfalso. apply Hnz. reflexivity. }
  rewrite (Hzero _ ("0"%char, ALIGN_NUMERIC, rest)
             (" "%char, ALIGN_LEFT, String c rest)).
  change (fmt_is_digit c) with (is_digit c). rewrite Hc, Hp. reflexivity.
Qed.

Lemma fmt_format_loop_field (limit : Z) (d rest : string) :
  forall text arg out,
  all_digits d = true ->
  fmt_format_loop limit (d ++ rest) (Some text) arg out
  = fmt_format_loop limit rest (Some (text ++ d)) arg out.
Proof.
  induction d as [|c d IH]; intros text arg out Hd; simpl in *.
  - rewrite append_nil_r. reflexivity.
  - apply andb_prop in Hd as [Hc Hd].
    destruct (Ascii.eqb_spec c "}") as [->|_]; [discriminate Hc|].
    rewrite IH by exact Hd. rewrite append_assoc. reflexivity.
Qed.

(** The second [fmt::format], on the format string the first one built. *)
Lemma fmt_format_left (limit : Z) (len val : Z) :
  1 <= len ->
  fmt_format limit ("{: <" ++ fmt.format_uint len ++ "}") val
  = if len >? INT_MAX then None
    else fmt_write_uint limit
           {| spec_fill := " "; spec_align := ALIGN_LEFT; spec_width := len |} val.
Proof.
  intros Hlen. unfold fmt_format.
  destruct (format_uint_digits len ltac:(lia)) as [Ha _].
  cbn [fmt_format_loop Ascii.eqb Bool.eqb append].
  rewrite fmt_format_loop_field by exact Ha.
  cbn [fmt_format_loop Ascii.eqb Bool.eqb append fmt_field_spec].
  pose proof (fmt_parse_spec_left len Hlen) as Hs. cbn [append] in Hs.
  rewrite Hs.
  destruct (len >? INT_MAX); [reflexivity|].
  destruct (fmt_write_uint limit _ val) as [written|]; reflexivity.
Qed.

(** [pad_space_right] on a number, from its two [fmt::format] calls. *)
Lemma pad_space_right_val_spec (env : environment) (_length : Z) (w : string)
    (val : Z) :
  0 <= _length ->
  pad_space_right_val env _length w val
  = if _length >? INT_MAX then None
    else if _length <=? size (fmt.format_uint val)
    then Some (w ++ fmt.format_uint val)
    else if _length - size (fmt.format_uint val) >? max_fill env then None
    else Some (w ++ fmt.format_uint val
                 ++ string_fill (Z.to_nat (_length - size (fmt.format_uint val))) " ").
Proof.
  intros Hlen.
  destruct (Z.eq_dec _length 0) as [->|Hnz].
  - rewrite pad_space_right_val_0. unfold size.
    destruct (Z.leb_spec 0 (Z.of_nat (String.length (fmt.format_uint val))));
      [reflexivity|lia].
  - unfold pad_space_right_val. rewrite fmt_format_padded_format.
    rewrite fmt_format_left by lia.
    destruct (_length >? INT_MAX); [reflexivity|].
    unfold fmt_write_uint, size. cbn [spec_width spec_align spec_fill].
    destruct (_length <=? Z.of_nat (String.length (fmt.format_uint val)));
      [reflexivity|].
    destruct (_ >? max_fill env); reflexivity.
Qed.

(** X2: the thread id directive, for a width that fits an [int] and a
    padding that can be built, appends the decimal text of the thread id
    followed by spaces up to the width: as many characters as the larger
    of the width and the number of digits, never fewer than the digits,
    and the text reads back as the thread id.  For a width that does not
    fit an [int] the format string is refused, and for a padding that
    cannot be built the text is not produced: in both cases the directive
    throws and does not return. *)
Theorem t_formatter_left_aligned (cfg : build_config) (env : environment)
    (_length : Z) (msg : log_msg) (t : tm) :
  0 <= thread_id msg -> 0 <= _length ->
  (_length <= INT_MAX ->
   _length - Z.of_nat (fmt.count_digits (thread_id msg)) <= max_fill env ->
   exists text,
     flag_formatter_format cfg env (t_formatter _length) msg t
     = Some (t_formatter _length, set_formatted msg (formatted msg ++ text))
     /\ text = fmt.format_uint (thread_id msg)
               ++ string_fill
                    (Z.to_nat (_length - Z.of_nat (fmt.count_digits (thread_id msg))))
                    " "
     /\ size text = Z.max _length (Z.of_nat (fmt.count_digits (thread_id msg)))
     /\ strtoul_loop text 0 = thread_id msg)
  /\ (INT_MAX < _length ->
      flag_formatter_format cfg env (t_formatter _length) msg t = None)
  /\ (max_fill env < _length - Z.of_nat (fmt.count_digits (thread_id msg)) ->
      0 <= max_fill env ->
      flag_formatter_format cfg env (t_formatter _length) msg t = None).
Proof.
  intros Hid Hlen.
  cbn [flag_formatter_format].
  rewrite pad_space_right_val_spec by exact Hlen.
  unfold size. rewrite length_format_uint.
  destruct (format_uint_digits (thread_id msg) Hid) as [Ha Hv].
  pose proof (count_digits_pos (thread_id msg)) as Hpos.
  split; [|split].
  - intros Hint Hfill.
    destruct (Z.gtb_spec _length INT_MAX); [lia|].
    exists (fmt.format_uint (thread_id msg)
            ++ string_fill
                 (Z.to_nat (_length - Z.of_nat (fmt.count_digits (thread_id msg))))
                 " ").
    split; [|split; [reflexivity|split]].
    + destruct (Z.leb_spec _length (Z.of_nat (fmt.count_digits (thread_id msg)))).
      * replace (Z.to_nat (_length - Z.of_nat (fmt.count_digits (thread_id msg))))
          with O by lia.
        cbn [string_fill]. rewrite append_nil_r. reflexivity.
      * destruct (Z.gtb_spec (_length - Z.of_nat (fmt.count_digits (thread_id msg)))
                    (max_fill env)); [lia|reflexivity].
    + rewrite length_append, length_string_fill, length_format_uint. lia.
    + rewrite strtoul_loop_spaces by exact Ha. exact Hv.
  - intros Hint. destruct (Z.gtb_spec _length INT_MAX); [reflexivity|lia].
  - intros Hfill Hmax. destruct (_length >? INT_MAX); [reflexivity|].
    destruct (Z.leb_spec _length (Z.of_nat (fmt.count_digits (thread_id msg)))); [lia|].
    destruct (Z.gtb_spec (_length - Z.of_nat (fmt.count_digits (thread_id msg)))
                (max_fill env)); [reflexivity|lia].
Qed.

(** X2 on [sample_msg], thread 77: in a field of width 6, and in a field
    whose width does not fit an [int]. *)
Lemma t_formatter_left_aligned_witness :
  (exists text,
     flag_formatter_format default_build sample_env (t_formatter 6) sample_msg sample_tm
     = Some (t_formatter 6, set_formatted sample_msg (formatted sample_msg ++ text))
     /\ text = fmt.format_uint (thread_id sample_msg)
               ++ string_fill
                    (Z.to_nat (6 - Z.of_nat (fmt.count_digits (thread_id sample_msg))))
                    " "
     /\ size text = Z.max 6 (Z.of_nat (fmt.count_digits (thread_id sample_msg)))
     /\ strtoul_loop text 0 = thread_id sample_msg)
  /\ flag_formatter_format default_build sample_env (t_formatter 4294967296)
       sample_msg sample_tm = None.
Proof.
  split.
  - exact (proj1 (t_formatter_left_aligned default_build sample_env 6 sample_msg
                    sample_tm ltac:(vm_compute; discriminate)
                    ltac:(vm_compute; discriminate))
             ltac:(vm_compute; discriminate) ltac:(vm_compute; discriminate)).
  - exact (proj1 (proj2 (t_formatter_left_aligned default_build sample_env 4294967296
                           sample_msg sample_tm ltac:(vm_compute; discriminate)
                           ltac:(vm_compute; discriminate)))
             ltac:(vm_compute; reflexivity)).
Defined.

(** ** The fixed-width helpers on non-negative numbers *)

Lemma format_decimal_3_mod (n : Z) (tail : string) :
  fmt.format_decimal 3 (n mod 1000) tail = fmt.format_decimal 3 n tail.
Proof.
  cbn [fmt.format_decimal].
  replace ((n mod 1000) mod 10) with (n mod 10)
    by (Z.div_mod_to_equations; lia).
  replace (((n mod 1000) / 10) mod 10) with ((n / 10) mod 10)
    by (Z.div_mod_to_equations; lia).
  replace (((n mod 1000) / 10 / 10) mod 10) with ((n / 10 / 10) mod 10)
    by (Z.div_mod_to_equations; lia).
  reflexivity.
Qed.

Lemma pad_nonneg_cases (w : nat) (n : Z) :
  0 <= n ->
  fmt.pad n (Z.of_nat (S w)) "0"
  = if n <? 10 ^ Z.of_nat (S w) then fmt.format_decimal (S w) n ""
    else fmt.format_uint n.
Proof.
  intros Hn. destruct (Z.ltb_spec n (10 ^ Z.of_nat (S w))) as [Hlt|Hge].
  - apply pad_fixed_width. lia.
  - rewrite pad_overflow, format_int_nonneg; [reflexivity|lia|].
    assert (10 ^ Z.of_nat w <= 10 ^ Z.of_nat (S w))
      by (apply Z.pow_le_mono_r; lia).
    lia.
Qed.

Lemma pad6_is_pad (n : Z) : 0 <= n -> fmt_helper.pad6 n "" = fmt.pad n 6 "0".
Proof.
  intros Hn. unfold fmt_helper.pad6.
  destruct (Z.gtb_spec n 99999) as [Hgt|Hle].
  - rewrite (pad_overflow 5) by (simpl; lia). reflexivity.
  - pose proof (Z.mod_pos_bound n 1000 ltac:(lia)).
    assert (0 <= n / 1000 < 100)
      by (split; [apply Z.div_pos; lia|apply Z.div_lt_upper_bound; lia]).
    rewrite !static_cast_int_small by lia.
    rewrite pad3_dest, !pad3_is_pad by lia.
    rewrite (pad_fixed_width 2) by (simpl; lia).
    rewrite (pad_fixed_width 2) by (simpl; lia).
    rewrite (pad_fixed_width 5) by (simpl; lia).
    rewrite format_decimal_3_mod.
    change (fmt.format_decimal 6 n "") with (fmt.format_decimal (3 + 3) n "").
    rewrite (format_decimal_split 3 3 n "").
    rewrite (format_decimal_tail 3 (n / 10 ^ Z.of_nat 3)). reflexivity.
Qed.

Lemma pad_nonneg_read_back (w : nat) (n : Z) :
  0 <= n ->
  all_digits (fmt.pad n (Z.of_nat (S w)) "0") = true
  /\ strtoul_loop (fmt.pad n (Z.of_nat (S w)) "0") 0 = n
  /\ Z.of_nat (S w) <= size (fmt.pad n (Z.of_nat (S w)) "0")
  /\ (n < 10 ^ Z.of_nat (S w) -> size (fmt.pad n (Z.of_nat (S w)) "0") = Z.of_nat (S w)).
Proof.
  intros Hn. rewrite pad_nonneg_cases by exact Hn. unfold size.
  destruct (Z.ltb_spec n (10 ^ Z.of_nat (S w))) as [Hlt|Hge].
  - destruct (format_decimal_digits (S w) n ltac:(lia)) as (Hl & Ha & Hv).
    rewrite Hl. repeat split; try assumption; lia.
  - destruct (format_uint_digits n Hn) as [Ha Hv].
    rewrite length_format_uint. pose proof (count_digits_lower n (S w) Hge).
    repeat split; try assumption; lia.
Qed.

(** X3: on every non-negative [n], [pad2], [pad3] and [pad6] append
    digits only, at least 2, 3 and 6 of them, that read back as [n]:
    nothing is cut off, whatever the size of [n]; and [pad6] writes exactly
    six digits for every [n] below a million. *)
Theorem pad_helpers_read_back (n : Z) (dest : string) :
  0 <= n ->
  (exists text, fmt_helper.pad2 n dest = dest ++ text
     /\ all_digits text = true /\ strtoul_loop text 0 = n /\ 2 <= size text)
  /\ (exists text, fmt_helper.pad3 n dest = dest ++ text
     /\ all_digits text = true /\ strtoul_loop text 0 = n /\ 3 <= size text)
  /\ (exists text, fmt_helper.pad6 n dest = dest ++ text
     /\ all_digits text = true /\ strtoul_loop text 0 = n /\ 6 <= size text
     /\ (n < 1000000 -> size text = 6)).
Proof.
  intros Hn. split; [|split].
  - exists (fmt_helper.pad2 n ""). split; [apply pad2_dest|].
    rewrite pad2_is_pad by exact Hn.
    destruct (pad_nonneg_read_back 1 n Hn) as (Ha & Hv & Hs & _). auto.
  - exists (fmt_helper.pad3 n ""). split; [apply pad3_dest|].
    rewrite pad3_is_pad by exact Hn.
    destruct (pad_nonneg_read_back 2 n Hn) as (Ha & Hv & Hs & _). auto.
  - exists (fmt_helper.pad6 n ""). split.
    + unfold fmt_helper.pad6, fmt_helper.append_int.
      destruct (n >? 99999); [reflexivity|].
      rewrite pad3_dest, (pad3_dest _ dest), (pad3_dest _ (fmt_helper.pad3 _ "")).
      rewrite append_assoc. reflexivity.
    + rewrite pad6_is_pad by exact Hn.
      destruct (pad_nonneg_read_back 5 n Hn) as (Ha & Hv & Hs & He). auto.
Qed.

(** X3 at 7, whose texts are "07", "007" and "000007". *)
Lemma pad_helpers_read_back_witness :
  (exists text, fmt_helper.pad2 7 "" = "" ++ text
     /\ all_digits text = true /\ strtoul_loop text 0 = 7 /\ 2 <= size text)
  /\ (exists text, fmt_helper.pad3 7 "" = "" ++ text
     /\ all_digits text = true /\ strtoul_loop text 0 = 7 /\ 3 <= size text)
  /\ (exists text, fmt_helper.pad6 7 "" = "" ++ text
     /\ all_digits text = true /\ strtoul_loop text 0 = 7 /\ 6 <= size text
     /\ (7 < 1000000 -> size text = 6)).
Proof.
  exact (pad_helpers_read_back 7 "" ltac:(lia)).
Defined.

(** ** Fractions of a second *)

(** X4: for a clock and a unit with positive rates, [time_fraction] is
    what remains of the time point in that unit once its whole seconds
    are taken out; it is smaller than one second in absolute value, and
    has the sign of the time point: between 0 and [unit_per_second - 1]
    from the epoch on. *)
Theorem time_fraction_bounds (ticks_per_second unit_per_second tp : Z) :
  0 < ticks_per_second -> 0 < unit_per_second ->
  let fraction := fmt_helper.time_fraction ticks_per_second unit_per_second tp in
  fmt_helper.duration_cast ticks_per_second unit_per_second tp
  = fmt_helper.duration_cast ticks_per_second 1 tp * unit_per_second + fraction
  /\ fraction
     = Z.rem (fmt_helper.duration_cast ticks_per_second unit_per_second tp)
             unit_per_second
  /\ - unit_per_second < fraction < unit_per_second
  /\ (0 <= tp -> 0 <= fraction)
  /\ (tp <= 0 -> fraction <= 0).
Proof.
  intros Ht Hu fraction. subst fraction.
  unfold fmt_helper.time_fraction, fmt_helper.duration_cast.
  rewrite Z.quot_1_r, Z.mul_1_r.
  assert (Hrem : tp * unit_per_second ÷ ticks_per_second - tp ÷ ticks_per_second * unit_per_second
                 = Z.rem (tp * unit_per_second ÷ ticks_per_second) unit_per_second).
  { rewrite Z.rem_eq by lia.
    rewrite Z.quot_quot, Z.quot_mul_cancel_r by lia. lia. }
  split; [lia|]. split; [exact Hrem|]. rewrite Hrem.
  pose proof (Z.rem_bound_abs (tp * unit_per_second ÷ ticks_per_second)
                unit_per_second ltac:(lia)).
  split; [lia|]. split; intros Hs.
  - apply Z.rem_bound_pos; [|lia]. apply Z.quot_pos; [|lia].
    apply Z.mul_nonneg_nonneg; lia.
  - apply Z.rem_nonpos; [lia|].
    replace (tp * unit_per_second) with (- ((- tp) * unit_per_second)) by lia.
    rewrite Z.quot_opp_l by lia.
    assert (0 <= - tp * unit_per_second ÷ ticks_per_second)
      by (apply Z.quot_pos; [apply Z.mul_nonneg_nonneg|]; lia).
    lia.
Qed.

(** X4 for a nanosecond clock, milliseconds and the time point of
    [sample_msg]. *)
Lemma time_fraction_bounds_witness :
  fmt_helper.time_fraction 1000000000 1000 1709652946123456789 = 123
  /\ - 1000 < fmt_helper.time_fraction 1000000000 1000 1709652946123456789 < 1000.
Proof.
  pose proof (time_fraction_bounds 1000000000 1000 1709652946123456789
                ltac:(lia) ltac:(lia)) as (_ & _ & Hb & _).
  split; [reflexivity|exact Hb].
Defined.

(* ------------------------------------------------------------------ *)
(** ** The compiled chain *)

Lemma literal_text_app (a b : list flag_formatter) :
  literal_text (a ++ b)
  = match literal_text a, literal_text b with
    | Some x, Some y => Some (x ++ y)
    | _, _ => None
    end.
Proof.
  induction a as [|f a IH]; simpl.
  - destruct (literal_text b); reflexivity.
  - destruct f; try reflexivity. rewrite IH.
    destruct (literal_text a), (literal_text b); try reflexivity.
    rewrite append_assoc. reflexivity.
Qed.

Lemma literal_text_not_literal (a b : list flag_formatter) (f : flag_formatter) :
  (forall str, f <> aggregate_formatter str) ->
  literal_text (a ++ f :: b) = None.
Proof.
  intros Hf. rewrite literal_text_app.
  destruct (literal_text a); [|reflexivity].
  destruct f; try reflexivity. exfalso. eapply Hf. reflexivity.
Qed.

Lemma in_catalog_not_digit cfg c : in_catalog cfg c = true -> is_digit c = false.
Proof.
  unfold in_catalog, catalog. destruct cfg as [w nd nn counter].
  destruct c as [[] [] [] [] [] [] [] []]; destruct counter;
    simpl; intros H; try discriminate H; reflexivity.
Qed.

Lemma compile_literal_text cfg env (p : string) :
  (forall uc fs s0 s,
      pending_flag false p = false ->
      literal_text fs = Some s0 ->
      literal_text (compile_loop cfg env p uc "" fs) = Some s ->
      s = s0 ++ match uc with Some u => u | None => "" end ++ p)
  /\ (forall lc fs s0 s,
      pending_flag true p = false ->
      literal_text fs = Some s0 ->
      literal_text (compile_flag cfg env p lc fs) = Some s ->
      s = s0 ++ "%" ++ lc ++ p).
Proof.
  induction p as [|c p [IHl IHf]]; split; intros.
  - simpl in H1. destruct uc as [u|]; simpl in H1.
    + rewrite literal_text_app, H0 in H1. simpl in H1.
      injection H1 as <-. reflexivity.
    + rewrite H0 in H1. injection H1 as <-. simpl. rewrite append_nil_r.
      reflexivity.
  - discriminate.
  - simpl in H, H1. destruct (Ascii.eqb_spec c "%") as [->|Hne].
    + assert (Hfl : literal_text (flush_user_chars uc fs)
                    = Some (s0 ++ match uc with Some u => u | None => "" end)).
      { destruct uc as [u|]; simpl.
        - rewrite literal_text_app, H0. simpl. rewrite append_nil_r. reflexivity.
        - rewrite H0, append_nil_r. reflexivity. }
      rewrite (IHf _ _ _ _ H Hfl H1). rewrite append_assoc. reflexivity.
    + rewrite (IHl _ _ _ _ H H0 H1). unfold add_ch, push_back.
      destruct uc as [u|]; simpl; rewrite ?append_assoc; reflexivity.
  - simpl in H, H1. destruct (is_digit c) eqn:Hd.
    + rewrite handle_flag_digit in H1 by exact Hd.
      rewrite (IHf _ _ _ _ H H0 H1). unfold push_back.
      simpl. rewrite !append_assoc. reflexivity.
    + destruct (in_catalog cfg c) eqn:Hc.
      * exfalso. destruct (handle_flag_known cfg env c fs lc Hc) as (f & Hf & Hn).
        rewrite Hf in H1.
        rewrite (proj1 (compile_accumulates cfg env p)) in H1.
        rewrite <- app_assoc in H1. simpl in H1.
        rewrite literal_text_not_literal in H1 by exact Hn. discriminate.
      * rewrite handle_flag_unknown in H1 by assumption.
        assert (Hfs : literal_text (fs ++ [aggregate_formatter ("%" ++ lc ++ String c "")])
                      = Some (s0 ++ "%" ++ lc ++ String c "")).
        { rewrite literal_text_app, H0. simpl. rewrite append_nil_r. reflexivity. }
        rewrite (IHl _ _ _ _ H Hfs H1).
        repeat (progress (simpl; rewrite ?append_assoc)). reflexivity.
Qed.

(** Literal directives do not read the broken-down time. *)
Lemma literal_text_reads_no_tm (cfg : build_config) (env : environment)
    (msg : log_msg) (fs : list flag_formatter) : forall s,
  literal_text fs = Some s ->
  existsb (reads_tm_time cfg env msg) fs = false.
Proof.
  induction fs as [|f fs IH]; intros s Hs; [reflexivity|].
  simpl in Hs. destruct f; try discriminate Hs;
    (destruct (literal_text fs) as [s'|] eqn:Hfs; [|discriminate Hs]);
    simpl; exact (IH s' eq_refl).
Qed.

(** X5: a pattern that compiles to literal directives only, and does not
    stop inside a directive, is printed back as it is: the texts of the
    literals make up the pattern, unknown directives included, and
    [format] appends the pattern and the line terminator. *)
Theorem literal_pattern_echo (cfg : build_config) (env : environment)
    (p text : string) :
  unterminated p = false ->
  literal_text (compile_pattern cfg env p) = Some text ->
  text = p
  /\ forall pattern_time msg,
       pattern_formatter_format cfg env
         (make_pattern_formatter cfg env p pattern_time) msg
       = Some (make_pattern_formatter cfg env p pattern_time,
               set_formatted msg (formatted msg ++ p ++ os_eol env)).
Proof.
  intros Hp Ht.
  assert (text = p) as ->
    by exact (proj1 (compile_literal_text cfg env p) None [] "" text Hp eq_refl Ht).
  split; [reflexivity|]. intros pattern_time msg.
  unfold pattern_formatter_format, make_pattern_formatter. cbn [_formatters _pattern_time].
  rewrite (literal_text_reads_no_tm cfg env msg _ _ Ht), andb_false_r.
  generalize (if SPDLOG_NO_DATETIME cfg then indeterminate_tm env
              else get_time env {| _pattern_time := pattern_time;
                                   _formatters := compile_pattern cfg env p |} msg).
  intros t.
  assert (Hrun : forall fs s, literal_text fs = Some s ->
            forall m, format_chain cfg env fs m t
                      = Some (fs, set_formatted m (formatted m ++ s))).
  { induction fs as [|f fs IH]; intros s Hs m.
    - injection Hs as <-. simpl. rewrite append_nil_r. destruct m; reflexivity.
    - simpl in Hs. destruct f; try discriminate Hs.
      destruct (literal_text fs) as [s'|] eqn:Hfs; [|discriminate Hs].
      injection Hs as <-. cbn [format_chain flag_formatter_format].
      rewrite (IH s' eq_refl). cbn [formatted set_formatted].
      rewrite append_assoc. reflexivity. }
  rewrite (Hrun _ _ Ht). cbn [formatted set_formatted].
  rewrite append_assoc. reflexivity.
Qed.

(** X5 on the pattern "100%! %3Q" and [sample_msg]. *)
Lemma literal_pattern_echo_witness :
  pattern_formatter_format default_build sample_env
    (make_pattern_formatter default_build sample_env "100%! %3Q" local) sample_msg
  = Some (make_pattern_formatter default_build sample_env "100%! %3Q" local,
          set_formatted sample_msg
            (formatted sample_msg ++ "100%! %3Q" ++ os_eol sample_env)).
Proof.
  exact (proj2 (literal_pattern_echo default_build sample_env "100%! %3Q" "100%! %3Q"
                  eq_refl eq_refl) local sample_msg).
Defined.

(** X6: a ['%'] met outside a directive cuts the pattern in two: the
    chain of the whole is the chain of what comes before followed by the
    chain of the rest, so neither a literal run nor a width prefix
    carries over from one side to the other. *)
Theorem compile_pattern_cut_at_percent (cfg : build_config) (env : environment)
    (p q : string) :
  unterminated p = false ->
  compile_pattern cfg env (p ++ String "%" q)
  = (compile_pattern cfg env p ++ compile_pattern cfg env (String "%" q))%list.
Proof.
  intros Hp. unfold compile_pattern.
  rewrite (proj1 (compile_percent cfg env q p)) by exact Hp.
  rewrite (proj2 (compile_accumulates cfg env q)). reflexivity.
Qed.

(** X6 on "[%n] " and "%5l|". *)
Lemma compile_pattern_cut_at_percent_witness :
  compile_pattern default_build sample_env "[%n] %5l|"
  = [aggregate_formatter "["; name_formatter 0; aggregate_formatter "] ";
     level_formatter 5; aggregate_formatter "|"].
Proof.
  exact (compile_pattern_cut_at_percent default_build sample_env "[%n] " "5l|" eq_refl).
Defined.

(** X7: walking a chain made of two parts walks the first part and then
    the second on the record the first one leaves; the walk is undefined
    exactly when one of the two is. *)
Theorem format_chain_app (cfg : build_config) (env : environment)
    (fs1 fs2 : list flag_formatter) (msg : log_msg) (t : tm) :
  format_chain cfg env (fs1 ++ fs2) msg t
  = match format_chain cfg env fs1 msg t with
    | None => None
    | Some (fs1', msg1) =>
        match format_chain cfg env fs2 msg1 t with
        | None => None
        | Some (fs2', msg2) => Some ((fs1' ++ fs2')%list, msg2)
        end
    end.
Proof.
  revert msg. induction fs1 as [|f fs1 IH]; intros msg.
  - simpl. destruct (format_chain cfg env fs2 msg t) as [[fs2' msg2]|]; reflexivity.
  - simpl. destruct (flag_formatter_format cfg env f msg t) as [[f' msg']|];
      [|reflexivity].
    rewrite IH.
    destruct (format_chain cfg env fs1 msg' t) as [[fs1' msg1]|]; [|reflexivity].
    destruct (format_chain cfg env fs2 msg1 t) as [[fs2' msg2]|]; reflexivity.
Qed.

Lemma handle_flag_nonempty cfg env c lc :
  is_digit c = false ->
  exists f, (forall fs, handle_flag cfg env c fs lc = (true, (fs ++ [f])%list, ""))
            /\ nonempty_literal f = true.
Proof.
  intros Hd. destruct (handle_flag_selector cfg env c lc Hd) as [f Hf].
  exists f. split; [exact Hf|].
  destruct (in_catalog cfg c) eqn:Hc.
  - destruct (handle_flag_known cfg env c [] lc Hc) as (f' & Hf' & Hn).
    rewrite Hf in Hf'. injection Hf' as <-.
    destruct f; try reflexivity. destruct _str; [|reflexivity].
    exfalso. eapply Hn. reflexivity.
  - pose proof (handle_flag_unknown cfg env c [] lc Hd Hc) as Hu.
    rewrite Hf in Hu. injection Hu as ->. reflexivity.
Qed.

Lemma compile_nonempty_literals cfg env (p : string) :
  (forall uc lc fs,
      uc <> Some "" -> forallb nonempty_literal fs = true ->
      forallb nonempty_literal (compile_loop cfg env p uc lc fs) = true)
  /\ (forall lc fs,
      forallb nonempty_literal fs = true ->
      forallb nonempty_literal (compile_flag cfg env p lc fs) = true).
Proof.
  assert (Hflush : forall uc fs,
            uc <> Some "" -> forallb nonempty_literal fs = true ->
            forallb nonempty_literal (flush_user_chars uc fs) = true).
  { intros [u|] fs Hu Hfs; simpl; [|exact Hfs].
    rewrite forallb_app, Hfs. simpl.
    destruct u; [exfalso; apply Hu; reflexivity|reflexivity]. }
  induction p as [|c p [IHl IHf]]; split; intros.
  - apply Hflush; assumption.
  - assumption.
  - simpl. destruct (Ascii.eqb c "%").
    + apply IHf, Hflush; assumption.
    + apply IHl; [|assumption]. unfold add_ch, push_back.
      destruct uc as [[|x u]|]; discriminate.
  - simpl. destruct (is_digit c) eqn:Hd.
    + rewrite handle_flag_digit by exact Hd. apply IHf. assumption.
    + destruct (handle_flag_nonempty cfg env c lc Hd) as (f & Hf & Hn).
      rewrite Hf. apply IHl; [discriminate|].
      rewrite forallb_app, H. simpl. rewrite Hn. reflexivity.
Qed.

Lemma compile_length cfg env (p : string) :
  (forall uc lc fs,
      (List.length (compile_loop cfg env p uc lc fs)
       <= List.length fs + match uc with Some _ => 1 | None => 0 end
          + String.length p)%nat)
  /\ (forall lc fs,
      (List.length (compile_flag cfg env p lc fs)
       <= List.length fs + String.length p)%nat).
Proof.
  induction p as [|c p [IHl IHf]]; split; intros.
  - destruct uc; simpl; rewrite ?length_app; simpl; lia.
  - simpl. lia.
  - simpl. destruct (Ascii.eqb c "%").
    + specialize (IHf lc (flush_user_chars uc fs)).
      destruct uc; simpl in *; rewrite ?length_app in IHf; simpl in IHf; lia.
    + specialize (IHl (Some (add_ch match uc with Some str => str | None => "" end c))
                      lc fs).
      destruct uc; simpl in *; lia.
  - simpl. destruct (is_digit c) eqn:Hd.
    + rewrite handle_flag_digit by exact Hd. specialize (IHf (push_back lc c) fs). lia.
    + destruct (handle_flag_selector cfg env c lc Hd) as [f Hf].
      rewrite Hf. specialize (IHl None "" (fs ++ [f])%list).
      rewrite length_app in IHl. simpl in IHl. lia.
Qed.

(** X8: the compiler never emits a literal directive without text, and
    never more directives than the pattern has characters. *)
Theorem compile_pattern_chain_shape (cfg : build_config) (env : environment)
    (p : string) :
  forallb nonempty_literal (compile_pattern cfg env p) = true
  /\ (List.length (compile_pattern cfg env p) <= String.length p)%nat.
Proof.
  split.
  - apply (proj1 (compile_nonempty_literals cfg env p)); [discriminate|reflexivity].
  - pose proof (proj1 (compile_length cfg env p) None "" []) as H. simpl in H. exact H.
Qed.

Lemma strtoul_format_uint (env : environment) (n : Z) :
  0 <= n -> strtoul env (fmt.format_uint n) = Z.min n (ULONG_MAX env).
Proof.
  intros Hn. unfold strtoul.
  rewrite (proj2 (format_uint_digits n Hn)). reflexivity.
Qed.

Lemma format_uint_not_empty (n : Z) : string_empty (fmt.format_uint n) = false.
Proof.
  pose proof (length_format_uint n) as Hl. pose proof (count_digits_pos n).
  destruct (fmt.format_uint n); [simpl in Hl; lia|reflexivity].
Qed.

(** X9: the width of a width-aware directive is the number written
    between the ['%'] and the selector: the decimal text of [n] gives the
    formatter the length [n], capped at [ULONG_MAX]; without digits the
    length is 0. *)
Theorem width_prefix_read_back (cfg : build_config) (env : environment)
    (selector : ascii) (make : Z -> flag_formatter) (n : Z) (rest : string) :
  width_aware selector = Some make ->
  0 <= n ->
  compile_pattern cfg env ("%" ++ fmt.format_uint n ++ String selector rest)
  = make (Z.min n (ULONG_MAX env)) :: compile_pattern cfg env rest
  /\ compile_pattern cfg env (String "%" (String selector rest))
     = make 0 :: compile_pattern cfg env rest.
Proof.
  intros Hw Hn.
  assert (Hh : forall lc fs,
            handle_flag cfg env selector fs lc
            = (true,
               (fs ++ [make (if string_empty lc then 0 else strtoul env lc)])%list,
               "")).
  { intros lc fs. unfold handle_flag.
    destruct selector as [[] [] [] [] [] [] [] []]; simpl in Hw;
      try discriminate Hw; injection Hw as <-; reflexivity. }
  split.
  - unfold compile_pattern.
    change ("%" ++ fmt.format_uint n ++ String selector rest)
      with (String "%" (fmt.format_uint n ++ String selector rest)).
    cbn [compile_loop Ascii.eqb Bool.eqb flush_user_chars].
    rewrite compile_flag_digits by (apply format_uint_digits; exact Hn).
    cbn [compile_flag append]. rewrite Hh.
    rewrite format_uint_not_empty, strtoul_format_uint by exact Hn.
    rewrite (proj1 (compile_accumulates cfg env rest)). reflexivity.
  - unfold compile_pattern.
    cbn [compile_loop compile_flag Ascii.eqb Bool.eqb flush_user_chars].
    rewrite Hh. rewrite (proj1 (compile_accumulates cfg env rest)). reflexivity.
Qed.

(** X9 for the logger name in a field of 12. *)
Lemma width_prefix_read_back_witness :
  compile_pattern default_build sample_env "%12n: %v"
  = name_formatter 12 :: compile_pattern default_build sample_env ": %v".
Proof.
  exact (proj1 (width_prefix_read_back default_build sample_env "n" name_formatter
                  12 ": %v" eq_refl ltac:(lia))).
Defined.

(** X10: a width prefix in front of a selector that is not width-aware is
    read and dropped: the directive compiles as it does without the
    digits. *)
Theorem width_prefix_ignored (cfg : build_config) (env : environment)
    (selector : ascii) (digits rest : string) :
  string_mem selector not_width_aware = true ->
  all_digits digits = true ->
  compile_pattern cfg env ("%" ++ digits ++ String selector rest)
  = compile_pattern cfg env (String "%" (String selector rest)).
Proof.
  intros Hs Hd.
  assert (Hh : forall lc fs,
            handle_flag cfg env selector fs lc = handle_flag cfg env selector fs "").
  { intros lc fs. unfold handle_flag.
    destruct selector as [[] [] [] [] [] [] [] []]; simpl in Hs;
      try discriminate Hs; reflexivity. }
  unfold compile_pattern.
  change ("%" ++ digits ++ String selector rest)
    with (String "%" (digits ++ String selector rest)).
  cbn [compile_loop Ascii.eqb Bool.eqb flush_user_chars].
  rewrite compile_flag_digits by exact Hd.
  cbn [compile_flag append]. rewrite Hh. reflexivity.
Qed.

(** X10 on "%8Y-%m". *)
Lemma width_prefix_ignored_witness :
  compile_pattern default_build sample_env "%8Y-%m"
  = compile_pattern default_build sample_env "%Y-%m".
Proof.
  exact (width_prefix_ignored default_build sample_env "Y" "8" "-%m" eq_refl eq_refl).
Defined.

(* ------------------------------------------------------------------ *)
(** ** What formatting does to the record and to the formatters *)

Lemma pad_space_left_buffer (env : environment) (len : Z) (w str : string) :
  pad_space_left env len w str
  = match pad_space_left env len "" str with
    | Some text => Some (w ++ text)
    | None => None
    end.
Proof.
  unfold pad_space_left. destruct (size str <? len); [|reflexivity].
  destruct (std_string_fill env (len - size str) " "); [|reflexivity].
  simpl. rewrite append_assoc. reflexivity.
Qed.

Lemma pad_space_right_buffer (env : environment) (len : Z) (w str : string) :
  pad_space_right env len w str
  = match pad_space_right env len "" str with
    | Some text => Some (w ++ text)
    | None => None
    end.
Proof.
  unfold pad_space_right. destruct (size str <? len); [|reflexivity].
  destruct (std_string_fill env (len - size str) " "); [|reflexivity].
  simpl. rewrite append_assoc. reflexivity.
Qed.

Lemma pad_space_right_val_buffer (env : environment) (len : Z) (w : string)
    (val : Z) :
  pad_space_right_val env len w val
  = match pad_space_right_val env len "" val with
    | Some text => Some (w ++ text)
    | None => None
    end.
Proof.
  unfold pad_space_right_val.
  destruct (fmt_format (max_fill env) "{{: <{}}}" len) as [padded_format|];
    [|reflexivity].
  destruct (fmt_format (max_fill env) padded_format val); reflexivity.
Qed.

(** A directive that pads either throws whatever the buffer holds, or
    appends a text that does not depend on the buffer. *)
Lemma padded_directive_appends (f : flag_formatter) (msg : log_msg)
    (pad : string -> option string) :
  (forall w, pad w = match pad "" with
                     | Some text => Some (w ++ text)
                     | None => None
                     end) ->
  (forall w, match pad w with
             | Some w' => Some (f, set_formatted msg w')
             | None => None
             end = None)
  \/ exists f' text,
       forall w, match pad w with
                 | Some w' => Some (f, set_formatted msg w')
                 | None => None
                 end = Some (f', set_formatted msg (w ++ text)).
Proof.
  intros Hpad. destruct (pad "") as [text|] eqn:H0.
  - right. exists f, text. intros w. rewrite Hpad. reflexivity.
  - left. intros w. rewrite Hpad. reflexivity.
Qed.

Lemma pad_n_join3_buffer (w : string) (v1 v2 v3 : Z) (sep : ascii) :
  pad_n_join3 w v1 v2 v3 sep = w ++ pad_n_join3 "" v1 v2 v3 sep.
Proof. reflexivity. Qed.

Lemma pad_n_join2_buffer (w : string) (v1 v2 : Z) (sep : ascii) :
  pad_n_join2 w v1 v2 sep = w ++ pad_n_join2 "" v1 v2 sep.
Proof. reflexivity. Qed.

Lemma format_offset_buffer (w : string) (total_minutes : Z) :
  format_offset w total_minutes = w ++ format_offset "" total_minutes.
Proof.
  unfold format_offset. rewrite pad_n_join2_buffer, (pad_n_join2_buffer ("" ++ _)).
  rewrite !append_assoc. reflexivity.
Qed.

Lemma full_format_buffer (cfg : build_config) (env : environment)
    (msg : log_msg) (t : tm) (w : string) :
  full_format cfg env (set_formatted msg w) t
  = w ++ full_format cfg env (set_formatted msg "") t.
Proof.
  unfold full_format, subsecond. cbn [formatted set_formatted time logger_name level raw].
  destruct (SPDLOG_NO_DATETIME cfg), (SPDLOG_NO_NAME cfg);
    repeat (progress (simpl; rewrite ?append_assoc)); reflexivity.
Qed.

Lemma array_at_in_range (arr : list string) (i : Z) :
  0 <= i < Z.of_nat (List.length arr) -> exists name, array_at arr i = Some name.
Proof.
  intros Hi. unfold array_at. destruct (Z.ltb_spec i 0); [lia|].
  destruct (nth_error arr (Z.to_nat i)) eqn:Hn; [eexists; reflexivity|].
  apply nth_error_None in Hn. lia.
Qed.

Lemma array_at_out_of_range (arr : list string) (i : Z) :
  ~ 0 <= i < Z.of_nat (List.length arr) -> array_at arr i = None.
Proof.
  intros Hi. unfold array_at. destruct (Z.ltb_spec i 0); [reflexivity|].
  apply nth_error_None. lia.
Qed.

(** A directive either does not return whatever the buffer holds, or appends
    a text that does not depend on the buffer and leaves the rest of the
    record alone. *)
Lemma directive_appends (cfg : build_config) (env : environment)
    (f : flag_formatter) (msg : log_msg) (t : tm) :
  (forall w, flag_formatter_format cfg env f (set_formatted msg w) t = None)
  \/ exists f' text,
       forall w, flag_formatter_format cfg env f (set_formatted msg w) t
                 = Some (f', set_formatted msg (w ++ text)).
Proof.
  destruct f;
    try (right; eexists _, _; intros w;
         cbn [flag_formatter_format formatted set_formatted];
         unfold set_formatted, subsecond;
         cbn [formatted logger_name level time thread_id raw msg_id];
         first [ reflexivity
               | rewrite pad_n_join3_buffer, ?append_assoc; reflexivity
               | rewrite pad_n_join2_buffer; reflexivity ]).
  - (* name_formatter *)
    exact (padded_directive_appends (name_formatter _length) msg
             (fun w => pad_space_left env _length w (logger_name msg))
             (fun w => pad_space_left_buffer env _length w _)).
  - (* level_formatter *)
    exact (padded_directive_appends (level_formatter _length) msg
             (fun w => pad_space_left env _length w (level_to_str env (level msg)))
             (fun w => pad_space_left_buffer env _length w _)).
  - (* short_level_formatter *)
    exact (padded_directive_appends (short_level_formatter _length) msg
             (fun w => pad_space_left env _length w
                         (level_to_short_str env (level msg)))
             (fun w => pad_space_left_buffer env _length w _)).
  - (* a_formatter *)
    cbn [flag_formatter_format].
    destruct (array_at days (tm_wday t)) as [d|]; [|left; reflexivity].
    exact (padded_directive_appends (a_formatter _length) msg
             (fun w => pad_space_right env _length w d)
             (fun w => pad_space_right_buffer env _length w _)).
  - (* A_formatter *)
    cbn [flag_formatter_format].
    destruct (array_at full_days (tm_wday t)) as [d|]; [|left; reflexivity].
    exact (padded_directive_appends (A_formatter _length) msg
             (fun w => pad_space_right env _length w d)
             (fun w => pad_space_right_buffer env _length w _)).
  - (* b_formatter *)
    cbn [flag_formatter_format].
    destruct (array_at months (tm_mon t)) as [m|]; [|left; reflexivity].
    exact (padded_directive_appends (b_formatter _length) msg
             (fun w => pad_space_right env _length w m)
             (fun w => pad_space_right_buffer env _length w _)).
  - (* B_formatter *)
    cbn [flag_formatter_format].
    destruct (array_at full_months (tm_mon t)) as [m|]; [|left; reflexivity].
    exact (padded_directive_appends (B_formatter _length) msg
             (fun w => pad_space_right env _length w m)
             (fun w => pad_space_right_buffer env _length w _)).
  - (* c_formatter *)
    cbn [flag_formatter_format].
    destruct (array_at days (tm_wday t)); [|left; reflexivity].
    destruct (array_at months (tm_mon t)); [right|left; reflexivity].
    eexists _, _. intros w. cbn [formatted set_formatted].
    rewrite pad_n_join3_buffer. rewrite !append_assoc. reflexivity.
  - (* z_formatter *)
    right. cbn [flag_formatter_format]. destruct (WIN32 cfg).
    + unfold get_cached_offset. cbn [time set_formatted].
      destruct (time msg - _last_update >=? cache_refresh env);
        eexists _, _; intros w; cbn [formatted set_formatted];
        rewrite format_offset_buffer; reflexivity.
    + eexists _, _. intros w. cbn [formatted set_formatted].
      rewrite format_offset_buffer. reflexivity.
  - (* t_formatter *)
    exact (padded_directive_appends (t_formatter _length) msg
             (fun w => pad_space_right_val env _length w (thread_id msg))
             (fun w => pad_space_right_val_buffer env _length w _)).
  - (* pid_formatter *)
    exact (padded_directive_appends (pid_formatter _length) msg
             (fun w => pad_space_right_val env _length w
                         (static_cast_size_t (os_pid env)))
             (fun w => pad_space_right_val_buffer env _length w _)).
  - (* full_formatter *)
    right. eexists _, _. intros w. cbn [flag_formatter_format].
    rewrite full_format_buffer. reflexivity.
Qed.

Lemma chain_appends_or_undefined (cfg : build_config) (env : environment)
    (t : tm) (msg : log_msg) (fs : list flag_formatter) :
  (forall w, format_chain cfg env fs (set_formatted msg w) t = None)
  \/ exists fs' text,
       forall w, format_chain cfg env fs (set_formatted msg w) t
                 = Some (fs', set_formatted msg (w ++ text)).
Proof.
  induction fs as [|f fs IH].
  - right. exists [], "". intros w. simpl. rewrite append_nil_r. reflexivity.
  - destruct (directive_appends cfg env f msg t) as [Hf|(f' & a & Hf)].
    + left. intros w. cbn [format_chain]. rewrite Hf. reflexivity.
    + destruct IH as [Hfs|(fs' & b & Hfs)].
      * left. intros w. cbn [format_chain]. rewrite Hf, Hfs. reflexivity.
      * right. exists (f' :: fs'), (a ++ b). intros w. cbn [format_chain].
        rewrite Hf, Hfs, append_assoc. reflexivity.
Qed.

Lemma set_formatted_same (msg : log_msg) : set_formatted msg (formatted msg) = msg.
Proof. destruct msg; reflexivity. Qed.

(** A formatter that does not read [tm_time] does the same whatever
    [tm_time] holds, which is what a build with [SPDLOG_NO_DATETIME]
    relies on when it passes the uninitialised one. *)
Lemma directive_ignores_tm (cfg : build_config) (env : environment)
    (f : flag_formatter) (msg : log_msg) (t1 t2 : tm) :
  reads_tm_time cfg env msg f = false ->
  flag_formatter_format cfg env f msg t1 = flag_formatter_format cfg env f msg t2.
Proof.
  intros Hr. destruct f; try discriminate Hr; try reflexivity.
  - cbn [reads_tm_time] in Hr. cbn [flag_formatter_format].
    destruct (WIN32 cfg); [|discriminate Hr].
    unfold get_cached_offset. rewrite Hr. reflexivity.
  - cbn [reads_tm_time] in Hr. cbn [flag_formatter_format]. unfold full_format.
    destruct (SPDLOG_NO_DATETIME cfg); [reflexivity|discriminate Hr].
Qed.

Lemma directive_keeps_time (cfg : build_config) (env : environment)
    (f f' : flag_formatter) (msg msg' : log_msg) (t : tm) :
  flag_formatter_format cfg env f msg t = Some (f', msg') -> time msg' = time msg.
Proof.
  intros H. rewrite <- (set_formatted_same msg) in H at 1.
  destruct (directive_appends cfg env f msg t) as [Hn|(f1 & text & Hs)].
  - rewrite Hn in H. discriminate H.
  - rewrite Hs in H. injection H as _ <-. reflexivity.
Qed.

Lemma reads_tm_time_same_time (cfg : build_config) (env : environment)
    (msg msg' : log_msg) (fs : list flag_formatter) :
  time msg' = time msg ->
  existsb (reads_tm_time cfg env msg') fs = existsb (reads_tm_time cfg env msg) fs.
Proof.
  intros Ht. induction fs as [|f fs IH]; [reflexivity|].
  cbn [existsb]. rewrite IH. f_equal.
  destruct f; try reflexivity. cbn [reads_tm_time]. rewrite Ht. reflexivity.
Qed.

Lemma chain_ignores_tm (cfg : build_config) (env : environment)
    (fs : list flag_formatter) (t1 t2 : tm) : forall msg,
  existsb (reads_tm_time cfg env msg) fs = false ->
  format_chain cfg env fs msg t1 = format_chain cfg env fs msg t2.
Proof.
  induction fs as [|f fs IH]; intros msg Hr; [reflexivity|].
  cbn [existsb] in Hr. apply orb_false_elim in Hr as [Hf Hfs].
  cbn [format_chain]. rewrite (directive_ignores_tm cfg env f msg t1 t2 Hf).
  destruct (flag_formatter_format cfg env f msg t2) as [[f1 msg1]|] eqn:H1;
    [|reflexivity].
  rewrite (IH msg1); [reflexivity|].
  rewrite (reads_tm_time_same_time cfg env msg msg1 fs
             (directive_keeps_time cfg env f f1 msg msg1 t2 H1)).
  exact Hfs.
Qed.

(** X11: [pattern_formatter::format], when it returns, only appends: the
    bytes the buffer held are kept, the text added ends in the line
    terminator and is the same whatever the buffer held, and the logger
    name, level, time, thread id, raw message and message id of the record
    are left as they were.  A call that throws, indexes a name table out of
    range or reads the uninitialised [tm_time] of a build with
    [SPDLOG_NO_DATETIME] does not return and is not covered. *)
Theorem format_only_appends (cfg : build_config) (env : environment)
    (pf pf' : pattern_formatter) (msg msg' : log_msg) :
  pattern_formatter_format cfg env pf msg = Some (pf', msg') ->
  exists text,
    msg' = set_formatted msg (formatted msg ++ text ++ os_eol env)
    /\ forall w,
         pattern_formatter_format cfg env pf (set_formatted msg w)
         = Some (pf', set_formatted msg (w ++ text ++ os_eol env)).
Proof.
  intros H.
  assert (Hw : forall w,
            pattern_formatter_format cfg env pf (set_formatted msg w)
            = if SPDLOG_NO_DATETIME cfg
                 && existsb (reads_tm_time cfg env msg) (_formatters pf)
              then None
              else
                match format_chain cfg env (_formatters pf) (set_formatted msg w)
                        (if SPDLOG_NO_DATETIME cfg then indeterminate_tm env
                         else get_time env pf msg) with
                | None => None
                | Some (fs, m) =>
                    Some ({| _pattern_time := _pattern_time pf; _formatters := fs |},
                          set_formatted m (formatted m ++ os_eol env))
                end) by reflexivity.
  rewrite <- (set_formatted_same msg) in H at 1. rewrite Hw in H.
  destruct (SPDLOG_NO_DATETIME cfg
            && existsb (reads_tm_time cfg env msg) (_formatters pf)) eqn:Hread;
    [discriminate H|].
  destruct (chain_appends_or_undefined cfg env
              (if SPDLOG_NO_DATETIME cfg then indeterminate_tm env
               else get_time env pf msg) msg (_formatters pf))
    as [Hn|(fs' & text & Hs)].
  - rewrite Hn in H. discriminate H.
  - rewrite Hs in H. injection H as <- <-. exists text. split.
    + cbn [formatted set_formatted]. rewrite append_assoc. reflexivity.
    + intros w. rewrite Hw, Hs. cbn [formatted set_formatted].
      rewrite append_assoc. reflexivity.
Qed.

(** X11 on the pattern "%l:%n" and [sample_msg]. *)
Lemma format_only_appends_witness :
  exists text,
    forall w,
      pattern_formatter_format default_build sample_env
        (make_pattern_formatter default_build sample_env "%l:%n" local)
        (set_formatted sample_msg w)
      = Some (make_pattern_formatter default_build sample_env "%l:%n" local,
              set_formatted sample_msg (w ++ text ++ os_eol sample_env)).
Proof.
  destruct (format_only_appends default_build sample_env
              (make_pattern_formatter default_build sample_env "%l:%n" local)
              (make_pattern_formatter default_build sample_env "%l:%n" local)
              sample_msg
              (set_formatted sample_msg ("info:worker" ++ os_eol sample_env))
              ltac:(vm_compute; reflexivity)) as (text & _ & H).
  exists text. exact H.
Defined.

Lemma directive_unchanged (cfg : build_config) (env : environment)
    (f f' : flag_formatter) (msg msg' : log_msg) (t : tm) :
  WIN32 cfg = false \/ stateless f = true ->
  flag_formatter_format cfg env f msg t = Some (f', msg') -> f' = f.
Proof.
  intros Hs H. destruct f; cbn [flag_formatter_format] in H;
    try (injection H as <- _; reflexivity);
    try (repeat match type of H with
                | match ?x with _ => _ end = _ => destruct x; try discriminate H
                end;
         injection H as <- _; reflexivity).
  destruct Hs as [Hw|Hs]; [|discriminate Hs]. rewrite Hw in H.
  injection H as <- _. reflexivity.
Qed.

(** X12: formatting a record changes no formatter of the chain unless the
    build has [_WIN32] and the chain holds a [z_formatter]: in every other
    case the chain after the walk is the chain before it. *)
Theorem format_chain_unchanged (cfg : build_config) (env : environment)
    (fs fs' : list flag_formatter) (msg msg' : log_msg) (t : tm) :
  WIN32 cfg = false \/ forallb stateless fs = true ->
  format_chain cfg env fs msg t = Some (fs', msg') -> fs' = fs.
Proof.
  revert fs' msg msg'. induction fs as [|f fs IH]; intros fs' msg msg' Hs H.
  - injection H as <- _. reflexivity.
  - cbn [format_chain] in H.
    destruct (flag_formatter_format cfg env f msg t) as [[f1 msg1]|] eqn:Hf;
      [|discriminate H].
    destruct (format_chain cfg env fs msg1 t) as [[fs1 msg2]|] eqn:Hfs;
      [|discriminate H].
    injection H as <- _.
    assert (Hs1 : WIN32 cfg = false \/ stateless f = true)
      by (destruct Hs as [Hs|Hs]; [left; exact Hs|right];
          simpl in Hs; apply andb_prop in Hs; tauto).
    assert (Hs2 : WIN32 cfg = false \/ forallb stateless fs = true)
      by (destruct Hs as [Hs|Hs]; [left; exact Hs|right];
          simpl in Hs; apply andb_prop in Hs; tauto).
    rewrite (directive_unchanged cfg env f f1 msg msg1 t Hs1 Hf).
    rewrite (IH fs1 msg1 msg2 Hs2 Hfs). reflexivity.
Qed.

(** X12 on the chain of "%H:%M %z" in [default_build]. *)
Lemma format_chain_unchanged_witness :
  format_chain default_build sample_env
    (compile_pattern default_build sample_env "%H:%M %z") sample_msg sample_tm
  = Some (compile_pattern default_build sample_env "%H:%M %z",
          set_formatted sample_msg "15:35 +01:00")
  /\ compile_pattern default_build sample_env "%H:%M %z"
     = compile_pattern default_build sample_env "%H:%M %z".
Proof.
  assert (H : format_chain default_build sample_env
                (compile_pattern default_build sample_env "%H:%M %z")
                sample_msg sample_tm
              = Some (compile_pattern default_build sample_env "%H:%M %z",
                      set_formatted sample_msg "15:35 +01:00"))
    by (vm_compute; reflexivity).
  split; [exact H|].
  exact (format_chain_unchanged default_build sample_env _ _ sample_msg _
           sample_tm (or_introl eq_refl) H).
Defined.

(** X13: a weekday or month name directive does not return exactly when
    its index is outside the name table, where the access is undefined, or
    the name is shorter than the width and the spaces missing cannot be
    built, where [pad_space_right] throws.  The weekday tables have 7
    entries and are indexed with [tm_wday], the month tables have 12 and
    are indexed with [tm_mon]. *)
Theorem table_directive_undefined_iff (cfg : build_config) (env : environment)
    (f : flag_formatter) (arr : list string) (index : tm -> Z) (_length : Z)
    (msg : log_msg) (t : tm) :
  name_table f = Some (arr, index, _length) ->
  (flag_formatter_format cfg env f msg t = None
   <-> ~ 0 <= index t < Z.of_nat (List.length arr)
       \/ exists name,
            array_at arr (index t) = Some name
            /\ size name < _length
            /\ max_fill env < _length - size name)
  /\ ((index = tm_wday /\ List.length arr = 7%nat)
      \/ (index = tm_mon /\ List.length arr = 12%nat)).
Proof.
  intros Hf.
  assert (Hpad : forall name,
            match pad_space_right env _length (formatted msg) name with
            | Some w' => Some (f, set_formatted msg w')
            | None => None
            end = None
            <-> size name < _length /\ max_fill env < _length - size name).
  { intros name. unfold pad_space_right, std_string_fill.
    destruct (Z.ltb_spec (size name) _length).
    - destruct (Z.leb_spec (_length - size name) (max_fill env)).
      + split; [discriminate|lia].
      + split; [intros _; lia|reflexivity].
    - split; [discriminate|lia]. }
  assert (Hgen :
    (match array_at arr (index t) with
     | Some name =>
         match pad_space_right env _length (formatted msg) name with
         | Some w' => Some (f, set_formatted msg w')
         | None => None
         end
     | None => None
     end = None
     <-> ~ 0 <= index t < Z.of_nat (List.length arr)
         \/ exists name,
              array_at arr (index t) = Some name
              /\ size name < _length
              /\ max_fill env < _length - size name)).
  { destruct (array_at arr (index t)) as [name|] eqn:Hn.
    - rewrite Hpad. split.
      + intros Hp. right. exists name. split; [reflexivity|exact Hp].
      + intros [Hr|(name' & Heq & Hp)].
        * exfalso. apply Hr.
          destruct (Z.lt_ge_cases (index t) 0) as [Hneg|Hpos].
          -- unfold array_at in Hn. destruct (Z.ltb_spec (index t) 0); [discriminate Hn|lia].
          -- destruct (Z.lt_ge_cases (index t) (Z.of_nat (List.length arr)));
               [lia|].
             rewrite array_at_out_of_range in Hn by lia. discriminate Hn.
        * injection Heq as <-. exact Hp.
    - split; [|reflexivity]. intros _. left. intros Hr.
      destruct (array_at_in_range arr (index t) Hr) as [name Hname]. congruence. }
  destruct f; try discriminate Hf; injection Hf as <- <- <-;
    cbn [flag_formatter_format]; (split; [exact Hgen|]);
    [left|left|right|right]; split; reflexivity.
Qed.

(** X13 on the month directive with a [tm_mon] of 12, and on the weekday
    directive with "Tue" in a field wider than [sample_env] can fill. *)
Lemma table_directive_undefined_iff_witness :
  flag_formatter_format default_build sample_env (b_formatter 0) sample_msg
    (with_mon sample_tm 12) = None
  /\ flag_formatter_format default_build sample_env (a_formatter 2000000)
       sample_msg sample_tm = None.
Proof.
  split.
  - apply (proj2 (proj1 (table_directive_undefined_iff default_build sample_env
                           (b_formatter 0) months tm_mon 0 sample_msg
                           (with_mon sample_tm 12) eq_refl))).
    left. vm_compute. intros [_ H]. discriminate H.
  - apply (proj2 (proj1 (table_directive_undefined_iff default_build sample_env
                           (a_formatter 2000000) days tm_wday 2000000 sample_msg
                           sample_tm eq_refl))).
    right. exists "Tue". vm_compute. repeat split.
Defined.

(* ------------------------------------------------------------------ *)
(** ** The offset cache over a run of records *)

Lemma get_cached_offset_step (env : environment) (lu om : Z) (msg : log_msg) (t : tm) :
  0 < ticks_per_second env ->
  lu <= fst (fst (get_cached_offset env lu om msg t))
  /\ time msg - fst (fst (get_cached_offset env lu om msg t)) < cache_refresh env
  /\ (fst (get_cached_offset env lu om msg t) = (lu, om)
      \/ fst (get_cached_offset env lu om msg t)
         = (time msg, os_utc_minutes_offset env t)).
Proof.
  intros Ht. unfold get_cached_offset, cache_refresh.
  destruct (Z.geb_spec (time msg - lu) (5 * ticks_per_second env)); cbn [fst snd].
  - split; [lia|]. split; [lia|]. right. reflexivity.
  - split; [lia|]. split; [lia|]. left. reflexivity.
Qed.

(** X14: over any run of records, in whatever order their timestamps
    come, the refresh time of the offset cache never goes back; after
    each call the record just served is less than the refresh window past
    it; and the cache holds either its initial content or the timestamp
    of one of the records with the offset the OS query gave for that
    record's calendar breakdown. *)
Theorem offset_cache_invariants (env : environment) (last_update offset_minutes : Z)
    (records : list (log_msg * tm)) :
  0 < ticks_per_second env ->
  last_update <= fst (cache_after env last_update offset_minutes records)
  /\ (cache_after env last_update offset_minutes records = (last_update, offset_minutes)
      \/ exists msg t,
           In (msg, t) records
           /\ cache_after env last_update offset_minutes records
              = (time msg, os_utc_minutes_offset env t))
  /\ (forall msg t,
        time msg - fst (fst (get_cached_offset env last_update offset_minutes msg t))
        < cache_refresh env).
Proof.
  intros Ht. split; [|split].
  - revert last_update offset_minutes.
    induction records as [|[msg t] rest IH]; intros lu om; cbn [cache_after fst];
      [lia|].
    pose proof (get_cached_offset_step env lu om msg t Ht) as (Hle & _ & _).
    destruct (get_cached_offset env lu om msg t) as [[lu' om'] v]. simpl in Hle.
    specialize (IH lu' om'). lia.
  - revert last_update offset_minutes.
    induction records as [|[msg t] rest IH]; intros lu om; cbn [cache_after In];
      [left; reflexivity|].
    pose proof (get_cached_offset_step env lu om msg t Ht) as (_ & _ & Hst).
    destruct (get_cached_offset env lu om msg t) as [[lu' om'] v]. simpl in Hst.
    destruct (IH lu' om') as [Hsame|(m & t' & Hin & Heq)].
    + rewrite Hsame. destruct Hst as [Hst|Hst]; injection Hst as -> ->.
      * left. reflexivity.
      * right. exists msg, t. split; [left; reflexivity|reflexivity].
    + right. exists m, t'. split; [right; exact Hin|exact Heq].
  - intros msg t. apply (get_cached_offset_step env _ _ msg t Ht).
Qed.

(** X14 on the records at seconds 100, 104, 106 and then 90. *)
Lemma offset_cache_invariants_witness :
  cache_after sample_env 0 0
    [(with_time sample_msg (seconds 100), sample_tm);
     (with_time sample_msg (seconds 104), sample_tm);
     (with_time sample_msg (seconds 106), dst_tm);
     (with_time sample_msg (seconds 90), sample_tm)]
  = (seconds 106, 120)
  /\ 0 <= fst (cache_after sample_env 0 0
                 [(with_time sample_msg (seconds 100), sample_tm);
                  (with_time sample_msg (seconds 104), sample_tm);
                  (with_time sample_msg (seconds 106), dst_tm);
                  (with_time sample_msg (seconds 90), sample_tm)]).
Proof.
  split; [reflexivity|].
  exact (proj1 (offset_cache_invariants sample_env 0 0 _ ltac:(vm_compute; reflexivity))).
Defined.

(* ------------------------------------------------------------------ *)
(** ** The twelve-hour clock *)

(** X15: on the hours 0 to 23, the twelve-hour value together with the
    AM/PM marker determines the hour: two different hours of the day never
    print alike under [%I %p]. *)
Theorem to12h_ampm_injective (t1 t2 : tm) :
  0 <= tm_hour t1 <= 23 -> 0 <= tm_hour t2 <= 23 ->
  tm_hour t1 <> tm_hour t2 ->
  (to12h t1, ampm t1) <> (to12h t2, ampm t2).
Proof.
  unfold to12h, ampm. intros H1 H2 Hne Heq. injection Heq as H12 Hap.
  destruct (Z.gtb_spec (tm_hour t1) 12), (Z.gtb_spec (tm_hour t2) 12),
           (Z.geb_spec (tm_hour t1) 12), (Z.geb_spec (tm_hour t2) 12);
    try discriminate Hap; lia.
Qed.

(** X15 on noon against midnight. *)
Lemma to12h_ampm_injective_witness :
  (to12h noon_tm, ampm noon_tm) <> (to12h midnight_tm, ampm midnight_tm).
Proof.
  exact (to12h_ampm_injective noon_tm midnight_tm
           ltac:(vm_compute; split; discriminate)
           ltac:(vm_compute; split; discriminate)
           ltac:(vm_compute; discriminate)).
Defined.

(* ------------------------------------------------------------------ *)
(** ** Composite directives *)

Lemma chain_appends_text cfg env fs msg t text text' :
  chain_appends cfg env fs msg t text' -> text' = text ->
  chain_appends cfg env fs msg t text.
Proof. intros H <-. exact H. Qed.

Lemma chain_output_appends cfg env pattern msg t text :
  chain_appends cfg env (compile_pattern cfg env pattern) msg t text ->
  chain_output cfg env pattern msg t = Some (formatted msg ++ text).
Proof.
  intros H. unfold chain_output. rewrite (chain_appends_run _ _ _ _ _ _ H).
  reflexivity.
Qed.

Ltac chain_appends_steps :=
  repeat (eapply chain_appends_cons;
          [intros ?w; cbn [flag_formatter_format]; unfold set_formatted;
           cbn [formatted logger_name level time thread_id raw msg_id];
           rewrite ?pad_space_left_0;
           try rewrite pad_n_join3_buffer; try rewrite pad_n_join2_buffer;
           rewrite ?append_assoc;
           reflexivity|]);
  apply chain_appends_nil.

(** X16: the composite clock and date directives print what their
    expansions print, for every record and calendar breakdown: [%R] is
    [%H:%M], [%T] is [%H:%M:%S], [%r] is [%I:%M:%S %p] and [%D] is
    [%m/%d/%C]. *)
Theorem composite_directives_expand (cfg : build_config) (env : environment)
    (msg : log_msg) (t : tm) :
  chain_output cfg env "%R" msg t = chain_output cfg env "%H:%M" msg t
  /\ chain_output cfg env "%T" msg t = chain_output cfg env "%H:%M:%S" msg t
  /\ chain_output cfg env "%r" msg t = chain_output cfg env "%I:%M:%S %p" msg t
  /\ chain_output cfg env "%D" msg t = chain_output cfg env "%m/%d/%C" msg t
  /\ chain_output cfg env "%R" msg t
     = Some (formatted msg ++ fmt.pad (tm_hour t) 2 "0" ++ ":"
               ++ fmt.pad (tm_min t) 2 "0").
Proof.
  assert (HR : chain_output cfg env "%R" msg t
               = Some (formatted msg ++ fmt.pad (tm_hour t) 2 "0" ++ ":"
                         ++ fmt.pad (tm_min t) 2 "0")).
  { apply chain_output_appends. change (compile_pattern cfg env "%R") with [R_formatter].
    eapply chain_appends_text; [chain_appends_steps|].
    unfold pad_n_join2. simpl. rewrite append_nil_r. reflexivity. }
  split; [|split; [|split; [|split; [|exact HR]]]].
  - rewrite HR. symmetry. apply chain_output_appends.
    change (compile_pattern cfg env "%H:%M")
      with [H_formatter; aggregate_formatter ":"; M_formatter].
    eapply chain_appends_text; [chain_appends_steps|].
    simpl. rewrite append_nil_r. reflexivity.
  - transitivity (Some (formatted msg ++ pad_n_join3 "" (tm_hour t) (tm_min t) (tm_sec t) ":")).
    + apply chain_output_appends. change (compile_pattern cfg env "%T") with [T_formatter].
      eapply chain_appends_text; [chain_appends_steps|]. apply append_nil_r.
    + symmetry. apply chain_output_appends.
      change (compile_pattern cfg env "%H:%M:%S")
        with [H_formatter; aggregate_formatter ":"; M_formatter;
              aggregate_formatter ":"; S_formatter].
      eapply chain_appends_text; [chain_appends_steps|].
      unfold pad_n_join3. simpl. rewrite append_nil_r. reflexivity.
  - transitivity (Some (formatted msg
                        ++ pad_n_join3 "" (to12h t) (tm_min t) (tm_sec t) ":"
                        ++ " " ++ ampm t)).
    + apply chain_output_appends. change (compile_pattern cfg env "%r") with [r_formatter].
      eapply chain_appends_text; [chain_appends_steps|]. apply append_nil_r.
    + symmetry. apply chain_output_appends.
      change (compile_pattern cfg env "%I:%M:%S %p")
        with [I_formatter; aggregate_formatter ":"; M_formatter;
              aggregate_formatter ":"; S_formatter; aggregate_formatter " ";
              p_formatter].
      eapply chain_appends_text; [chain_appends_steps|].
      unfold pad_n_join3. repeat (progress (simpl; rewrite ?append_assoc)).
      rewrite append_nil_r. reflexivity.
  - transitivity (Some (formatted msg
                        ++ pad_n_join3 "" (static_cast_int (tm_mon t + 1)) (tm_mday t)
                             (Z.rem (tm_year t) 100) "/")).
    + apply chain_output_appends. change (compile_pattern cfg env "%D") with [D_formatter].
      eapply chain_appends_text; [chain_appends_steps|]. apply append_nil_r.
    + symmetry. apply chain_output_appends.
      change (compile_pattern cfg env "%m/%d/%C")
        with [m_formatter; aggregate_formatter "/"; d_formatter;
              aggregate_formatter "/"; C_formatter].
      eapply chain_appends_text; [chain_appends_steps|].
      unfold pad_n_join3. simpl. rewrite append_nil_r. reflexivity.
Qed.

(** X17: in a build with [SPDLOG_NO_DATETIME], the full line [%+] prints
    for every record what the pattern "[%n] [%l] %v" prints, and what
    "[%l] %v" prints when [SPDLOG_NO_NAME] is defined as well; the calendar
    breakdown plays no part. *)
Theorem full_line_without_datetime (cfg : build_config) (env : environment)
    (msg : log_msg) (t : tm) :
  SPDLOG_NO_DATETIME cfg = true ->
  chain_output cfg env "%+" msg t
  = chain_output cfg env
      (if SPDLOG_NO_NAME cfg then "[%l] %v" else "[%n] [%l] %v") msg t
  /\ forall t', chain_output cfg env "%+" msg t' = chain_output cfg env "%+" msg t.
Proof.
  intros Hd.
  assert (Hfull : forall t0,
            chain_output cfg env "%+" msg t0
            = Some (formatted msg
                    ++ (if SPDLOG_NO_NAME cfg then ""
                        else "[" ++ logger_name msg ++ "] ")
                    ++ "[" ++ level_to_str env (level msg) ++ "] " ++ raw msg)).
  { intros t0. unfold chain_output.
    change (compile_pattern cfg env "%+") with [full_formatter].
    cbn [format_chain flag_formatter_format formatted set_formatted].
    unfold full_format. rewrite Hd.
    destruct (SPDLOG_NO_NAME cfg);
      repeat (progress (simpl; rewrite ?append_assoc)); reflexivity. }
  split; [|intros t'; rewrite !Hfull; reflexivity].
  rewrite Hfull. symmetry. apply chain_output_appends.
  destruct (SPDLOG_NO_NAME cfg).
  - change (compile_pattern cfg env "[%l] %v")
      with [aggregate_formatter "["; level_formatter 0; aggregate_formatter "] ";
            v_formatter].
    eapply chain_appends_text; [chain_appends_steps|].
    repeat (progress (simpl; rewrite ?append_assoc)). rewrite append_nil_r. reflexivity.
  - change (compile_pattern cfg env "[%n] [%l] %v")
      with [aggregate_formatter "["; name_formatter 0; aggregate_formatter "] [";
            level_formatter 0; aggregate_formatter "] "; v_formatter].
    eapply chain_appends_text; [chain_appends_steps|].
    repeat (progress (simpl; rewrite ?append_assoc)). rewrite append_nil_r. reflexivity.
Qed.

(** X17 in [no_datetime_build] on [sample_msg]. *)
Lemma full_line_without_datetime_witness :
  chain_output no_datetime_build sample_env "%+" sample_msg sample_tm
  = chain_output no_datetime_build sample_env "[%n] [%l] %v" sample_msg sample_tm.
Proof.
  exact (proj1 (full_line_without_datetime no_datetime_build sample_env
                  sample_msg sample_tm eq_refl)).
Defined.

(* ------------------------------------------------------------------ *)
(** ** Fixed-width fields *)

Lemma pad_two_digits (v : Z) :
  0 <= v <= 99 -> zero_padded_digits 2 v (fmt.pad v 2 "0").
Proof.
  intros Hv. rewrite (pad_fixed_width 1) by (simpl; lia).
  apply format_decimal_digits. simpl. lia.
Qed.

(** X18: when hour, minute and second are between 0 and 99, as in every
    time of day, [%T] appends exactly eight characters: two digits that
    read back as the hour, a colon, two digits for the minute, a colon
    and two digits for the second. *)
Theorem T_formatter_fixed_width (cfg : build_config) (env : environment)
    (msg : log_msg) (t : tm) :
  0 <= tm_hour t <= 99 -> 0 <= tm_min t <= 99 -> 0 <= tm_sec t <= 99 ->
  exists hh mm ss,
    flag_formatter_format cfg env T_formatter msg t
    = Some (T_formatter,
            set_formatted msg (formatted msg ++ hh ++ ":" ++ mm ++ ":" ++ ss))
    /\ zero_padded_digits 2 (tm_hour t) hh
    /\ zero_padded_digits 2 (tm_min t) mm
    /\ zero_padded_digits 2 (tm_sec t) ss
    /\ size (hh ++ ":" ++ mm ++ ":" ++ ss) = 8.
Proof.
  intros Hh Hm Hs.
  exists (fmt.pad (tm_hour t) 2 "0"), (fmt.pad (tm_min t) 2 "0"),
         (fmt.pad (tm_sec t) 2 "0").
  pose proof (pad_two_digits _ Hh) as Dh. pose proof (pad_two_digits _ Hm) as Dm.
  pose proof (pad_two_digits _ Hs) as Ds.
  split; [reflexivity|]. repeat split; try apply Dh; try apply Dm; try apply Ds.
  destruct Dh as (Lh & _), Dm as (Lm & _), Ds as (Ls & _).
  unfold size. rewrite !length_append, Lh, Lm, Ls. reflexivity.
Qed.

(** X18 on [sample_tm], 15:35:46. *)
Lemma T_formatter_fixed_width_witness :
  exists hh mm ss,
    flag_formatter_format default_build sample_env T_formatter sample_msg sample_tm
    = Some (T_formatter,
            set_formatted sample_msg
              (formatted sample_msg ++ hh ++ ":" ++ mm ++ ":" ++ ss))
    /\ zero_padded_digits 2 (tm_hour sample_tm) hh
    /\ zero_padded_digits 2 (tm_min sample_tm) mm
    /\ zero_padded_digits 2 (tm_sec sample_tm) ss
    /\ size (hh ++ ":" ++ mm ++ ":" ++ ss) = 8.
Proof.
  exact (T_formatter_fixed_width default_build sample_env sample_msg sample_tm
           ltac:(vm_compute; split; discriminate)
           ltac:(vm_compute; split; discriminate)
           ltac:(vm_compute; split; discriminate)).
Defined.

(** X19: from the year 1900 on ([tm_year >= 0]) the two-digit year
    directive [%C] appends exactly two digits, those of the calendar year
    [tm_year + 1900] modulo 100. *)
Theorem C_formatter_two_digit_year (cfg : build_config) (env : environment)
    (msg : log_msg) (t : tm) :
  0 <= tm_year t ->
  exists yy,
    flag_formatter_format cfg env C_formatter msg t
    = Some (C_formatter, set_formatted msg (formatted msg ++ yy))
    /\ zero_padded_digits 2 ((tm_year t + 1900) mod 100) yy.
Proof.
  intros Hy. exists (fmt.pad (Z.rem (tm_year t) 100) 2 "0").
  split; [reflexivity|].
  rewrite Z.rem_mod_nonneg by lia.
  replace ((tm_year t + 1900) mod 100) with (tm_year t mod 100)
    by (replace (tm_year t + 1900) with (tm_year t + 19 * 100) by lia;
        rewrite Z.mod_add by lia; reflexivity).
  apply pad_two_digits.
  pose proof (Z.mod_pos_bound (tm_year t) 100 ltac:(lia)). lia.
Qed.

(** X19 on [sample_tm], the year 2024. *)
Lemma C_formatter_two_digit_year_witness :
  exists yy,
    flag_formatter_format default_build sample_env C_formatter sample_msg sample_tm
    = Some (C_formatter, set_formatted sample_msg (formatted sample_msg ++ yy))
    /\ zero_padded_digits 2 ((tm_year sample_tm + 1900) mod 100) yy.
Proof.
  exact (C_formatter_two_digit_year default_build sample_env sample_msg sample_tm
           ltac:(vm_compute; discriminate)).
Defined.

(** X20: an offset of less than a hundred hours either way prints as six
    characters: the sign, ['-'] exactly for a negative offset, two digits
    for the hours, a colon and two digits for the minutes of its
    magnitude. *)
Theorem format_offset_shape (w : string) (total_minutes : Z) :
  - 6000 < total_minutes < 6000 ->
  exists hh mm,
    format_offset w total_minutes
    = w ++ String (if total_minutes <? 0 then "-"%char else "+"%char) (hh ++ ":" ++ mm)
    /\ zero_padded_digits 2 (Z.abs total_minutes / 60) hh
    /\ zero_padded_digits 2 (Z.abs total_minutes mod 60) mm
    /\ size (String "+" (hh ++ ":" ++ mm)) = 6.
Proof.
  intros Ht. unfold format_offset.
  set (m := if total_minutes <? 0 then static_cast_int (- total_minutes)
            else total_minutes).
  assert (Hm : m = Z.abs total_minutes).
  { subst m. destruct (Z.ltb_spec total_minutes 0).
    - rewrite static_cast_int_small by lia. lia.
    - lia. }
  rewrite Hm. assert (Ha : 0 <= Z.abs total_minutes < 6000) by lia.
  rewrite Z.quot_div_nonneg, Z.rem_mod_nonneg by lia.
  assert (Hq : 0 <= Z.abs total_minutes / 60 <= 99).
  { split; [apply Z.div_pos; lia|].
    assert (Z.abs total_minutes / 60 < 100) by (apply Z.div_lt_upper_bound; lia). lia. }
  pose proof (Z.mod_pos_bound (Z.abs total_minutes) 60 ltac:(lia)) as Hr.
  pose proof (pad_two_digits _ Hq) as Dh.
  pose proof (pad_two_digits (Z.abs total_minutes mod 60) ltac:(lia)) as Dm.
  eexists _, _. split; [|split; [exact Dh|split; [exact Dm|]]].
  - unfold pad_n_join2. rewrite append_assoc. reflexivity.
  - destruct Dh as (Lh & _), Dm as (Lm & _).
    unfold size. cbn [String.length]. rewrite !length_append, Lh, Lm. reflexivity.
Qed.

(** X20 on an offset of minus five and a half hours, "-05:30". *)
Lemma format_offset_shape_witness :
  exists hh mm,
    format_offset "" (-330)
    = "" ++ String (if -330 <? 0 then "-"%char else "+"%char) (hh ++ ":" ++ mm)
    /\ zero_padded_digits 2 (Z.abs (-330) / 60) hh
    /\ zero_padded_digits 2 (Z.abs (-330) mod 60) mm
    /\ size (String "+" (hh ++ ":" ++ mm)) = 6.
Proof.
  exact (format_offset_shape "" (-330) ltac:(lia)).
Defined.
